(** * Smart File Organizer AI: the analysis cache and the batch pipeline

    A shallow embedding of [smart_file_organizer.py]: [SmartHash],
    [AnalysisCache], [AIAnalyzer] ([__init__], [analyze] and the reading of a
    reply of Gemini), [MetadataManager], [FileOrganizer] ([safe_rename],
    [process_file], [process_batch], [cleanup]), [collect_files], and of
    [main] the parser with its overrides, the choice of the files, their
    processing and the summary; and of [web_server.py]: [allowed_file], the
    configuration and the loop of [process_files], and [cleanup_uploads].

    Conventions of the embedding.
    - A Python [str] is a [string]; a character is a code point below 256.
    - [bytes] are [list byte].
    - A Python [dict] is an association list in insertion order, without
      repeated keys; JSON values are the inductive type [json].
    - A [pathlib.Path] is the list of its components (absolute POSIX paths).
    - Code that may raise returns a [result]; code that also reads or writes
      the file system, the cache database or the clock runs in the monad [M],
      whose state survives an exception, as Python's does.
    - The services the program calls but does not define (SHA-256, float
      formatting, [mimetypes], the AI backends, exiftool, [input],
      [time.sleep], the wording of a decode error) are the fields of an
      environment [Env].
    - The two loops without a bound of their own, the scanner of [json.loads]
      and the collision loop of [safe_rename], take fuel; both are shown to
      have enough of it.
    - A batch runs its pipelines one after the other in the order in which
      the tasks complete, an arbitrary permutation of the input.
    - [glob] lists the entries of a directory in an order of the model's;
      Python's is that of the file system.

    The definitions come first: the program, then the vocabulary of the
    statements and an example world.  The facts follow. *)

From Stdlib Require Import ZArith List String Ascii PrimFloat FloatOps SpecFloat.
From Stdlib Require Import Lia Permutation.
From Stdlib.Strings Require Import Byte.
From stdpp Require Import gmap strings list pretty.

Local Open Scope string_scope.
Local Open Scope list_scope.

(** ** Exceptions and results *)

(** A raised [Exception]: its class name and [str(e)]. *)
Record PyExc := MkExc { exc_type : string; exc_msg : string }.

Inductive result (A : Type) : Type :=
| Ok (a : A)
| Raise (e : PyExc).
Arguments Ok {A} a.
Arguments Raise {A} e.

Definition rbind {A B} (r : result A) (k : A -> result B) : result B :=
  match r with
  | Ok a => k a
  | Raise e => Raise e
  end.

Notation "'let?' x ':=' r 'in' k" := (rbind r (fun x => k))
  (at level 10, x pattern, r at level 100, k at level 200).

(** ** Python strings *)

Module PyStr.

Definition code (c : ascii) : N := N_of_ascii c.

(** [str.isspace] on the code points below 256. *)
Definition isspace (c : ascii) : bool :=
  let n := code c in
  ((9 <=? n) && (n <=? 13) || (28 <=? n) && (n <=? 32)
   || (n =? 133) || (n =? 160))%N%bool.

Fixpoint lstrip (s : string) : string :=
  match s with
  | "" => ""
  | String c s' => if isspace c then lstrip s' else s
  end.

Fixpoint rstrip (s : string) : string :=
  match s with
  | "" => ""
  | String c s' =>
      match rstrip s' with
      | "" => if isspace c then "" else String c ""
      | r => String c r
      end
  end.

(** [s.strip()] *)
Definition strip (s : string) : string := rstrip (lstrip s).

Fixpoint map_chars (f : ascii -> ascii) (s : string) : string :=
  match s with
  | "" => ""
  | String c s' => String (f c) (map_chars f s')
  end.

Fixpoint mem_char (c : ascii) (s : string) : bool :=
  match s with
  | "" => false
  | String d s' => Ascii.eqb c d || mem_char c s'
  end.

(** The character class of the pattern in [safe_rename]'s [re.sub]: less-than,
    greater-than, colon, double quote, slash, backslash, bar, question mark
    and star, by code point. *)
Definition reserved : list N := [60; 62; 58; 34; 47; 92; 124; 63; 42]%N.

Definition is_reserved (c : ascii) : bool :=
  existsb (N.eqb (code c)) reserved.

Definition sub_reserved (s : string) : string :=
  map_chars (fun c => if is_reserved c then "_"%char else c) s.

(** [s.rfind('.')] *)
Fixpoint rfind_dot (s : string) : option nat :=
  match s with
  | "" => None
  | String c s' =>
      match rfind_dot s' with
      | Some i => Some (S i)
      | None => if Ascii.eqb c "."%char then Some 0 else None
      end
  end.

(** [s in t] for strings: [s] occurs in [t]. *)
Fixpoint contains (s t : string) : bool :=
  String.prefix s t ||
  match t with
  | "" => false
  | String _ t' => contains s t'
  end.

(** [str.encode()]: UTF-8 of code points below 256. *)
Definition utf8_char (c : ascii) : list byte :=
  let n := code c in
  if (n <? 128)%N then [byte_of_ascii c]
  else match Byte.of_N (192 + n / 64), Byte.of_N (128 + n mod 64) with
       | Some b1, Some b2 => [b1; b2]
       | _, _ => []
       end.

Fixpoint encode (s : string) : list byte :=
  match s with
  | "" => []
  | String c s' => utf8_char c ++ encode s'
  end.

(** [str.lower] on the code points below 256. *)
Definition lower_char (c : ascii) : ascii :=
  let n := code c in
  if ((65 <=? n) && (n <=? 90) || (192 <=? n) && (n <=? 222) && negb (n =? 215))%N
  then ascii_of_N (n + 32) else c.

Definition lower (s : string) : string := map_chars lower_char s.

(** [sep.join(l)] *)
Fixpoint join (sep : string) (l : list string) : string :=
  match l with
  | [] => ""
  | [x] => x
  | x :: l' => x +:+ sep +:+ join sep l'
  end.

(** [s.split(sep)] for a separator that is not empty (Python raises
    [ValueError] for an empty one): the pieces between the occurrences of
    [sep], found from the left, without overlap.  [skip] counts the characters
    of the occurrence at hand that are still to be passed over. *)
Fixpoint split_go (sep : string) (skip : nat) (s : string) : list string :=
  match s with
  | "" => [""]
  | String c r =>
      match skip with
      | S n => split_go sep n r
      | O =>
          if String.prefix sep s
          then "" :: split_go sep (String.length sep - 1) r
          else match split_go sep 0 r with
               | x :: l => String c x :: l
               | [] => [String c ""]
               end
      end
  end.

Definition split (sep s : string) : list string := split_go sep 0 s.

End PyStr.

(** ** JSON values, Python dicts, [json.dumps] and [json.loads] *)

Module Json.

Unset Elimination Schemes.
(** The values [json.loads] builds, floats excepted: [None], [bool], [int],
    [str], [list], and [dict] with string keys in insertion order. *)
Inductive json : Type :=
| JNull
| JBool (b : bool)
| JInt (n : Z)
| JStr (s : string)
| JArr (l : list json)
| JObj (m : list (string * json)).
Set Elimination Schemes.

Abbreviation dict := (list (string * json)).

(** [d.get(k)] / [d[k]] *)
Fixpoint dict_get (k : string) (d : dict) : option json :=
  match d with
  | [] => None
  | (k', v) :: d' => if String.eqb k k' then Some v else dict_get k d'
  end.

(** [k in d] *)
Definition dict_has (k : string) (d : dict) : bool :=
  match dict_get k d with Some _ => true | None => false end.

(** [d[k] = v]: an existing key keeps its position. *)
Fixpoint dict_set (k : string) (v : json) (d : dict) : dict :=
  match d with
  | [] => [(k, v)]
  | (k', v') :: d' =>
      if String.eqb k k' then (k, v) :: d' else (k', v') :: dict_set k v d'
  end.

(** [dict(pairs)] *)
Definition dict_of_pairs (l : dict) : dict :=
  fold_left (fun d kv => dict_set (fst kv) (snd kv) d) l [].

(** Truth value of a Python object, as in [if cached:]. *)
Definition truthy (v : json) : bool :=
  match v with
  | JNull => false
  | JBool b => b
  | JInt n => negb (n =? 0)%Z
  | JStr s => negb (String.eqb s "")
  | JArr l => match l with [] => false | _ => true end
  | JObj m => match m with [] => false | _ => true end
  end.

(** [type(v).__name__] *)
Definition type_name (v : json) : string :=
  match v with
  | JNull => "NoneType"
  | JBool _ => "bool"
  | JInt _ => "int"
  | JStr _ => "str"
  | JArr _ => "list"
  | JObj _ => "dict"
  end.

(** A value of the model is a Python value when no dict repeats a key. *)
Fixpoint wf (v : json) : Prop :=
  match v with
  | JArr l => (fix all (l : list json) : Prop :=
                 match l with [] => True | x :: l' => wf x /\ all l' end) l
  | JObj m => NoDup (map fst m) /\
              (fix all (m : dict) : Prop :=
                 match m with [] => True | (_, x) :: m' => wf x /\ all m' end) m
  | _ => True
  end.

(** *** Serialisation: [json.dumps(v)] with the default separators and
    [ensure_ascii=True].  [emit v k] is the text of [v] followed by [k]. *)

Definition chr (n : N) : ascii := ascii_of_N n.
Definition dquote : ascii := chr 34.
Definition bslash : ascii := chr 92.

Definition hex_digit (n : N) : ascii :=
  if (n <? 10)%N then chr (48 + n) else chr (87 + n).

(** One character of a string literal, as [ESCAPE_ASCII] rewrites it. *)
Definition emit_char (c : ascii) (k : string) : string :=
  let n := PyStr.code c in
  if (n =? 34)%N then String bslash (String dquote k)
  else if (n =? 92)%N then String bslash (String bslash k)
  else if (n =? 10)%N then String bslash (String "n" k)
  else if (n =? 13)%N then String bslash (String "r" k)
  else if (n =? 9)%N then String bslash (String "t" k)
  else if (n =? 8)%N then String bslash (String "b" k)
  else if (n =? 12)%N then String bslash (String "f" k)
  else if ((n <? 32) || (126 <? n))%N then
    String bslash (String "u" (String "0" (String "0"
      (String (hex_digit (n / 16)) (String (hex_digit (n mod 16)) k)))))
  else String c k.

Fixpoint emit_chars (s : string) (k : string) : string :=
  match s with
  | "" => k
  | String c s' => emit_char c (emit_chars s' k)
  end.

Definition emit_str (s : string) (k : string) : string :=
  String dquote (emit_chars s (String dquote k)).

Fixpoint emit (v : json) (k : string) : string :=
  match v with
  | JNull => "null" +:+ k
  | JBool true => "true" +:+ k
  | JBool false => "false" +:+ k
  | JInt n => pretty n +:+ k
  | JStr s => emit_str s k
  | JArr l =>
      String "["
        ((fix items (l : list json) : string :=
            match l with
            | [] => String "]" k
            | x :: l' =>
                emit x match l' with
                       | [] => String "]" k
                       | _ => String "," (String " " (items l'))
                       end
            end) l)
  | JObj m =>
      String "{"
        ((fix members (m : dict) : string :=
            match m with
            | [] => String "}" k
            | (key, x) :: m' =>
                emit_str key (String ":" (String " "
                  (emit x match m' with
                          | [] => String "}" k
                          | _ => String "," (String " " (members m'))
                          end)))
            end) m)
  end.

Definition dumps (v : json) : string := emit v "".

(** *** Parsing: [json.loads(s)].

    The scanner follows [json.decoder] and [json.scanner]: one value, white
    space allowed around every token, nothing but white space after the value.
    Two kinds of text are valid JSON for Python and outside this model: a
    number with a fraction or an exponent (a float, also [NaN] and
    [Infinity]), and an escape [\uXXXX] above 255.  The parser reports them as
    [Unmodelled], so that they are never confused with a decode error. *)

Inductive perr := Malformed | Unmodelled | NoFuel.

Inductive parse (A : Type) : Type :=
| Parsed (a : A) (rest : string)
| Fail (e : perr).
Arguments Parsed {A} a rest.
Arguments Fail {A} e.

Definition pbind {A B} (p : parse A) (k : A -> string -> parse B) : parse B :=
  match p with
  | Parsed a r => k a r
  | Fail e => Fail e
  end.

Definition is_ws (c : ascii) : bool :=
  let n := PyStr.code c in ((n =? 32) || (n =? 9) || (n =? 10) || (n =? 13))%N.

Fixpoint skip_ws (s : string) : string :=
  match s with
  | "" => ""
  | String c r => if is_ws c then skip_ws r else s
  end.

Definition digit_val (c : ascii) : option N :=
  let n := PyStr.code c in
  if ((48 <=? n) && (n <=? 57))%N then Some (n - 48)%N else None.

Definition hex_val (c : ascii) : option N :=
  let n := PyStr.code c in
  if ((48 <=? n) && (n <=? 57))%N then Some (n - 48)%N
  else if ((97 <=? n) && (n <=? 102))%N then Some (n - 87)%N
  else if ((65 <=? n) && (n <=? 70))%N then Some (n - 55)%N
  else None.

Fixpoint read_digits (acc : N) (s : string) : N * string :=
  match s with
  | "" => (acc, "")
  | String c r =>
      match digit_val c with
      | Some d => read_digits (acc * 10 + d) r
      | None => (acc, s)
      end
  end.

Definition starts_digit (s : string) : bool :=
  match s with
  | String c _ => match digit_val c with Some _ => true | None => false end
  | "" => false
  end.

(** After the integer part: does [NUMBER_RE] go on with a fraction or an
    exponent?  Then the number is a float. *)
Definition float_follows (s : string) : bool :=
  match s with
  | String c r =>
      let n := PyStr.code c in
      if (n =? 46)%N then starts_digit r
      else if ((n =? 101) || (n =? 69))%N then
        match r with
        | String c' r' =>
            let n' := PyStr.code c' in
            if ((n' =? 43) || (n' =? 45))%N then starts_digit r'
            else starts_digit r
        | "" => false
        end
      else false
  | "" => false
  end.

Definition finish_int (neg : bool) (n : N) (r : string) : parse json :=
  if float_follows r then Fail Unmodelled
  else Parsed (JInt (if neg then - Z.of_N n else Z.of_N n)%Z) r.

(** The integer part [0|[1-9][0-9]*] at the head of [s]. *)
Definition parse_nat (neg : bool) (s : string) : parse json :=
  match s with
  | "" => Fail Malformed
  | String c r =>
      match digit_val c with
      | None => Fail Malformed
      | Some 0%N => finish_int neg 0 r
      | Some d => let (n, r') := read_digits d r in finish_int neg n r'
      end
  end.

Definition parse_number (s : string) : parse json :=
  match s with
  | String c r =>
      if (PyStr.code c =? 45)%N then
        if String.prefix "Infinity" r then Fail Unmodelled else parse_nat true r
      else parse_nat false s
  | "" => Fail Malformed
  end.

(** [BACKSLASH]: the one-letter escapes. *)
Definition unescape (c : ascii) : option ascii :=
  let n := PyStr.code c in
  if (n =? 34)%N then Some dquote
  else if (n =? 92)%N then Some bslash
  else if (n =? 47)%N then Some "/"%char
  else if (n =? 98)%N then Some (chr 8)
  else if (n =? 102)%N then Some (chr 12)
  else if (n =? 110)%N then Some (chr 10)
  else if (n =? 114)%N then Some (chr 13)
  else if (n =? 116)%N then Some (chr 9)
  else None.

Definition hex4 (a b c d : ascii) : option N :=
  match hex_val a, hex_val b, hex_val c, hex_val d with
  | Some x, Some y, Some z, Some w => Some (((x * 16 + y) * 16 + z) * 16 + w)%N
  | _, _, _, _ => None
  end.

Definition pcons (c : ascii) (p : parse string) : parse string :=
  pbind p (fun s r => Parsed (String c s) r).

(** [scanstring], strict: the text after the opening quote, up to and
    including the closing one. *)
Fixpoint parse_str (s : string) : parse string :=
  match s with
  | "" => Fail Malformed
  | String c r =>
      let n := PyStr.code c in
      if (n =? 34)%N then Parsed "" r
      else if (n =? 92)%N then
        match r with
        | "" => Fail Malformed
        | String e r1 =>
            if (PyStr.code e =? 117)%N then
              match r1 with
              | String h1 (String h2 (String h3 (String h4 r2))) =>
                  match hex4 h1 h2 h3 h4 with
                  | Some u =>
                      if (u <? 256)%N then pcons (chr u) (parse_str r2)
                      else Fail Unmodelled
                  | None => Fail Malformed
                  end
              | _ => Fail Malformed
              end
            else
              match unescape e with
              | Some ch => pcons ch (parse_str r1)
              | None => Fail Malformed
              end
        end
      else if (n <? 32)%N then Fail Malformed
      else pcons c (parse_str r)
  end.

Definition is_char (n : N) (c : ascii) : bool := (PyStr.code c =? n)%N.

(** [s[len(p):]] when [s.startswith(p)] *)
Fixpoint strip_prefix (p s : string) : option string :=
  match p, s with
  | "", _ => Some s
  | String a p', String b s' => if Ascii.eqb a b then strip_prefix p' s' else None
  | String _ _, "" => None
  end.

(** The constants and the numbers of [scan_once]. *)
Definition parse_atom (s : string) : parse json :=
  match strip_prefix "null" s with
  | Some r => Parsed JNull r
  | None =>
  match strip_prefix "true" s with
  | Some r => Parsed (JBool true) r
  | None =>
  match strip_prefix "false" s with
  | Some r => Parsed (JBool false) r
  | None =>
      if String.prefix "NaN" s || String.prefix "Infinity" s
      then Fail Unmodelled
      else parse_number s
  end end end.

(** [scan_once]; [parse_elems] is the loop of [JSONArray] and [parse_members]
    that of [JSONObject], each entered at the first token of an item. *)
Fixpoint parse_value (fuel : nat) (s : string) : parse json :=
  match fuel with
  | O => Fail NoFuel
  | S fuel' =>
      match s with
      | "" => Fail Malformed
      | String c r =>
          if is_char 34 c then pbind (parse_str r) (fun x r' => Parsed (JStr x) r')
          else if is_char 123 c then
            match skip_ws r with
            | String c1 r1 =>
                if is_char 125 c1 then Parsed (JObj []) r1
                else pbind (parse_members fuel' (skip_ws r))
                       (fun m r' => Parsed (JObj (dict_of_pairs m)) r')
            | "" => Fail Malformed
            end
          else if is_char 91 c then
            match skip_ws r with
            | String c1 r1 =>
                if is_char 93 c1 then Parsed (JArr []) r1
                else pbind (parse_elems fuel' (skip_ws r))
                       (fun l r' => Parsed (JArr l) r')
            | "" => Fail Malformed
            end
          else parse_atom s
      end
  end
with parse_elems (fuel : nat) (s : string) : parse (list json) :=
  match fuel with
  | O => Fail NoFuel
  | S fuel' =>
      pbind (parse_value fuel' s) (fun v r =>
        match skip_ws r with
        | String c r1 =>
            if is_char 93 c then Parsed [v] r1
            else if is_char 44 c then
              pbind (parse_elems fuel' (skip_ws r1))
                (fun l r' => Parsed (v :: l) r')
            else Fail Malformed
        | "" => Fail Malformed
        end)
  end
with parse_members (fuel : nat) (s : string) : parse dict :=
  match fuel with
  | O => Fail NoFuel
  | S fuel' =>
      match s with
      | "" => Fail Malformed
      | String q r =>
          if negb (is_char 34 q) then Fail Malformed
          else
            pbind (parse_str r) (fun key r1 =>
              match skip_ws r1 with
              | String c r2 =>
                  if negb (is_char 58 c) then Fail Malformed
                  else
                    pbind (parse_value fuel' (skip_ws r2)) (fun v r3 =>
                      match skip_ws r3 with
                      | String c' r4 =>
                          if is_char 125 c' then Parsed [(key, v)] r4
                          else if is_char 44 c' then
                            pbind (parse_members fuel' (skip_ws r4))
                              (fun m r' => Parsed ((key, v) :: m) r')
                          else Fail Malformed
                      | "" => Fail Malformed
                      end)
              | "" => Fail Malformed
              end)
      end
  end.

(** [json.loads(s)]: [JSONDecoder.decode].  A value and the loop of its items
    take two units of fuel for at least one character. *)
Definition loads (s : string) : perr + json :=
  let s0 := skip_ws s in
  match parse_value (S (2 * String.length s0)) s0 with
  | Parsed v r => match skip_ws r with "" => inr v | _ => inl Malformed end
  | Fail e => inl e
  end.

End Json.

Export Json.

(** ** [pathlib] paths and the file system *)

Module PathLib.

(** An absolute POSIX path by its components; [[]] is the root. *)
Abbreviation Path := (list string).

(** [p.name] *)
Definition name (p : Path) : string := List.last p "".

(** [p.parent] *)
Definition parent (p : Path) : Path := removelast p.

(** [p.suffix]: from the last dot of the name, unless that dot is the first
    or the last character. *)
Definition suffix (p : Path) : string :=
  let nm := name p in
  match PyStr.rfind_dot nm with
  | Some i =>
      if (0 <? i)%nat && (i <? String.length nm - 1)%nat
      then String.substring i (String.length nm - i) nm
      else ""
  | None => ""
  end.

(** [p.stem] *)
Definition stem (p : Path) : string :=
  let nm := name p in
  match PyStr.rfind_dot nm with
  | Some i =>
      if (0 <? i)%nat && (i <? String.length nm - 1)%nat
      then String.substring 0 i nm
      else nm
  | None => nm
  end.

(** [s.split('/')] *)
Fixpoint split_slash (s : string) : list string :=
  match s with
  | "" => [""]
  | String c r =>
      if Ascii.eqb c "/"%char then "" :: split_slash r
      else match split_slash r with
           | x :: l => String c x :: l
           | [] => [String c ""]
           end
  end.

(** The components a string contributes to a path: empty components and
    single dots are dropped. *)
Definition parse_parts (s : string) : list string :=
  List.filter (fun x => negb (String.eqb x "" || String.eqb x ".")) (split_slash s).

(** [p / s] *)
Definition joinpath (p : Path) (s : string) : Path :=
  if String.prefix "/" s then parse_parts s else p ++ parse_parts s.

(** [str(p)] *)
Definition to_str (p : Path) : string := "/" +:+ PyStr.join "/" p.

End PathLib.
Export PathLib.

(** A regular file with its bytes and its modification time, or a directory. *)
Inductive node : Type :=
| NFile (content : list byte) (mtime : float)
| NDir.

Abbreviation FS := (gmap (list string) node).

(** Whether the map of the file system holds [p], as it is spelled; it holds
    the root. *)
Definition path_exists (fs : FS) (p : Path) : bool :=
  match fs !! p with
  | Some _ => true
  | None => match p with [] => true | _ => false end
  end.

(** [p.is_file()] *)
Definition is_file (fs : FS) (p : Path) : bool :=
  match fs !! p with
  | Some (NFile _ _) => true
  | _ => false
  end.

(** [p.is_dir()]; the root is a directory. *)
Definition is_dir (fs : FS) (p : Path) : bool :=
  match fs !! p with
  | Some NDir => true
  | Some (NFile _ _) => false
  | None => match p with [] => true | _ => false end
  end.

Record stat_result := MkStat { st_size : N; st_mtime : float }.

Definition errno2 (p : Path) : PyExc :=
  MkExc "FileNotFoundError"
        ("[Errno 2] No such file or directory: '" +:+ to_str p +:+ "'").

Definition errno20 (p : Path) : PyExc :=
  MkExc "NotADirectoryError"
        ("[Errno 20] Not a directory: '" +:+ to_str p +:+ "'").

Definition errno21 (p : Path) : PyExc :=
  MkExc "IsADirectoryError"
        ("[Errno 21] Is a directory: '" +:+ to_str p +:+ "'").

Definition errno36 (p : Path) : PyExc :=
  MkExc "OSError"
        ("[Errno 36] File name too long: '" +:+ to_str p +:+ "'").

(** The longest name of a directory entry, in bytes: [NAME_MAX] of Linux. *)
Definition NAME_MAX : nat := 255.

Definition too_long (c : string) : bool :=
  (NAME_MAX <? length (PyStr.encode c))%nat.

(** The walk of the system along the components [rest] of the path [p], from
    the directory [cur]: a name is looked up in a directory only, a name
    longer than [NAME_MAX] is refused, and [..] leads to the parent.  [None]
    when the walk meets what is no directory. *)
Fixpoint walk (fs : FS) (p : Path) (cur : Path) (rest : list string)
  : result (option Path) :=
  match rest with
  | [] => Ok (Some cur)
  | c :: rest' =>
      if negb (is_dir fs cur) then Ok None
      else if too_long c then Raise (errno36 p)
      else walk fs p (if String.eqb c ".." then parent cur else cur ++ [c]) rest'
  end.

(** [p.exists()].  A path the map holds is there; any other is looked up the
    way the system does.  Of the errors of the look-up, [exists] answers
    [False] to a missing entry and to an entry that is no directory, and
    raises the others: here, [OSError] for a name too long. *)
Definition exists_ (fs : FS) (p : Path) : result bool :=
  if path_exists fs p then Ok true
  else
    let? q := walk fs p [] p in
    Ok (match q with
        | Some q => path_exists fs q
        | None => false
        end).

(** [p.stat()].  The size and time of a directory are never looked at: every
    caller opens the path next, which raises for a directory. *)
Definition stat (fs : FS) (p : Path) : result stat_result :=
  match fs !! p with
  | Some (NFile c t) => Ok (MkStat (N.of_nat (length c)) t)
  | Some NDir => Ok (MkStat 0 0%float)
  | None => match p with [] => Ok (MkStat 0 0%float) | _ => Raise (errno2 p) end
  end.

(** [open(p, 'rb')]: the bytes of a regular file. *)
Definition open_rb (fs : FS) (p : Path) : result (list byte) :=
  match fs !! p with
  | Some (NFile c _) => Ok c
  | Some NDir => Raise (errno21 p)
  | None => match p with [] => Raise (errno21 p) | _ => Raise (errno2 p) end
  end.

(** ** The state of the world and the services outside the program *)

Inductive Backend := Gemini | Ollama.

(** Calls that leave the process. *)
Inductive Event : Type :=
| EvAnalyze (b : Backend) (p : Path) (mime : string)
| EvExiftool (p : Path)
| EvInput (p : Path).

(** A row of [analysis_cache], under its primary key [(file_hash, model)]:
    the [analysis] text and the [timestamp]. *)
Abbreviation DB := (gmap (string * string) (string * float)).

Record World := MkWorld {
  fs : FS;
  db : DB;
  clock : Z;
  calls : list Event
}.

Definition set_fs (f : FS) (w : World) : World :=
  MkWorld f (db w) (clock w) (calls w).
Definition set_db (d : DB) (w : World) : World :=
  MkWorld (fs w) d (clock w) (calls w).
Definition tick (w : World) : World :=
  MkWorld (fs w) (db w) (clock w + 1)%Z (calls w).
Definition record_call (e : Event) (w : World) : World :=
  MkWorld (fs w) (db w) (clock w) (calls w ++ [e]).

(** What the program calls and does not define. *)
Record Env := MkEnv {
  (** [hashlib.sha256(data).hexdigest()] *)
  sha256_hex : list byte -> string;
  (** [str(x)] of a float *)
  str_float : float -> string;
  (** [mimetypes.guess_type(p)[0]] *)
  guess_type : Path -> option string;
  (** [time.time()] at a clock value *)
  time_at : Z -> float;
  (** [datetime.now().isoformat()] at a clock value *)
  isoformat_at : Z -> string;
  (** [_analyze_with_gemini] / [_analyze_with_ollama]: the parsed reply of the
      model, or the exception of the call or of the parsing. *)
  backend_reply : Backend -> string -> World -> Path -> string -> result json;
  (** The body of [MetadataManager.embed_metadata]'s [try]: exiftool's verdict
      and the file system it leaves, or an exception. *)
  exiftool : World -> Path -> json -> result (bool * FS);
  (** [input(prompt)] *)
  input_line : World -> Path -> result string;
  (** [json.dump(v, f, indent=2, ensure_ascii=False)], encoded *)
  dump_indent : json -> list byte;
  (** [time.sleep(d)]: it returns, or raises for a [d] it cannot take
      ([OverflowError] for an infinite one). *)
  sleep : float -> result unit;
  (** [str(e)] of the [JSONDecodeError] that [json.loads] raises on a text it
      rejects: what was expected, and where. *)
  decode_message : string -> string
}.

(** ** The monad of the program: state and exceptions *)

Definition M (A : Type) : Type := World -> result A * World.

Definition ret {A} (a : A) : M A := fun w => (Ok a, w).
Definition raise {A} (e : PyExc) : M A := fun w => (Raise e, w).
Definition bind {A B} (m : M A) (k : A -> M B) : M B :=
  fun w => match m w with
           | (Ok a, w') => k a w'
           | (Raise e, w') => (Raise e, w')
           end.
(** [try: m  except Exception as e: h e] *)
Definition try_except {A} (m : M A) (h : PyExc -> M A) : M A :=
  fun w => match m w with
           | (Ok a, w') => (Ok a, w')
           | (Raise e, w') => h e w'
           end.
Definition lift {A} (r : result A) : M A := fun w => (r, w).
Definition get_world : M World := fun w => (Ok w, w).
Definition modify (f : World -> World) : M unit := fun w => (Ok tt, f w).

Notation "'let!' x ':=' m 'in' k" := (bind m (fun x => k))
  (at level 10, x pattern, m at level 100, k at level 200).

(** Reading the clock advances it. *)
Definition now : M Z := fun w => (Ok (clock w), tick w).

(** Outcomes that Python does not have: a text outside the modelled JSON
    fragment, or a loop of the model out of fuel (shown not to happen). *)
Definition outside_model (why : string) : PyExc := MkExc "OutsideModel" why.

(** ** Configuration *)

(** The fields of [Config] that the modelled code reads.  The cache path and
    its time to live belong to the opening and the sweeping of the database,
    the three schema lists to the prompt; none of them is a field here (the
    sweep takes the time to live as an argument). *)
Record Config := MkConfig {
  model : string;
  ollama_model : string;
  gemini_api_key : option string;
  use_local : bool;
  max_workers : Z;
  rate_limit_delay : float;
  cache_enabled : bool;
  rename_files : bool;
  embed_metadata : bool;
  create_json_sidecar : bool;
  dry_run : bool;
  interactive : bool
}.

(** ** [class SmartHash] *)

Module SmartHash.

(** [calculate(file_path, chunk_size)].  The hasher is the bytes fed to it so
    far; [hexdigest] is SHA-256 of them. *)
Definition calculate (env : Env) (fs : FS) (file_path : Path) (chunk_size : N)
  : result string :=
  let hasher : list byte := [] in
  let? st := stat fs file_path in
  let metadata :=
    name file_path +:+ "|" +:+ pretty (st_size st) +:+ "|"
      +:+ str_float env (st_mtime st) in
  let hasher := hasher ++ PyStr.encode metadata in
  let file_size := st_size st in
  let? f := open_rb fs file_path in
  let head := take (N.to_nat chunk_size) f in
  let hasher := hasher ++ head in
  let hasher :=
    if (chunk_size * 2 <? file_size)%N
    then let tail := drop (length f - N.to_nat chunk_size) f in hasher ++ tail
    else hasher in
  Ok (sha256_hex env hasher).

End SmartHash.

(** ** [class AnalysisCache] *)

Module AnalysisCache.

(** The exception of [json.loads(text)] for a [text] it rejects. *)
Definition decode_error (env : Env) (text : string) : PyExc :=
  MkExc "JSONDecodeError" (decode_message env text).

(** [get(file_hash, model)]: the row of the key, its text through
    [json.loads]; [None] without a row. *)
Definition get (env : Env) (file_hash model : string) : M (option json) :=
  fun w =>
    match db w !! (file_hash, model) with
    | Some (analysis, _) =>
        match loads analysis with
        | inr v => (Ok (Some v), w)
        | inl Malformed => (Raise (decode_error env analysis), w)
        | inl _ => (Raise (outside_model "json.loads"), w)
        end
    | None => (Ok None, w)
    end.

(** [set(file_hash, model, analysis)]: [INSERT OR REPLACE] of the row. *)
Definition set (env : Env) (file_hash model : string) (analysis : json) : M unit :=
  let! t := now in
  modify (fun w =>
    set_db (<[(file_hash, model) := (dumps analysis, time_at env t)]> (db w)) w).

(** [x - n] converts the int [n] to a float first: the nearest double, ties to
    even, and [OverflowError] beyond the range of a double. *)
Definition float_of_int (n : Z) : result float :=
  let f := SF2Prim (binary_normalize prec emax n 0 false) in
  if is_infinity f
  then Raise (MkExc "OverflowError" "int too large to convert to float")
  else Ok f.

(** [cleanup()]: [DELETE] of the rows whose [timestamp] is below the cutoff.
    [ttl_days] is the field [self.ttl_days]. *)
Definition cleanup (env : Env) (ttl_days : Z) : M unit :=
  let! t := now in
  let! seconds := lift (float_of_int (ttl_days * 86400)) in
  let cutoff := (time_at env t - seconds)%float in
  modify (fun w =>
    set_db (filter (fun row => (row.2.2 <? cutoff)%float = false) (db w)) w).

End AnalysisCache.

(** ** [class AIAnalyzer] *)

Record Analyzer := MkAnalyzer {
  backend : Backend;
  model_name : string;
  (** whether [self.cache] is a cache or [None] *)
  has_cache : bool
}.

Module AIAnalyzer.

(** [__init__]; [genai] and [ollama] tell whether the modules were imported. *)
Definition init (config : Config) (cache genai ollama : bool) : result Analyzer :=
  if negb (use_local config) && genai
     && match gemini_api_key config with
        | Some k => negb (String.eqb k "")
        | None => false
        end
  then Ok (MkAnalyzer Gemini (model config) cache)
  else if use_local config && ollama
  then Ok (MkAnalyzer Ollama (ollama_model config) cache)
  else Raise (MkExc "RuntimeError"
         "No AI backend available. Install google-generativeai or ollama.").

(** [v[k] = x] *)
Definition setitem (v : json) (k : string) (x : json) : result json :=
  match v with
  | JObj d => Ok (JObj (dict_set k x d))
  | JArr _ =>
      Raise (MkExc "TypeError" "list indices must be integers or slices, not str")
  | _ =>
      Raise (MkExc "TypeError"
        ("'" +:+ type_name v +:+ "' object does not support item assignment"))
  end.

Definition call_backend (env : Env) (self : Analyzer) (file_path : Path)
    (mime_type : string) : M json :=
  fun w =>
    (backend_reply env (backend self) (model_name self) w file_path mime_type,
     record_call (EvAnalyze (backend self) file_path mime_type) w).

(** The dict of the [except] branch of [analyze]. *)
Definition degraded (file_path : Path) (mime_type file_hash analyzed_at model : string)
    (e : PyExc) : json :=
  JObj [("title", JStr (stem file_path));
        ("description", JStr ("Error analyzing file: " +:+ exc_msg e));
        ("category", JStr "other");
        ("tags", JArr []);
        ("mime_type", JStr mime_type);
        ("file_hash", JStr file_hash);
        ("analyzed_at", JStr analyzed_at);
        ("model", JStr model);
        ("error", JStr (exc_msg e))].

(** [mime_type, _ = mimetypes.guess_type(file_path)] and its default. *)
Definition mime_type_of (env : Env) (file_path : Path) : string :=
  match guess_type env file_path with
  | Some m => if String.eqb m "" then "application/octet-stream" else m
  | None => "application/octet-stream"
  end.

(** The cache check of [analyze]: the cached value when there is a cache, it
    has the key, and the value is true in Python's sense. *)
Definition lookup (env : Env) (self : Analyzer) (file_hash : string)
  : M (option json) :=
  if has_cache self then
    let! cached := AnalysisCache.get env file_hash (model_name self) in
    ret (match cached with
         | Some c => if truthy c then Some c else None
         | None => None
         end)
  else ret None.

(** The body of the [try] of [analyze]. *)
Definition attempt (env : Env) (self : Analyzer) (file_path : Path)
    (mime_type file_hash : string) : M json :=
  let! result := call_backend env self file_path mime_type in
  let! result := lift (setitem result "mime_type" (JStr mime_type)) in
  let! result := lift (setitem result "file_hash" (JStr file_hash)) in
  let! t := now in
  let! result := lift (setitem result "analyzed_at" (JStr (isoformat_at env t))) in
  let! result := lift (setitem result "model" (JStr (model_name self))) in
  let! _ := (if has_cache self
             then AnalysisCache.set env file_hash (model_name self) result
             else ret tt) in
  ret result.

(** [analyze(file_path)] *)
Definition analyze (env : Env) (self : Analyzer) (file_path : Path) : M json :=
  let! w0 := get_world in
  let! file_hash := lift (SmartHash.calculate env (fs w0) file_path 65536) in
  let! hit := lookup env self file_hash in
  match hit with
  | Some cached => ret cached
  | None =>
      let mime_type := mime_type_of env file_path in
      try_except
        (attempt env self file_path mime_type file_hash)
        (fun e =>
           let! t := now in
           ret (degraded file_path mime_type file_hash (isoformat_at env t)
                  (model_name self) e))
  end.

(** [l[i]] *)
Definition getitem_list (l : list string) (i : nat) : result string :=
  match l !! i with
  | Some x => Ok x
  | None => Raise (MkExc "IndexError" "list index out of range")
  end.

(** The text between the code fences of a reply, lines 295-300 of
    [_analyze_with_gemini]: [response.text] stripped, then cut down to what
    follows the first json fence, or else the first fence, up to the next
    fence. *)
Definition extract_json (response_text : string) : result string :=
  let text := PyStr.strip response_text in
  if PyStr.contains "```json" text then
    let? after := getitem_list (PyStr.split "```json" text) 1 in
    let? inner := getitem_list (PyStr.split "```" after) 0 in
    Ok (PyStr.strip inner)
  else if PyStr.contains "```" text then
    let? after := getitem_list (PyStr.split "```" text) 1 in
    let? inner := getitem_list (PyStr.split "```" after) 0 in
    Ok (PyStr.strip inner)
  else Ok text.



End AIAnalyzer.

(** ** [class MetadataManager] *)

Module MetadataManager.

(** [embed_metadata(file_path, metadata)]: every exception becomes [False]. *)
Definition embed_metadata (env : Env) (file_path : Path) (metadata : json) : M bool :=
  fun w =>
    let w1 := record_call (EvExiftool file_path) w in
    match exiftool env w file_path metadata with
    | Ok (b, fs') => (Ok b, set_fs fs' w1)
    | Raise _ => (Ok false, w1)
    end.

(** [p.with_suffix(sfx)] *)
Definition with_suffix (p : Path) (sfx : string) : result Path :=
  if PyStr.mem_char "/"%char sfx
     || (negb (String.eqb sfx "") && negb (String.prefix "." sfx))
     || String.eqb sfx "."
  then Raise (MkExc "ValueError" ("Invalid suffix '" +:+ sfx +:+ "'"))
  else if String.eqb (name p) ""
  then Raise (MkExc "ValueError" ("'" +:+ to_str p +:+ "' has an empty name"))
  else
    let old := suffix p in
    Ok (parent p ++
          [String.substring 0 (String.length (name p) - String.length old) (name p)
             +:+ sfx]).

(** [open(p, 'w')] followed by the write of [data].  The file is created in
    a directory that is there, under a name of a length the system takes;
    a regular file at [p] is replaced. *)
Definition write_file (env : Env) (p : Path) (data : list byte) : M unit :=
  fun w =>
    match p with
    | [] => (Raise (errno21 p), w)
    | _ =>
        if negb (path_exists (fs w) (parent p)) then (Raise (errno2 p), w)
        else if negb (is_dir (fs w) (parent p)) then (Raise (errno20 p), w)
        else if too_long (name p) then (Raise (errno36 p), w)
        else
          match fs w !! p with
          | Some NDir => (Raise (errno21 p), w)
          | _ =>
              let w1 := tick w in
              (Ok tt, set_fs (<[p := NFile data (time_at env (clock w))]> (fs w)) w1)
          end
    end.

(** [create_json_sidecar(file_path, metadata)] *)
Definition create_json_sidecar (env : Env) (file_path : Path) (metadata : json)
  : M unit :=
  let! sidecar_path := lift (with_suffix file_path (suffix file_path +:+ ".json")) in
  write_file env sidecar_path (dump_indent env metadata).

End MetadataManager.

(** ** [class FileOrganizer] *)

Record Organizer := MkOrganizer {
  config : Config;
  analyzer : Analyzer
}.

Module FileOrganizer.

(** The path tried after [counter - 1] collisions:
    [file_path.parent / f"{suggested_name}_{counter}{file_path.suffix}"]. *)
Definition candidate (file_path : Path) (suggested_name : string) (counter : N) : Path :=
  joinpath (parent file_path)
    (suggested_name +:+ "_" +:+ pretty counter +:+ suffix file_path).

(** The [while new_path.exists() and new_path != file_path] loop; [None] when
    the fuel is spent before the loop ends. *)
Fixpoint collide (fuel : nat) (fs : FS) (file_path : Path) (suggested_name : string)
    (new_path : Path) (counter : N) : result (option Path) :=
  let? there := exists_ fs new_path in
  if there && negb (bool_decide (new_path = file_path)) then
    match fuel with
    | O => Ok None
    | S fuel' =>
        collide fuel' fs file_path suggested_name
          (candidate file_path suggested_name counter) (counter + 1)
    end
  else Ok (Some new_path).

(** The exception of [os.rename(src, dst)]: its message names both paths. *)
Definition rename_error (type_ what : string) (src dst : Path) : PyExc :=
  MkExc type_ (what +:+ ": '" +:+ to_str src +:+ "' -> '" +:+ to_str dst +:+ "'").

(** [file_path.rename(new_path)] *)
Definition rename (file_path new_path : Path) : M unit :=
  fun w =>
    match fs w !! file_path with
    | None =>
        (Raise (rename_error "FileNotFoundError" "[Errno 2] No such file or directory"
                  file_path new_path), w)
    | Some n =>
        match fs w !! new_path, new_path with
        | Some NDir, _ | _, [] =>
            (Raise (rename_error "IsADirectoryError" "[Errno 21] Is a directory"
                      file_path new_path), w)
        | _, _ => (Ok tt, set_fs (<[new_path := n]> (delete file_path (fs w))) w)
        end
    end.

(** [__init__]: the cache exists when [cache_enabled] is set. *)
Definition init (config : Config) (genai ollama : bool) : result Organizer :=
  let? analyzer := AIAnalyzer.init config (cache_enabled config) genai ollama in
  Ok (MkOrganizer config analyzer).

(** [safe_rename(file_path, suggested_name)]; the suggestion is whatever the
    metadata holds under [suggested_filename]. *)
Definition safe_rename (self : Organizer) (file_path : Path) (suggested_name : json)
  : M (option Path) :=
  if negb (truthy suggested_name) then ret None
  else
    match suggested_name with
    | JStr s =>
        let suggested_name := PyStr.sub_reserved s in
        let suggested_name := PyStr.strip suggested_name in
        let new_path :=
          joinpath (parent file_path) (suggested_name +:+ suffix file_path) in
        let! w := get_world in
        let! found :=
          lift (collide (S (2 * size (fs w))) (fs w) file_path suggested_name
                  new_path 1) in
        match found with
        | None => raise (outside_model "safe_rename: out of fuel")
        | Some new_path =>
            if bool_decide (new_path = file_path) then ret None
            else
              let! _ := (if negb (dry_run (config self))
                         then rename file_path new_path
                         else ret tt) in
              ret (Some new_path)
        end
    | v =>
        raise (MkExc "TypeError"
          ("expected string or bytes-like object, got '" +:+ type_name v +:+ "'"))
    end.

(** [metadata.get(k, dflt)] *)
Definition py_get (v : json) (k : string) (dflt : json) : result json :=
  match v with
  | JObj d => Ok (default dflt (dict_get k d))
  | _ => Raise (MkExc "AttributeError"
           ("'" +:+ type_name v +:+ "' object has no attribute 'get'"))
  end.

Definition is_str (v : json) : bool :=
  match v with JStr _ => true | _ => false end.

(** The first item of a list that is not a string, with its index. *)
Fixpoint first_non_str (i : N) (l : list json) : option (N * json) :=
  match l with
  | [] => None
  | x :: l' => if is_str x then first_non_str (i + 1) l' else Some (i, x)
  end.

(** [', '.join(v)] raises unless [v] iterates over strings. *)
Definition join_check (v : json) : result unit :=
  match v with
  | JStr _ | JObj _ => Ok tt
  | JArr l =>
      match first_non_str 0 l with
      | None => Ok tt
      | Some (i, x) =>
          Raise (MkExc "TypeError"
            ("sequence item " +:+ pretty i +:+ ": expected str instance, "
               +:+ type_name x +:+ " found"))
      end
  | _ => Raise (MkExc "TypeError" "can only join an iterable")
  end.

(** [v[:100]] raises unless [v] is a sequence. *)
Definition slice_check (v : json) : result unit :=
  match v with
  | JStr _ | JArr _ => Ok tt
  | JObj _ => Raise (MkExc "TypeError" "unhashable type: 'slice'")
  | _ => Raise (MkExc "TypeError"
           ("'" +:+ type_name v +:+ "' object is not subscriptable"))
  end.

(** The four [print]s of the interactive mode: standard output is outside
    the model, the exceptions of their arguments are not. *)
Definition preview (metadata : json) : result unit :=
  let? _ := py_get metadata "title" (JStr "N/A") in
  let? _ := py_get metadata "category" (JStr "N/A") in
  let? tags := py_get metadata "tags" (JArr []) in
  let? _ := join_check tags in
  let? description := py_get metadata "description" (JStr "N/A") in
  slice_check description.

(** [input(...)] *)
Definition ask (env : Env) (file_path : Path) : M string :=
  fun w => (input_line env w file_path, record_call (EvInput file_path) w).

(** The interactive block: [true] when the user declines. *)
Definition review (env : Env) (self : Organizer) (file_path : Path) (metadata : json)
  : M bool :=
  if interactive (config self) then
    let! _ := lift (preview metadata) in
    let! answer := ask env file_path in
    let response := PyStr.lower (PyStr.strip answer) in
    ret (negb (String.eqb response "") && negb (String.eqb response "y"))
  else ret false.

(** [k in v] *)
Definition py_in (k : string) (v : json) : result bool :=
  match v with
  | JObj d => Ok (dict_has k d)
  | JArr l =>
      Ok (existsb (fun x => match x with JStr s => String.eqb s k | _ => false end) l)
  | JStr s => Ok (PyStr.contains k s)
  | _ => Raise (MkExc "TypeError"
           ("argument of type '" +:+ type_name v +:+ "' is not iterable"))
  end.

(** [v[k]] for a string [k] *)
Definition py_getitem (v : json) (k : string) : result json :=
  match v with
  | JObj d =>
      match dict_get k d with
      | Some x => Ok x
      | None => Raise (MkExc "KeyError" ("'" +:+ k +:+ "'"))
      end
  | JArr _ =>
      Raise (MkExc "TypeError" "list indices must be integers or slices, not str")
  | JStr _ => Raise (MkExc "TypeError" "string indices must be integers, not 'str'")
  | _ => Raise (MkExc "TypeError"
           ("'" +:+ type_name v +:+ "' object is not subscriptable"))
  end.

(** The rename block: the new path, if the file was (or would be) renamed. *)
Definition rename_step (self : Organizer) (file_path : Path) (metadata : json)
  : M (option Path) :=
  if rename_files (config self) then
    let! present := lift (py_in "suggested_filename" metadata) in
    if present then
      let! suggested := lift (py_getitem metadata "suggested_filename") in
      safe_rename self file_path suggested
    else ret None
  else ret None.

(** One statement group of the [try] of [process_file], with the [result]
    dict as it stands: an exception ends the function with
    [result['error'] = str(e)]. *)
Definition guard {A} (result : dict) (m : M A) (k : A -> M dict) : M dict :=
  fun w =>
    match m w with
    | (Ok a, w') => k a w'
    | (Raise e, w') => (Ok (dict_set "error" (JStr (exc_msg e)) result), w')
    end.

(** The embedding block of [process_file]. *)
Definition embed_step (env : Env) (self : Organizer) (file_path : Path)
    (metadata : json) : M bool :=
  if embed_metadata (config self) && negb (dry_run (config self))
  then MetadataManager.embed_metadata env file_path metadata
  else ret false.

(** The sidecar block of [process_file]. *)
Definition sidecar_step (env : Env) (self : Organizer) (file_path : Path)
    (metadata : json) : M unit :=
  if create_json_sidecar (config self) && negb (dry_run (config self))
  then MetadataManager.create_json_sidecar env file_path metadata
  else ret tt.

Definition initial_result (file_path : Path) : dict :=
  [("file", JStr (to_str file_path)); ("success", JBool false);
   ("metadata", JNull); ("renamed_to", JNull)].

(** [process_file(file_path)] *)
Definition process_file (env : Env) (self : Organizer) (file_path : Path) : M dict :=
  let result := initial_result file_path in
  guard result (AIAnalyzer.analyze env (analyzer self) file_path) (fun metadata =>
  let result := dict_set "metadata" metadata result in
  guard result (review env self file_path metadata) (fun skipped =>
  if skipped : bool then ret result
  else
  guard result (rename_step self file_path metadata) (fun new_path =>
  let result :=
    match new_path with
    | Some p => dict_set "renamed_to" (JStr (to_str p)) result
    | None => result
    end in
  let file_path := default file_path new_path in
  guard result (embed_step env self file_path metadata) (fun _ =>
  guard result (sidecar_step env self file_path metadata) (fun _ =>
  ret (dict_set "success" (JBool true) result)))))).

(** How the pipeline of one file ends, read off its steps alone: every
    step returned, the user declined, or a step raised. *)
Inductive status : Type :=
| Completed
| Declined
| Failed (e : PyExc).

Definition pipeline_status (env : Env) (self : Organizer) (file_path : Path)
    (w : World) : status :=
  match AIAnalyzer.analyze env (analyzer self) file_path w with
  | (Raise e, _) => Failed e
  | (Ok metadata, w1) =>
  match review env self file_path metadata w1 with
  | (Raise e, _) => Failed e
  | (Ok true, _) => Declined
  | (Ok false, w2) =>
  match rename_step self file_path metadata w2 with
  | (Raise e, _) => Failed e
  | (Ok new_path, w3) =>
  let file_path := default file_path new_path in
  match embed_step env self file_path metadata w3 with
  | (Raise e, _) => Failed e
  | (Ok _, w4) =>
  match sidecar_step env self file_path metadata w4 with
  | (Raise e, _) => Failed e
  | (Ok _, _) => Completed
  end end end end end.

(** The dict of the [except] branch of [process_batch]. *)
Definition failed_outcome (path : Path) (e : PyExc) : dict :=
  [("file", JStr (to_str path)); ("success", JBool false);
   ("error", JStr (exc_msg e))].

(** The rate limiting of [process_batch]: [time.sleep] when the delay is
    positive. *)
Definition pause (env : Env) (self : Organizer) : result unit :=
  if (0 <? rate_limit_delay (config self))%float
  then sleep env (rate_limit_delay (config self))
  else Ok tt.

(** What the body of the [for] of [process_batch] appends for the task of
    [path]: [r] is what [future.result()] gives, [pause] what the rate
    limiting after the [append] of a result gives.  An exception of either is
    caught by the same [except], which appends its own dict. *)
Definition collect (path : Path) (r : result dict) (pause : result unit)
  : list dict :=
  match r with
  | Ok result =>
      match pause with
      | Ok _ => [result]
      | Raise e => [result; failed_outcome path e]
      end
  | Raise e => [failed_outcome path e]
  end.

(** The pool at work.  [sched] lists the submitted tasks, by their index in
    [paths], in the order in which they complete; the pipelines run one after
    the other in that order (the interleaving of steps of different threads is
    not modelled), and [as_completed] hands their results over in the same
    order.  [task] is the submitted callable. *)
Fixpoint run_tasks (task : Path -> M dict) (pause : result unit)
    (paths : list Path) (sched : list nat) (w : World) : list dict * World :=
  match sched with
  | [] => ([], w)
  | i :: sched' =>
      match paths !! i with
      | None => run_tasks task pause paths sched' w
      | Some path =>
          let (r, w1) := task path w in
          let (results, w2) := run_tasks task pause paths sched' w1 in
          (collect path r pause ++ results, w2)
      end
  end.

(** The tasks of a run with the world each of them starts in. *)
Fixpoint run_trace (task : Path -> M dict) (paths : list Path) (sched : list nat)
    (w : World) : list (Path * World) :=
  match sched with
  | [] => []
  | i :: sched' =>
      match paths !! i with
      | None => run_trace task paths sched' w
      | Some path => (path, w) :: run_trace task paths sched' (snd (task path w))
      end
  end.

(** A schedule of a batch of [n] tasks completes each of them once. *)
Definition schedule (n : nat) (sched : list nat) : Prop :=
  Permutation sched (seq 0 n).

(** [process_batch(paths)]; [ThreadPoolExecutor(max_workers=n)] raises
    [ValueError] for [n <= 0]. *)
Definition process_batch (env : Env) (self : Organizer) (paths : list Path)
    (sched : list nat) : M (list dict) :=
  fun w =>
    if (max_workers (config self) <=? 0)%Z
    then (Raise (MkExc "ValueError" "max_workers must be greater than 0"), w)
    else let (results, w') :=
           run_tasks (process_file env self) (pause env self) paths sched w in
         (Ok results, w').

(** [cleanup()]: the sweep of the cache, when there is one.  [ttl_days] is
    the [cache_ttl_days] the cache was built with; closing the connection
    changes nothing that is modelled. *)
Definition cleanup (env : Env) (self : Organizer) (ttl_days : Z) : M unit :=
  if has_cache (analyzer self) then AnalysisCache.cleanup env ttl_days else ret tt.

End FileOrganizer.

(** ** The command line: [collect_files], [create_parser] and [main] *)

(** Whether the walk of [glob] from the directory [d] arrives at [q]: [q] lies
    under [d] and every path from [d] down to the parent of [q] is a
    directory. *)
Definition below (fs : FS) (d q : Path) : bool :=
  bool_decide (d `prefix_of` q) && (length d <? length q)%nat
  && forallb (fun k => is_dir fs (take k q)) (seq (length d) (length q - length d)).

(** [d.glob("**/*")] when [recursive], [d.glob("*")] otherwise: the entries
    under [d], files and directories, hidden ones too.  Python lists them in
    the order of the file system; the model fixes one. *)
Definition glob (fs : FS) (d : Path) (recursive : bool) : list Path :=
  List.filter
    (fun q => below fs d q && (recursive || (length q =? S (length d))%nat))
    (map_to_list fs).*1.

Module Cli.

(** [collect_files(path, recursive)] *)
Definition collect_files (fs : FS) (path : Path) (recursive : bool) : list Path :=
  if is_file fs path then [path]
  else
    List.filter
      (fun item => is_file fs item && negb (String.prefix "." (name item)))
      (glob fs path recursive).

(** The namespace of [parse_args]: [arg_x] is [args.x]. *)
Record Args := MkArgs {
  arg_path : string;
  arg_batch : bool;
  arg_recursive : bool;
  arg_rename : bool;
  arg_embed_metadata : bool;
  arg_no_sidecar : bool;
  arg_local : bool;
  arg_dry_run : bool;
  arg_interactive : bool;
  arg_workers : Z;
  arg_model : option string;
  arg_no_cache : bool
}.

(** An option as the command line gives it, after [argparse] has recognised
    it and converted its value. *)
Inductive Opt : Type :=
| OBatch
| ORecursive
| ORename
| OEmbedMetadata
| ONoSidecar
| OLocal
| ODryRun
| OInteractive
| OWorkers (n : Z)
| OModel (m : string)
| ONoCache.

(** [create_parser()]: the defaults of the arguments, [False] for a
    [store_true] flag without one, [None] for [--model]... *)
Definition defaults (path : string) : Args :=
  MkArgs path false false false true false false false false 4 None false.

(** ...and their actions: [store_true] sets the flag, [store] the value. *)
Definition store (a : Args) (o : Opt) : Args :=
  let 'MkArgs p b rc rn x ns l n i w m nc := a in
  match o with
  | OBatch => MkArgs p true rc rn x ns l n i w m nc
  | ORecursive => MkArgs p b true rn x ns l n i w m nc
  | ORename => MkArgs p b rc true x ns l n i w m nc
  | OEmbedMetadata => MkArgs p b rc rn true ns l n i w m nc
  | ONoSidecar => MkArgs p b rc rn x true l n i w m nc
  | OLocal => MkArgs p b rc rn x ns true n i w m nc
  | ODryRun => MkArgs p b rc rn x ns l true i w m nc
  | OInteractive => MkArgs p b rc rn x ns l n true w m nc
  | OWorkers k => MkArgs p b rc rn x ns l n i k m nc
  | OModel s => MkArgs p b rc rn x ns l n i w (Some s) nc
  | ONoCache => MkArgs p b rc rn x ns l n i w m true
  end.

(** [parser.parse_args()] on a command line with the positional [path] and
    the options [opts], in their order. *)
Definition parse_args (path : string) (opts : list Opt) : Args :=
  fold_left store opts (defaults path).

(** [config.x = v] *)
Definition cfg_model (v : string) (c : Config) : Config :=
  MkConfig v (ollama_model c) (gemini_api_key c) (use_local c)
    (max_workers c) (rate_limit_delay c) (cache_enabled c) (rename_files c)
    (embed_metadata c) (create_json_sidecar c) (dry_run c) (interactive c).
Definition cfg_ollama_model (v : string) (c : Config) : Config :=
  MkConfig (model c) v (gemini_api_key c) (use_local c)
    (max_workers c) (rate_limit_delay c) (cache_enabled c) (rename_files c)
    (embed_metadata c) (create_json_sidecar c) (dry_run c) (interactive c).
Definition cfg_use_local (v : bool) (c : Config) : Config :=
  MkConfig (model c) (ollama_model c) (gemini_api_key c) v
    (max_workers c) (rate_limit_delay c) (cache_enabled c) (rename_files c)
    (embed_metadata c) (create_json_sidecar c) (dry_run c) (interactive c).
Definition cfg_max_workers (v : Z) (c : Config) : Config :=
  MkConfig (model c) (ollama_model c) (gemini_api_key c) (use_local c)
    v (rate_limit_delay c) (cache_enabled c) (rename_files c)
    (embed_metadata c) (create_json_sidecar c) (dry_run c) (interactive c).
Definition cfg_cache_enabled (v : bool) (c : Config) : Config :=
  MkConfig (model c) (ollama_model c) (gemini_api_key c) (use_local c)
    (max_workers c) (rate_limit_delay c) v (rename_files c)
    (embed_metadata c) (create_json_sidecar c) (dry_run c) (interactive c).
Definition cfg_rename_files (v : bool) (c : Config) : Config :=
  MkConfig (model c) (ollama_model c) (gemini_api_key c) (use_local c)
    (max_workers c) (rate_limit_delay c) (cache_enabled c) v
    (embed_metadata c) (create_json_sidecar c) (dry_run c) (interactive c).
Definition cfg_embed_metadata (v : bool) (c : Config) : Config :=
  MkConfig (model c) (ollama_model c) (gemini_api_key c) (use_local c)
    (max_workers c) (rate_limit_delay c) (cache_enabled c) (rename_files c)
    v (create_json_sidecar c) (dry_run c) (interactive c).
Definition cfg_create_json_sidecar (v : bool) (c : Config) : Config :=
  MkConfig (model c) (ollama_model c) (gemini_api_key c) (use_local c)
    (max_workers c) (rate_limit_delay c) (cache_enabled c) (rename_files c)
    (embed_metadata c) v (dry_run c) (interactive c).
Definition cfg_dry_run (v : bool) (c : Config) : Config :=
  MkConfig (model c) (ollama_model c) (gemini_api_key c) (use_local c)
    (max_workers c) (rate_limit_delay c) (cache_enabled c) (rename_files c)
    (embed_metadata c) (create_json_sidecar c) v (interactive c).
Definition cfg_interactive (v : bool) (c : Config) : Config :=
  MkConfig (model c) (ollama_model c) (gemini_api_key c) (use_local c)
    (max_workers c) (rate_limit_delay c) (cache_enabled c) (rename_files c)
    (embed_metadata c) (create_json_sidecar c) (dry_run c) v.

(** The overrides of [main], lines 631-651: the loaded [config] after the
    command line has been applied to it. *)
Definition override (args : Args) (config : Config) : Config :=
  let config := if arg_local args then cfg_use_local true config else config in
  let config := if arg_rename args then cfg_rename_files true config else config in
  let config :=
    if arg_embed_metadata args then cfg_embed_metadata true config else config in
  let config :=
    if arg_no_sidecar args then cfg_create_json_sidecar false config else config in
  let config := if arg_dry_run args then cfg_dry_run true config else config in
  let config := if arg_interactive args then cfg_interactive true config else config in
  let config :=
    if negb (arg_workers args =? 0)%Z
    then cfg_max_workers (arg_workers args) config else config in
  let config :=
    match arg_model args with
    | Some m =>
        if negb (String.eqb m "") then
          if use_local config then cfg_ollama_model m config else cfg_model m config
        else config
    | None => config
    end in
  let config := if arg_no_cache args then cfg_cache_enabled false config else config in
  config.



(** The processing of [main], lines 690-693: one file goes to [process_file]
    directly, any other number of files to the pool. *)
Definition process (env : Env) (organizer : Organizer) (files : list Path)
    (sched : list nat) : M (list dict) :=
  match files with
  | [file] =>
      let! result := FileOrganizer.process_file env organizer file in
      ret [result]
  | _ => FileOrganizer.process_batch env organizer files sched
  end.

(** [sum(1 for r in results if r['success'])] *)
Fixpoint successful (results : list dict) : result Z :=
  match results with
  | [] => Ok 0%Z
  | r :: results' =>
      let? flag := FileOrganizer.py_getitem (JObj r) "success" in
      let? n := successful results' in
      Ok (if truthy flag then 1 + n else n)%Z
  end.

(** The counts of the summary, lines 701-702: successful and failed. *)
Definition summary (results : list dict) : result (Z * Z) :=
  let? successful := successful results in
  Ok (successful, Z.of_nat (length results) - successful)%Z.

End Cli.

(** ** The web server, [web_server.py] *)

Module WebServer.

Definition ALLOWED_EXTENSIONS : list string :=
  ["txt"; "pdf"; "png"; "jpg"; "jpeg"; "gif"; "webp"; "bmp";
   "mp3"; "wav"; "flac"; "m4a"; "ogg";
   "mp4"; "mov"; "avi"; "webm";
   "doc"; "docx"; "md"; "py"; "js"; "java"; "cpp"].

(** [allowed_file(filename)]: [rsplit('.', 1)[1]] is what follows the last
    dot, and there is one when ['.' in filename]. *)
Definition allowed_file (filename : string) : bool :=
  PyStr.mem_char "."%char filename
  && match PyStr.rfind_dot filename with
     | Some i =>
         let ext :=
           String.substring (S i) (String.length filename - S i) filename in
         existsb (String.eqb (PyStr.lower ext)) ALLOWED_EXTENSIONS
     | None => false
     end.

(** The configuration of a request, lines 65-70 of [process_files]: [config]
    is the loaded one, [data] the JSON body.  The four flags are stored as the
    body gives them and only ever tested for truth. *)
Definition request_config (config : Config) (data : json) : result Config :=
  let? m := FileOrganizer.py_get data "model" JNull in
  let config :=
    Cli.cfg_use_local
      (match m with JStr s => String.eqb s "ollama" | _ => false end) config in
  let? v := FileOrganizer.py_get data "rename" (JBool false) in
  let config := Cli.cfg_rename_files (truthy v) config in
  let? v := FileOrganizer.py_get data "embed_metadata" (JBool true) in
  let config := Cli.cfg_embed_metadata (truthy v) config in
  let? v := FileOrganizer.py_get data "create_sidecar" (JBool true) in
  let config := Cli.cfg_create_json_sidecar (truthy v) config in
  let? v := FileOrganizer.py_get data "dry_run" (JBool false) in
  let config := Cli.cfg_dry_run (truthy v) config in
  Ok config.

(** The loop of [process_files], lines 82-86: the paths that exist when
    their turn comes are processed, one after the other. *)
Fixpoint process_loop (env : Env) (organizer : Organizer) (file_paths : list Path)
  : M (list dict) :=
  match file_paths with
  | [] => ret []
  | file_path :: rest =>
      let! w := get_world in
      let! there := lift (exists_ (fs w) file_path) in
      if there : bool then
        let! result := FileOrganizer.process_file env organizer file_path in
        let! results := process_loop env organizer rest in
        ret (result :: results)
      else process_loop env organizer rest
  end.

(** [file.unlink()] *)
Definition unlink (p : Path) : M unit :=
  fun w =>
    match fs w !! p with
    | Some (NFile _ _) => (Ok tt, set_fs (delete p (fs w)) w)
    | Some NDir => (Raise (errno21 p), w)
    | None => (Raise (errno2 p), w)
    end.

(** The loop of [cleanup_uploads] over the entries [glob] listed. *)
Fixpoint unlink_files (entries : list Path) : M unit :=
  match entries with
  | [] => ret tt
  | file :: rest =>
      let! w := get_world in
      let! _ := (if is_file (fs w) file then unlink file else ret tt) in
      unlink_files rest
  end.

(** [cleanup_uploads()]: [true] for the reply [{'success': True}], [false]
    for the reply with status 500. *)
Definition cleanup_uploads (upload_folder : Path) : M bool :=
  let! w := get_world in
  try_except
    (let! _ := unlink_files (glob (fs w) upload_folder false) in ret true)
    (fun _ => ret false).

End WebServer.

(** * Vocabulary of the statements, and an example world *)

(** ** Parsing what was serialised *)

(** What may follow a serialised value: nothing, a comma, or a closing
    bracket or brace. *)
Definition delim (k : string) : Prop :=
  match k with
  | "" => True
  | String c _ => is_char 44 c || is_char 93 c || is_char 125 c = true
  end.

(** The characters a serialised integer may start with. *)
Definition num_head (c : ascii) : Prop :=
  In c ["-"; "0"; "1"; "2"; "3"; "4"; "5"; "6"; "7"; "8"; "9"]%char.

(** The items of an array as [emit] lays them out, closing bracket included. *)
Fixpoint emit_items (l : list json) (k : string) : string :=
  match l with
  | [] => String "]" k
  | x :: l' =>
      emit x match l' with
             | [] => String "]" k
             | _ => String "," (String " " (emit_items l' k))
             end
  end.

(** The members of an object as [emit] lays them out, closing brace included. *)
Fixpoint emit_members (m : dict) (k : string) : string :=
  match m with
  | [] => String "}" k
  | (key, x) :: m' =>
      emit_str key (String ":" (String " "
        (emit x match m' with
                | [] => String "}" k
                | _ => String "," (String " " (emit_members m' k))
                end)))
  end.

(** The fuel the parser needs for a value: one unit for the value, one for each
    item of an array or an object. *)
Fixpoint weight (v : json) : nat :=
  match v with
  | JArr l => S ((fix ws (l : list json) : nat :=
                    match l with [] => 0 | x :: l' => S (weight x + ws l') end) l)
  | JObj m => S ((fix ws (m : dict) : nat :=
                    match m with [] => 0 | (_, x) :: m' => S (weight x + ws m') end) m)
  | _ => 1
  end.

Definition weights (l : list json) : nat :=
  fold_right (λ x n, S (weight x + n)) 0 l.

Definition weights_m (m : dict) : nat :=
  fold_right (λ kv n, S (weight (snd kv) + n)) 0 m.

(** The first character of a serialised value. *)
Definition value_head (c : ascii) : Prop :=
  is_ws c = false ∧ is_char 93 c = false ∧ is_char 125 c = false.

(** The parser, given fuel for [v], reads [v] back from its text. *)
Definition round_trips (v : json) : Prop :=
  wf v → ∀ k fuel, delim k → (weight v ≤ fuel)%nat →
  parse_value fuel (emit v k) = Parsed v k.

(** The text of [v] has a character for each unit of fuel [v] needs. *)
Definition emits_enough (v : json) : Prop :=
  ∀ k, (weight v + String.length k ≤ String.length (emit v k))%nat.

(** ** A concrete world, for the examples *)

Module Example.

(** Stand-ins for the services: a digest that spells out its input, one
    modification time for every file, a backend that is out of quota for
    [bad.txt] and suggests [report] for every other file, an [exiftool] that
    agrees and changes nothing, a user who declines [bad.txt] only, a
    [time.sleep] that refuses an infinite delay, and for every rejected text
    the decode error of one that starts with no value. *)
Definition env : Env := {|
  sha256_hex := fun data => string_of_list_ascii (List.map ascii_of_byte data);
  str_float := fun _ => "1700000000.0";
  guess_type := fun p => if String.eqb (suffix p) ".txt" then Some "text/plain" else None;
  time_at := fun _ => 0%float;
  isoformat_at := fun t => pretty t;
  backend_reply := fun _ _ _ p _ =>
    if String.eqb (name p) "bad.txt"
    then Raise (MkExc "RuntimeError" "quota exceeded")
    else Ok (JObj [("title", JStr "Report"); ("suggested_filename", JStr "report")]);
  exiftool := fun w _ _ => Ok (true, fs w);
  input_line := fun _ p => Ok (if String.eqb (name p) "bad.txt" then "n" else "y");
  dump_indent := fun v => PyStr.encode (dumps v);
  sleep := fun d =>
    if is_infinity d
    then Raise (MkExc "OverflowError" "timestamp too large to convert to C _PyTime_t")
    else Ok tt;
  decode_message := fun _ => "Expecting value: line 1 column 1 (char 0)"
|}.

Definition cfg : Config := {|
  model := "gemini-2.0-flash-exp";
  ollama_model := "llama3.2-vision";
  gemini_api_key := Some "key";
  use_local := false;
  max_workers := 4;
  rate_limit_delay := 1%float;
  cache_enabled := true;
  rename_files := true;
  embed_metadata := true;
  create_json_sidecar := true;
  dry_run := false;
  interactive := false
|}.

Definition with_interactive (b : bool) (c : Config) : Config :=
  MkConfig (model c) (ollama_model c) (gemini_api_key c) (use_local c)
    (max_workers c) (rate_limit_delay c) (cache_enabled c) (rename_files c)
    (embed_metadata c) (create_json_sidecar c) (dry_run c) b.

Definition with_max_workers (n : Z) (c : Config) : Config :=
  MkConfig (model c) (ollama_model c) (gemini_api_key c) (use_local c)
    n (rate_limit_delay c) (cache_enabled c) (rename_files c)
    (embed_metadata c) (create_json_sidecar c) (dry_run c) (interactive c).

Definition gemini : Analyzer := MkAnalyzer Gemini "gemini-2.0-flash-exp" true.

Definition organizer (c : Config) : Organizer := MkOrganizer c gemini.

Definition file (text : string) : node := NFile (PyStr.encode text) 0%float.

(** A directory [/d] with four text files. *)
Definition files : FS :=
  {[ ["d"] := NDir;
     ["d"; "report.txt"] := file "first";
     ["d"; "b.txt"] := file "second";
     ["d"; "c.txt"] := file "third";
     ["d"; "bad.txt"] := file "broken" ]}.

Definition world : World := MkWorld files ∅ 0 [].


End Example.

(** ** Fingerprints, cache runs and candidate paths *)

(** The bytes the fingerprint of a regular file is the digest of: the text
    [name|size|mtime], the first [chunk_size] bytes and, for a file longer
    than two chunks, the last [chunk_size] bytes. *)
Definition fingerprint_input (env : Env) (nm : string) (content : list byte)
    (mtime : float) (chunk_size : N) : list byte :=
  PyStr.encode (nm +:+ "|" +:+ pretty (N.of_nat (length content)) +:+ "|"
                  +:+ str_float env mtime)
  ++ take (N.to_nat chunk_size) content
  ++ (if (2 * chunk_size <? N.of_nat (length content))%N
      then drop (length content - N.to_nat chunk_size) content
      else []).

(** A run of [set] calls, in order. *)
Definition set_all (env : Env) (ops : list (string * string * json)) (w : World)
  : World :=
  fold_left (fun w op => snd (AnalysisCache.set env op.1.1 op.1.2 op.2 w)) ops w.


(** A path as [pathlib] holds it: no component is empty, a single dot, or
    contains a slash. *)
Definition component_ok (c : string) : bool :=
  negb (String.eqb c "") && negb (String.eqb c ".")
  && negb (PyStr.mem_char "/"%char c).

Definition wf_path (p : Path) : bool := forallb component_ok p.

(** The condition of the [while] of [safe_rename] at the path [q]: its
    value, or the exception of [q.exists()]. *)
Definition taken (fs : FS) (file_path q : Path) : result bool :=
  let? there := exists_ fs q in
  Ok (there && negb (bool_decide (q = file_path))).

(** The paths [safe_rename] tries, in order: the sanitised name with the
    extension, then the names with [_1], [_2], ... *)
Definition nth_try (file_path : Path) (s : string) (n : nat) : Path :=
  match n with
  | O => joinpath (parent file_path) (s +:+ suffix file_path)
  | S _ => FileOrganizer.candidate file_path s (N.of_nat n)
  end.

(** ** Outcomes, schedules and frames *)

(** The configuration with [dry_run] set to [b]. *)
Definition set_dry_run (b : bool) (c : Config) : Config :=
  MkConfig (model c) (ollama_model c) (gemini_api_key c) (use_local c)
    (max_workers c) (rate_limit_delay c) (cache_enabled c) (rename_files c)
    (embed_metadata c) (create_json_sidecar c) b (interactive c).

(** The files [exiftool] was run on. *)
Definition embedded (w : World) : list Path :=
  omap (fun e => match e with EvExiftool p => Some p | _ => None end) (calls w).

(** [untouched w w']: from [w] to [w'] no file was created, moved or
    rewritten, and [exiftool] was not run. *)
Definition untouched (w w' : World) : Prop :=
  fs w' = fs w ∧ embedded w' = embedded w.

(** A computation that leaves the files alone. *)
Definition frame {A} (m : M A) : Prop := ∀ w, untouched w (snd (m w)).

(** The paths of a batch in the order of a schedule. *)
Definition scheduled (paths : list Path) (sched : list nat) : list Path :=
  omap (fun i => paths !! i) sched.

(** The flags of an outcome. *)
Definition succeeded (o : dict) : Prop := dict_get "success" o = Some (JBool true).

Definition failed_with (o : dict) (e : PyExc) : Prop :=
  dict_get "success" o = Some (JBool false)
  ∧ dict_get "error" o = Some (JStr (exc_msg e)).

Definition reports (o : dict) (p : Path) : Prop :=
  dict_get "file" o = Some (JStr (to_str p)).

(** The outcome of a task: its result, or the dict of the [except] branch of
    [process_batch] when the future raised. *)
Definition outcome_of (task : Path → M dict) (p : Path) (w : World) : dict :=
  match fst (task p w) with
  | Ok result => result
  | Raise e => FileOrganizer.failed_outcome p e
  end.

(** The outcomes of a batch whose rate limiting raises [e] after every
    result: each result, and after it the dict of the [except] branch for the
    same path. *)
Definition doubled (e : PyExc) (paths : list Path) (own : list dict) : list dict :=
  concat (zip_with (fun p o => [o; FileOrganizer.failed_outcome p e]) paths own).

(** What [process_batch] returns for the tasks of [paths], against their own
    outcomes [own] and what the rate limiting gives. *)
Definition batch_results (pause : result unit) (paths : list Path) (own : list dict)
  : list dict :=
  match pause with
  | Ok _ => own
  | Raise e => doubled e paths own
  end.




(** A parse that used enough fuel and left less than [n] characters. *)
Definition consumes {A} (n : nat) (p : parse A) : Prop :=
  match p with
  | Parsed _ r => (String.length r < n)%nat
  | Fail NoFuel => False
  | Fail _ => True
  end.

(** ** Results of [process_file] *)

(** The shape of a result of [process_file]: the four keys of the initial
    dict in their order, with [error] after them when a step raised;
    [success] is a bool, and [False] beside an [error]; [file] is a string;
    [renamed_to] is [None] or a string. *)
Definition result_shape (o : dict) : Prop :=
  (List.map fst o = ["file"; "success"; "metadata"; "renamed_to"]
   ∨ List.map fst o = ["file"; "success"; "metadata"; "renamed_to"; "error"]
     ∧ dict_get "success" o = Some (JBool false))
  ∧ (∃ b : bool, dict_get "success" o = Some (JBool b))
  ∧ (∃ s : string, dict_get "file" o = Some (JStr s))
  ∧ (dict_get "renamed_to" o = Some JNull
     ∨ ∃ s : string, dict_get "renamed_to" o = Some (JStr s)).

(** ** The command line *)

#[global] Instance Opt_eq_dec : EqDecision Cli.Opt.
Proof. solve_decision. Defined.

(** Whether an option is on the command line. *)
Definition given (o : Cli.Opt) (opts : list Cli.Opt) : bool :=
  bool_decide (o ∈ opts).

(** The value of the last [--workers] of the command line. *)
Definition workers_given (opts : list Cli.Opt) : option Z :=
  fold_left (fun acc o => match o with Cli.OWorkers n => Some n | _ => acc end)
    opts None.

(** The value of the last [--model] of the command line. *)
Definition model_given (opts : list Cli.Opt) : option string :=
  fold_left (fun acc o => match o with Cli.OModel m => Some m | _ => acc end)
    opts None.

(** The configuration in force: the loaded one after the command line. *)
Definition effective (path : string) (opts : list Cli.Opt) (loaded : Config) : Config :=
  Cli.override (Cli.parse_args path opts) loaded.

(** Whether the summary of [main] counts a result as successful. *)
Definition is_success (o : dict) : bool :=
  match dict_get "success" o with
  | Some v => truthy v
  | None => false
  end.

(** An outcome with a [success] flag that is a bool. *)
Definition flagged (o : dict) : Prop :=
  ∃ b : bool, dict_get "success" o = Some (JBool b).

(** ** The web server *)

(** Whether [p.exists()] answers [True]. *)
Definition there (fs : FS) (p : Path) : bool :=
  match exists_ fs p with
  | Ok true => true
  | _ => false
  end.

(** ** Replies in a code fence *)



(** ** Decoding UTF-8 *)

(** The first character of a text encoded by [str.encode], and the bytes
    after it. *)
Definition utf8_first (l : list byte) : option (ascii * list byte) :=
  match l with
  | [] => None
  | b :: r =>
      let n := Byte.to_N b in
      if (n <? 128)%N then Some (ascii_of_byte b, r)
      else match r with
           | [] => None
           | b2 :: r' =>
               Some (ascii_of_N ((n - 192) * 64 + (Byte.to_N b2 - 128)), r')
           end
  end.

(** * Facts *)

(** ** [json.loads] inverts [json.dumps] *)

Lemma parse_str_emit_char c rest :
  parse_str (emit_char c rest) = pcons c (parse_str rest).
Proof.
  destruct c as [[] [] [] [] [] [] [] []]; reflexivity.
Qed.

Lemma parse_str_emit_chars s k :
  parse_str (emit_chars s (String dquote k)) = Parsed s k.
Proof.
  induction s as [|c s IH]; simpl.
  - reflexivity.
  - rewrite parse_str_emit_char, IH. reflexivity.
Qed.

Lemma pretty_N_go_app x s k : pretty_N_go x s +:+ k = pretty_N_go x (s +:+ k).
Proof.
  revert s. induction (N.lt_wf_0 x) as [x _ IH]; intros s.
  destruct (decide (x = 0)%N) as [->|Hx].
  - by rewrite !pretty_N_go_0.
  - rewrite (pretty_N_go_step x s), (pretty_N_go_step x (s +:+ k)) by lia.
    rewrite IH; [reflexivity|]. apply N.div_lt; lia.
Qed.

Lemma digit_val_pretty d : (d < 10)%N → digit_val (pretty_N_char d) = Some d.
Proof.
  intros Hd.
  assert (d = 0 ∨ d = 1 ∨ d = 2 ∨ d = 3 ∨ d = 4 ∨ d = 5 ∨ d = 6 ∨ d = 7
          ∨ d = 8 ∨ d = 9)%N as H by lia.
  repeat (destruct H as [->|H]; [reflexivity|]). by subst.
Qed.

Lemma read_digits_go x s :
  ∃ m, ∀ acc, read_digits acc (pretty_N_go x s) = read_digits (acc * m + x) s.
Proof.
  revert s. induction (N.lt_wf_0 x) as [x _ IH]; intros s.
  destruct (decide (x = 0)%N) as [->|Hx].
  - exists 1%N. intros acc. rewrite pretty_N_go_0. f_equal. lia.
  - rewrite pretty_N_go_step by lia.
    destruct (IH (x `div` 10)%N) with (s := String (pretty_N_char (x `mod` 10)) s)
      as [m Hm].
    { apply N.div_lt; lia. }
    exists (m * 10)%N. intros acc. rewrite Hm. simpl.
    rewrite digit_val_pretty by (apply N.mod_lt; lia).
    f_equal. pose proof (N.div_mod x 10). lia.
Qed.

Lemma pretty_N_go_head x s :
  (0 < x)%N →
  ∃ d r, pretty_N_go x s = String (pretty_N_char d) r ∧ (0 < d < 10)%N.
Proof.
  revert s. induction (N.lt_wf_0 x) as [x _ IH]; intros s Hx.
  rewrite pretty_N_go_step by done.
  destruct (decide (x < 10)%N) as [Hlt|Hge].
  - rewrite N.div_small, pretty_N_go_0, N.mod_small by done. eauto.
  - apply IH; [apply N.div_lt; lia|]. apply N.div_str_pos. lia.
Qed.

Lemma is_char_eq n c : is_char n c = true → c = chr n.
Proof.
  unfold is_char, PyStr.code, chr. intros H%N.eqb_eq.
  by rewrite <- H, ascii_N_embedding.
Qed.

Lemma delim_number k :
  delim k → starts_digit k = false ∧ float_follows k = false ∧ read_digits 0 k = (0%N, k)
            ∧ ∀ n, read_digits n k = (n, k).
Proof.
  destruct k as [|c k]; [done|]. simpl. intros H.
  apply orb_true_iff in H as [H|H]; [apply orb_true_iff in H as [H|H]|];
    apply is_char_eq in H; subst c; done.
Qed.

Lemma parse_nat_go neg x k :
  (0 < x)%N → delim k →
  parse_nat neg (pretty_N_go x k)
  = Parsed (JInt (if neg then - Z.of_N x else Z.of_N x)%Z) k.
Proof.
  intros Hx Hk.
  destruct (pretty_N_go_head x k Hx) as (d & r & Heq & Hd).
  destruct (read_digits_go x k) as [m Hm].
  specialize (Hm 0%N). rewrite Heq in Hm. simpl in Hm.
  rewrite Heq. unfold parse_nat.
  rewrite digit_val_pretty in * by lia.
  destruct (delim_number k Hk) as (_ & Hf & _ & Hr).
  rewrite Hr in Hm.
  destruct d as [|p]; [lia|].
  change (0 * 10 + N.pos p)%N with (N.pos p) in Hm.
  rewrite Hm. unfold finish_int. by rewrite Hf.
Qed.

Lemma parse_atom_int z k :
  delim k → parse_atom (pretty z +:+ k) = Parsed (JInt z) k.
Proof.
  intros Hk. destruct (delim_number k Hk) as (_ & Hf & _ & _).
  destruct z as [|p|p].
  - change (pretty 0%Z +:+ k) with (String "0" k).
    unfold parse_atom; simpl. unfold finish_int. by rewrite Hf.
  - change (pretty (Z.pos p)) with (pretty_N_go (N.pos p) "").
    rewrite pretty_N_go_app. change ("" +:+ k) with k.
    pose proof (parse_nat_go false (N.pos p) k) as Hp.
    destruct (pretty_N_go_head (N.pos p) k) as (d & r & Heq & Hd); [lia|].
    rewrite Heq in *.
    assert (d = 1 ∨ d = 2 ∨ d = 3 ∨ d = 4 ∨ d = 5 ∨ d = 6 ∨ d = 7
          ∨ d = 8 ∨ d = 9)%N as H by lia.
    unfold parse_atom.
    repeat (destruct H as [->|H]; [apply Hp; [lia|done]|]). subst. apply Hp; [lia|done].
  - change (pretty (Z.neg p) +:+ k) with (String "-" (pretty_N_go (N.pos p) "" +:+ k)).
    rewrite pretty_N_go_app. change ("" +:+ k) with k.
    pose proof (parse_nat_go true (N.pos p) k) as Hp.
    destruct (pretty_N_go_head (N.pos p) k) as (d & r & Heq & Hd); [lia|].
    rewrite Heq in *.
    assert (d = 1 ∨ d = 2 ∨ d = 3 ∨ d = 4 ∨ d = 5 ∨ d = 6 ∨ d = 7
          ∨ d = 8 ∨ d = 9)%N as H by lia.
    unfold parse_atom.
    repeat (destruct H as [->|H]; [apply Hp; [lia|done]|]). subst. apply Hp; [lia|done].
Qed.

Lemma pretty_Z_head (z : Z) k : ∃ c r, pretty z +:+ k = String c r ∧ num_head c.
Proof.
  unfold num_head.
  destruct z as [|p|p].
  - exists "0"%char, k. split; [reflexivity|]. simpl; tauto.
  - change (pretty (Z.pos p)) with (pretty_N_go (N.pos p) "").
    rewrite pretty_N_go_app.
    destruct (pretty_N_go_head (N.pos p) ("" +:+ k)) as (d & r & -> & Hd); [lia|].
    exists (pretty_N_char d), r. split; [done|].
    assert (d = 1 ∨ d = 2 ∨ d = 3 ∨ d = 4 ∨ d = 5 ∨ d = 6 ∨ d = 7
          ∨ d = 8 ∨ d = 9)%N as H by lia.
    repeat (destruct H as [->|H]; [simpl; tauto|]). subst; simpl; tauto.
  - exists "-"%char, (pretty_N_go (N.pos p) "" +:+ k). split; [reflexivity|].
    simpl; tauto.
Qed.

Lemma parse_value_num fuel c r :
  num_head c → parse_value (S fuel) (String c r) = parse_atom (String c r).
Proof.
  unfold num_head. simpl.
  intros H. repeat (destruct H as [<-|H]; [reflexivity|]). done.
Qed.

Lemma num_head_not_ws c : num_head c → is_ws c = false ∧ is_char 93 c = false ∧ is_char 125 c = false.
Proof.
  unfold num_head. simpl.
  intros H. repeat (destruct H as [<-|H]; [done|]). done.
Qed.

(** Induction on values with the lists of arrays and objects. *)
Lemma json_ind' (P : json → Prop) :
  P JNull → (∀ b, P (JBool b)) → (∀ n, P (JInt n)) → (∀ s, P (JStr s)) →
  (∀ l, Forall P l → P (JArr l)) →
  (∀ m, Forall (λ kv, P (snd kv)) m → P (JObj m)) →
  ∀ v, P v.
Proof.
  intros Hnull Hbool Hint Hstr Harr Hobj.
  fix IH 1. intros [ | b | n | s | l | m ].
  - exact Hnull.
  - apply Hbool.
  - apply Hint.
  - apply Hstr.
  - apply Harr. revert l. fix IHl 1. intros [|x l]; constructor.
    + apply IH.
    + apply IHl.
  - apply Hobj. revert m. fix IHm 1. intros [|[k x] m]; constructor.
    + apply IH.
    + apply IHm.
Qed.

Lemma emit_arr l k : emit (JArr l) k = String "[" (emit_items l k).
Proof.
  simpl. f_equal. induction l as [|x l IH]; [done|].
  simpl. destruct l; [done|]. by rewrite IH.
Qed.

Lemma emit_obj m k : emit (JObj m) k = String "{" (emit_members m k).
Proof.
  simpl. f_equal. induction m as [|[key x] m IH]; [done|].
  simpl. destruct m; [done|]. by rewrite IH.
Qed.

Lemma wf_arr l : wf (JArr l) ↔ Forall wf l.
Proof.
  simpl. induction l as [|x l IH]; [by split|].
  rewrite Forall_cons. by rewrite IH.
Qed.

Lemma wf_obj m : wf (JObj m) ↔ NoDup (List.map fst m) ∧ Forall (λ kv, wf (snd kv)) m.
Proof.
  simpl. apply and_iff_compat_l. induction m as [|[k x] m IH]; [by split|].
  rewrite Forall_cons. by rewrite IH.
Qed.

Lemma weight_arr l : weight (JArr l) = S (weights l).
Proof. reflexivity. Qed.

Lemma weight_obj m : weight (JObj m) = S (weights_m m).
Proof. simpl. f_equal. induction m as [|[k x] m IH]; [done|]. simpl. by rewrite IH. Qed.

Lemma emit_head v k : ∃ c r, emit v k = String c r ∧ value_head c.
Proof.
  destruct v as [ | [] | n | s | l | m ].
  - by exists "n"%char, ("ull" +:+ k).
  - by exists "t"%char, ("rue" +:+ k).
  - by exists "f"%char, ("alse" +:+ k).
  - destruct (pretty_Z_head n k) as (c & r & H & Hc). exists c, r.
    split; [done|]. by apply num_head_not_ws.
  - by eexists dquote, _.
  - rewrite emit_arr. by eexists "["%char, _.
  - rewrite emit_obj. by eexists "{"%char, _.
Qed.

Lemma skip_ws_emit v k : skip_ws (emit v k) = emit v k.
Proof.
  destruct (emit_head v k) as (c & r & -> & Hc & _). simpl. by rewrite Hc.
Qed.

Lemma dict_set_fresh k v d :
  k ∉ List.map fst d → dict_set k v d = d ++ [(k, v)].
Proof.
  induction d as [|[k' v'] d IH]; simpl; [done|].
  intros Hn. apply not_elem_of_cons in Hn as [Hne Hn].
  destruct (String.eqb_spec k k'); [done|]. by rewrite IH.
Qed.

Lemma dict_of_pairs_nodup m : NoDup (List.map fst m) → dict_of_pairs m = m.
Proof.
  unfold dict_of_pairs.
  cut (∀ acc, NoDup (List.map fst (acc ++ m)) →
              fold_left (λ d kv, dict_set (fst kv) (snd kv) d) m acc = acc ++ m).
  { intros H Hm. by apply (H []). }
  induction m as [|[k v] m IH]; intros acc Hnd; simpl.
  - by rewrite app_nil_r.
  - rewrite dict_set_fresh.
    + rewrite IH; rewrite <- app_assoc; done.
    + rewrite List.map_app in Hnd. simpl in Hnd.
      apply NoDup_app in Hnd as (_ & Hd & _). intros Hin.
      apply (Hd k Hin). left.
Qed.

Lemma parse_value_str f X :
  parse_value (S f) (String dquote X)
  = pbind (parse_str X) (λ x r', Parsed (JStr x) r').
Proof. reflexivity. Qed.

Lemma parse_value_arr f X :
  parse_value (S f) (String "[" X)
  = match skip_ws X with
    | String c1 r1 =>
        if is_char 93 c1 then Parsed (JArr []) r1
        else pbind (parse_elems f (skip_ws X)) (λ l r', Parsed (JArr l) r')
    | "" => Fail Malformed
    end.
Proof. reflexivity. Qed.

Lemma parse_value_obj f X :
  parse_value (S f) (String "{" X)
  = match skip_ws X with
    | String c1 r1 =>
        if is_char 125 c1 then Parsed (JObj []) r1
        else pbind (parse_members f (skip_ws X))
               (λ m r', Parsed (JObj (dict_of_pairs m)) r')
    | "" => Fail Malformed
    end.
Proof. reflexivity. Qed.

Lemma parse_elems_S f s :
  parse_elems (S f) s
  = pbind (parse_value f s) (λ v r,
      match skip_ws r with
      | String c r1 =>
          if is_char 93 c then Parsed [v] r1
          else if is_char 44 c then
            pbind (parse_elems f (skip_ws r1)) (λ l r', Parsed (v :: l) r')
          else Fail Malformed
      | "" => Fail Malformed
      end).
Proof. reflexivity. Qed.

Lemma parse_members_S f Y :
  parse_members (S f) (String dquote Y)
  = pbind (parse_str Y) (λ key r1,
      match skip_ws r1 with
      | String c r2 =>
          if negb (is_char 58 c) then Fail Malformed
          else
            pbind (parse_value f (skip_ws r2)) (λ v r3,
              match skip_ws r3 with
              | String c' r4 =>
                  if is_char 125 c' then Parsed [(key, v)] r4
                  else if is_char 44 c' then
                    pbind (parse_members f (skip_ws r4))
                      (λ m r', Parsed ((key, v) :: m) r')
                  else Fail Malformed
              | "" => Fail Malformed
              end)
      | "" => Fail Malformed
      end).
Proof. reflexivity. Qed.

Lemma parse_elems_emit l k :
  Forall round_trips l → Forall wf l → l ≠ [] → ∀ f, (weights l ≤ f)%nat →
  parse_elems f (emit_items l k) = Parsed l k.
Proof.
  induction 1 as [|x l Hx Hl IH]; [done|].
  intros Hwf _ f Hf. apply Forall_cons in Hwf as [Hwx Hwl].
  simpl in Hf. destruct f as [|f]; [lia|].
  rewrite parse_elems_S. simpl emit_items.
  destruct l as [|y l].
  - rewrite Hx; [|done|done|lia]. reflexivity.
  - rewrite Hx; [|done|done|lia].
    change (pbind (Parsed x ?R) ?g) with (g x R). cbv beta.
    change (skip_ws (String "," ?r)) with (String "," r). cbv iota beta.
    change (is_char 93 ",") with false. change (is_char 44 ",") with true.
    cbv iota.
    change (skip_ws (String " " ?r)) with (skip_ws r).
    assert (skip_ws (emit_items (y :: l) k) = emit_items (y :: l) k) as ->
      by apply skip_ws_emit.
    rewrite IH; [done|done|done|]. simpl in *. lia.
Qed.

Lemma emit_members_head key x m k :
  ∃ Y, emit_members ((key, x) :: m) k = String dquote Y.
Proof. simpl. unfold emit_str. eauto. Qed.

Lemma parse_members_emit m k :
  Forall (λ kv, round_trips (snd kv)) m → Forall (λ kv, wf (snd kv)) m →
  m ≠ [] → ∀ f, (weights_m m ≤ f)%nat →
  parse_members f (emit_members m k) = Parsed m k.
Proof.
  induction 1 as [|[key x] m Hx Hm IH]; [done|].
  intros Hwf _ f Hf. apply Forall_cons in Hwf as [Hwx Hwm].
  simpl in Hf, Hx, Hwx. destruct f as [|f]; [lia|].
  simpl emit_members. unfold emit_str at 1.
  rewrite parse_members_S, parse_str_emit_chars.
  change (pbind (Parsed key ?R) ?g) with (g key R). cbv beta.
  change (skip_ws (String ":" ?r)) with (String ":" r). cbv iota beta.
  change (is_char 58 ":") with true. cbv iota beta. simpl negb. cbv iota.
  change (skip_ws (String " " ?r)) with (skip_ws r).
  rewrite skip_ws_emit.
  destruct m as [|[key' y] m].
  - rewrite Hx; [|done|done|lia]. reflexivity.
  - rewrite Hx; [|done|done|lia].
    change (pbind (Parsed x ?R) ?g) with (g x R). cbv beta.
    change (skip_ws (String "," ?r)) with (String "," r). cbv iota beta.
    change (is_char 125 ",") with false. change (is_char 44 ",") with true.
    cbv iota.
    change (skip_ws (String " " ?r)) with (skip_ws r).
    destruct (emit_members_head key' y m k) as [Y HY].
    rewrite HY at 1. change (skip_ws (String dquote Y)) with (String dquote Y).
    rewrite <- HY.
    rewrite IH; [done|done|done|]. simpl in *. lia.
Qed.

Lemma parse_emit v : round_trips v.
Proof.
  induction v as [ | b | n | s | l IH | m IH ] using json_ind';
    intros Hwf k fuel Hk Hfuel.
  - destruct fuel; [simpl in *; lia|]. reflexivity.
  - destruct fuel; [simpl in *; lia|]. by destruct b.
  - destruct fuel; [simpl in *; lia|]. simpl emit.
    destruct (pretty_Z_head n k) as (c & r & Heq & Hc).
    rewrite Heq, parse_value_num, <- Heq by done. by apply parse_atom_int.
  - destruct fuel; [simpl in *; lia|]. simpl emit. unfold emit_str.
    rewrite parse_value_str, parse_str_emit_chars. reflexivity.
  - rewrite weight_arr in Hfuel. destruct fuel as [|f]; [lia|].
    rewrite emit_arr, parse_value_arr. apply wf_arr in Hwf.
    destruct l as [|x l]; [reflexivity|].
    assert (skip_ws (emit_items (x :: l) k) = emit_items (x :: l) k) as ->
      by apply skip_ws_emit.
    rewrite parse_elems_emit; [|done|done|done|lia].
    simpl emit_items.
    destruct (emit_head x (match l with [] => String "]" k
                           | _ => String "," (String " " (emit_items l k)) end))
      as (c & r & -> & _ & Hc & _).
    by rewrite Hc.
  - rewrite weight_obj in Hfuel. destruct fuel as [|f]; [lia|].
    rewrite emit_obj, parse_value_obj. apply wf_obj in Hwf as [Hnd Hwf].
    destruct m as [|[key x] m]; [reflexivity|].
    destruct (emit_members_head key x m k) as [Y HY].
    rewrite HY. change (skip_ws (String dquote Y)) with (String dquote Y).
    cbv iota. change (is_char 125 dquote) with false. cbv iota.
    rewrite <- HY.
    rewrite parse_members_emit; [|done|done|done|lia].
    simpl pbind. by rewrite dict_of_pairs_nodup.
Qed.

Lemma string_length_app (a b : string) :
  String.length (a +:+ b) = (String.length a + String.length b)%nat.
Proof.
  induction a as [|c a IH]; [done|].
  change (S (String.length (a +:+ b)) = S (String.length a + String.length b)).
  by rewrite IH.
Qed.

Lemma emit_char_length c k : (S (String.length k) ≤ String.length (emit_char c k))%nat.
Proof.
  unfold emit_char. repeat case_match; simpl; lia.
Qed.

Lemma emit_chars_length s k : (String.length k ≤ String.length (emit_chars s k))%nat.
Proof.
  induction s as [|c s IH]; simpl; [lia|].
  pose proof (emit_char_length c (emit_chars s k)). lia.
Qed.

Lemma pretty_Z_length (n : Z) k :
  (S (String.length k) ≤ String.length (pretty n +:+ k))%nat.
Proof.
  rewrite string_length_app.
  destruct (pretty_Z_head n "") as (c & r & H & _).
  apply (f_equal String.length) in H. rewrite string_length_app in H. simpl in H. lia.
Qed.

Lemma emit_items_length l k :
  Forall emits_enough l →
  (weights l + String.length k ≤ String.length (emit_items l k))%nat.
Proof.
  induction 1 as [|x l Hx Hl IH]; simpl; [lia|].
  destruct l as [|y l].
  - specialize (Hx (String "]" k)). simpl in *. lia.
  - remember (emit_items (y :: l) k) as R. remember (weights (y :: l)) as n.
    specialize (Hx (String "," (String " " R))).
    simpl String.length in Hx. lia.
Qed.

Lemma emit_members_length m k :
  Forall (λ kv, emits_enough (snd kv)) m →
  (weights_m m + String.length k ≤ String.length (emit_members m k))%nat.
Proof.
  induction 1 as [|[key x] m Hx Hm IH]; simpl; [lia|].
  simpl in Hx.
  match goal with |- (_ ≤ S (String.length (emit_chars key ?R)))%nat =>
    pose proof (emit_chars_length key R) as Hk end.
  simpl String.length in Hk.
  destruct m as [|[key' y] m].
  - specialize (Hx (String "}" k)). simpl in *. lia.
  - remember (emit_members ((key', y) :: m) k) as R.
    remember (weights_m ((key', y) :: m)) as n.
    specialize (Hx (String "," (String " " R))).
    simpl String.length in Hx. lia.
Qed.

Lemma emit_length v : emits_enough v.
Proof.
  induction v as [ | b | n | s | l IH | m IH ] using json_ind'; intros k.
  - change (emit JNull k) with (String "n" (String "u" (String "l" (String "l" k)))).
    simpl. lia.
  - destruct b; simpl emit; rewrite string_length_app; simpl; lia.
  - pose proof (pretty_Z_length n k). simpl emit. simpl weight. lia.
  - simpl. pose proof (emit_chars_length s (String dquote k)). simpl in *. lia.
  - rewrite emit_arr, weight_arr. pose proof (emit_items_length l k IH).
    simpl. lia.
  - rewrite emit_obj, weight_obj. pose proof (emit_members_length m k IH).
    simpl. lia.
Qed.

Theorem loads_dumps v : wf v → loads (dumps v) = inr v.
Proof.
  intros Hwf. unfold loads, dumps.
  rewrite skip_ws_emit.
  rewrite parse_emit; [done|done|done|].
  pose proof (emit_length v ""). simpl String.length in *. lia.
Qed.

(** ** [SmartHash.calculate] *)

Lemma calculate_file (env : Env) (fs : FS) (p : Path) (c : list byte) (t : float)
    (chunk_size : N) :
  fs !! p = Some (NFile c t) →
  SmartHash.calculate env fs p chunk_size
  = Ok (sha256_hex env (fingerprint_input env (name p) c t chunk_size)).
Proof.
  intros Hp. unfold SmartHash.calculate, stat, open_rb, fingerprint_input.
  rewrite Hp. simpl. rewrite (N.mul_comm chunk_size 2).
  destruct (2 * chunk_size <? N.of_nat (length c))%N.
  - by rewrite <- app_assoc.
  - by rewrite app_nil_r.
Qed.

(** C9. The fingerprint of a regular file is the digest of
    [name|size|mtime], then the first [chunk_size] bytes, then (exactly when
    the size exceeds [2 * chunk_size]) the last [chunk_size] bytes; so two
    files with the same name, size, modification time, head and tail have the
    same fingerprint, whatever lies between head and tail. *)
Theorem smart_hash_head_tail (env : Env) (fs1 fs2 : FS) (p1 p2 : Path)
    (c1 c2 : list byte) (t1 t2 : float) (chunk_size : N) :
  fs1 !! p1 = Some (NFile c1 t1) →
  fs2 !! p2 = Some (NFile c2 t2) →
  SmartHash.calculate env fs1 p1 chunk_size
    = Ok (sha256_hex env (fingerprint_input env (name p1) c1 t1 chunk_size))
  ∧ (name p1 = name p2 →
     length c1 = length c2 →
     t1 = t2 →
     take (N.to_nat chunk_size) c1 = take (N.to_nat chunk_size) c2 →
     ((2 * chunk_size < N.of_nat (length c1))%N →
      drop (length c1 - N.to_nat chunk_size) c1
      = drop (length c2 - N.to_nat chunk_size) c2) →
     SmartHash.calculate env fs1 p1 chunk_size
     = SmartHash.calculate env fs2 p2 chunk_size).
Proof.
  intros H1 H2. split; [by apply calculate_file|].
  intros Hname Hlen -> Hhead Htail.
  rewrite (calculate_file _ _ _ _ _ _ H1), (calculate_file _ _ _ _ _ _ H2).
  unfold fingerprint_input. rewrite Hname, <- Hlen, Hhead.
  destruct (2 * chunk_size <? N.of_nat (length c1))%N eqn:Hbig; [|reflexivity].
  apply N.ltb_lt in Hbig. rewrite Htail by done. by rewrite Hlen.
Qed.

(** Two files of five bytes that differ in the middle byte only, hashed with
    chunks of two bytes. *)
Lemma smart_hash_head_tail_witness :
  PyStr.encode "abXcd" ≠ PyStr.encode "abYcd"
  ∧ SmartHash.calculate Example.env
      {[ ["d"; "a.bin"] := NFile (PyStr.encode "abXcd") 0%float ]} ["d"; "a.bin"] 2
    = SmartHash.calculate Example.env
      {[ ["e"; "a.bin"] := NFile (PyStr.encode "abYcd") 0%float ]} ["e"; "a.bin"] 2.
Proof.
  split; [discriminate|].
  refine (proj2 (smart_hash_head_tail Example.env _ _ _ _
                   (PyStr.encode "abXcd") (PyStr.encode "abYcd") 0%float 0%float 2
                   _ _) _ _ _ _ _);
    try reflexivity.
Defined.

(** ** [AIAnalyzer.analyze] *)

Lemma prefix_refl (s : string) : String.prefix s s = true.
Proof.
  induction s as [|c s IH]; [done|]. simpl.
  destruct (ascii_dec c c); [done|congruence].
Qed.

Lemma contains_app_r (a s : string) : PyStr.contains s (a +:+ s) = true.
Proof.
  induction a as [|c a IH].
  - change ("" +:+ s) with s.
    destruct s as [|c s]; [done|].
    change (String.prefix (String c s) (String c s) || PyStr.contains (String c s) s
            = true).
    by rewrite prefix_refl.
  - change (String.prefix s (String c (a +:+ s)) || PyStr.contains s (a +:+ s)
            = true).
    rewrite IH. apply orb_true_r.
Qed.

Lemma get_frame (env : Env) (h m : string) (w : World) : snd (AnalysisCache.get env h m w) = w.
Proof.
  unfold AnalysisCache.get.
  destruct (db w !! (h, m)) as [[text ts]|]; [|done].
  by destruct (loads text) as [[]|].
Qed.

Lemma get_db (env : Env) (h m : string) (w1 w2 : World) :
  db w1 = db w2 → fst (AnalysisCache.get env h m w1) = fst (AnalysisCache.get env h m w2).
Proof.
  intros Hdb. unfold AnalysisCache.get. rewrite Hdb.
  destruct (db w2 !! (h, m)) as [[text ts]|]; [|done].
  by destruct (loads text) as [[]|].
Qed.

Lemma lookup_frame (env : Env) (self : Analyzer) (h : string) (w : World) :
  snd (AIAnalyzer.lookup env self h w) = w.
Proof.
  unfold AIAnalyzer.lookup. destruct (has_cache self); [|done].
  unfold bind. pose proof (get_frame env h (model_name self) w) as Hw.
  destruct (AnalysisCache.get env h (model_name self) w) as [[c|e] w']; simpl in *;
    by subst.
Qed.

Lemma lookup_db (env : Env) (self : Analyzer) (h : string) (w1 w2 : World) :
  db w1 = db w2 →
  fst (AIAnalyzer.lookup env self h w1) = fst (AIAnalyzer.lookup env self h w2).
Proof.
  intros Hdb. unfold AIAnalyzer.lookup. destruct (has_cache self); [|done].
  unfold bind. pose proof (get_db env h (model_name self) w1 w2 Hdb) as Hg.
  destruct (AnalysisCache.get env h (model_name self) w1) as [[c1|e1] w1'],
           (AnalysisCache.get env h (model_name self) w2) as [[c2|e2] w2'];
    simpl in *; by simplify_eq.
Qed.

(** The world after a failed attempt and the [except] branch: one more call to
    the backend on record, the clock read once. *)
Lemma attempt_backend_raises (env : Env) (self : Analyzer) (p : Path)
    (mime h : string) (w : World) (e : PyExc) :
  backend_reply env (backend self) (model_name self) w p mime = Raise e →
  AIAnalyzer.attempt env self p mime h w
  = (Raise e, record_call (EvAnalyze (backend self) p mime) w).
Proof.
  intros Hb. unfold AIAnalyzer.attempt, bind, AIAnalyzer.call_backend.
  by rewrite Hb.
Qed.

(** [analyze] when the file can be fingerprinted and the cache has nothing
    to offer: the attempt, or the degraded result of its exception. *)
Lemma analyze_miss (env : Env) (self : Analyzer) (p : Path) (w : World) (h : string) :
  SmartHash.calculate env (fs w) p 65536 = Ok h →
  fst (AIAnalyzer.lookup env self h w) = Ok None →
  AIAnalyzer.analyze env self p w
  = match AIAnalyzer.attempt env self p (AIAnalyzer.mime_type_of env p) h w with
    | (Ok r, w1) => (Ok r, w1)
    | (Raise e, w1) =>
        (Ok (AIAnalyzer.degraded p (AIAnalyzer.mime_type_of env p) h
               (isoformat_at env (clock w1)) (model_name self) e), tick w1)
    end.
Proof.
  intros Hh Hl. unfold AIAnalyzer.analyze, bind, get_world, lift. rewrite Hh.
  pose proof (lookup_frame env self h w) as Hw.
  destruct (AIAnalyzer.lookup env self h w) as [[hit|e] w']; simpl in *; subst w';
    [|done].
  injection Hl as ->. unfold try_except.
  by destruct (AIAnalyzer.attempt env self p (AIAnalyzer.mime_type_of env p) h w)
    as [[r|e] w1].
Qed.

(** C1. When the fingerprint of the file is computed, the cache offers
    nothing and the backend raises, [analyze] returns (it does not raise) the
    degraded result: category [other], the stem of the file name as title, a
    description that contains the message of the exception, and no tags. *)
Theorem analyze_degraded (env : Env) (self : Analyzer) (p : Path) (w : World)
    (h : string) (e : PyExc) :
  SmartHash.calculate env (fs w) p 65536 = Ok h →
  fst (AIAnalyzer.lookup env self h w) = Ok None →
  backend_reply env (backend self) (model_name self) w p
    (AIAnalyzer.mime_type_of env p) = Raise e →
  ∃ (d : dict) (w' : World),
    AIAnalyzer.analyze env self p w = (Ok (JObj d), w')
    ∧ dict_get "category" d = Some (JStr "other")
    ∧ dict_get "title" d = Some (JStr (stem p))
    ∧ dict_get "description" d
      = Some (JStr ("Error analyzing file: " +:+ exc_msg e))
    ∧ PyStr.contains (exc_msg e) ("Error analyzing file: " +:+ exc_msg e) = true
    ∧ dict_get "tags" d = Some (JArr []).
Proof.
  intros Hh Hl Hb.
  rewrite (analyze_miss env self p w h Hh Hl).
  rewrite (attempt_backend_raises env self p _ h w e Hb).
  eexists _, _. split; [reflexivity|].
  repeat split; try reflexivity. apply contains_app_r.
Qed.

(** The backend is out of quota for [/d/bad.txt]. *)
Lemma analyze_degraded_witness :
  ∃ (d : dict) (w' : World),
    AIAnalyzer.analyze Example.env Example.gemini ["d"; "bad.txt"] Example.world
      = (Ok (JObj d), w')
    ∧ dict_get "category" d = Some (JStr "other")
    ∧ dict_get "title" d = Some (JStr "bad")
    ∧ dict_get "description" d
      = Some (JStr "Error analyzing file: quota exceeded")
    ∧ PyStr.contains "quota exceeded" "Error analyzing file: quota exceeded" = true
    ∧ dict_get "tags" d = Some (JArr []).
Proof.
  apply (analyze_degraded Example.env Example.gemini ["d"; "bad.txt"] Example.world
           "bad.txt|6|1700000000.0broken" (MkExc "RuntimeError" "quota exceeded"));
    vm_compute; reflexivity.
Defined.

Lemma setitem_dict (d : dict) (k : string) (x : json) :
  AIAnalyzer.setitem (JObj d) k x = Ok (JObj (dict_set k x d)).
Proof. reflexivity. Qed.

(** Every attempt puts exactly one call to the backend on record. *)
Lemma attempt_calls (env : Env) (self : Analyzer) (p : Path) (mime h : string)
    (w : World) :
  calls (snd (AIAnalyzer.attempt env self p mime h w))
  = calls w ++ [EvAnalyze (backend self) p mime].
Proof.
  unfold AIAnalyzer.attempt, bind, AIAnalyzer.call_backend, lift, now, ret.
  destruct (backend_reply env (backend self) (model_name self) w p mime)
    as [r|e]; [|done].
  destruct (AIAnalyzer.setitem r "mime_type" (JStr mime)) as [r1|e]; [|done].
  destruct (AIAnalyzer.setitem r1 "file_hash" (JStr h)) as [r2|e]; [|done].
  destruct (AIAnalyzer.setitem r2 "analyzed_at" _) as [r3|e]; [|done].
  destruct (AIAnalyzer.setitem r3 "model" _) as [r4|e]; [|done].
  by destruct (has_cache self).
Qed.

(** The file system is not written by an attempt. *)
Lemma attempt_fs (env : Env) (self : Analyzer) (p : Path) (mime h : string)
    (w : World) :
  fs (snd (AIAnalyzer.attempt env self p mime h w)) = fs w.
Proof.
  unfold AIAnalyzer.attempt, bind, AIAnalyzer.call_backend, lift, now, ret.
  destruct (backend_reply env (backend self) (model_name self) w p mime)
    as [r|e]; [|done].
  destruct (AIAnalyzer.setitem r "mime_type" (JStr mime)) as [r1|e]; [|done].
  destruct (AIAnalyzer.setitem r1 "file_hash" (JStr h)) as [r2|e]; [|done].
  destruct (AIAnalyzer.setitem r2 "analyzed_at" _) as [r3|e]; [|done].
  destruct (AIAnalyzer.setitem r3 "model" _) as [r4|e]; [|done].
  by destruct (has_cache self).
Qed.

(** A reply that is a dict comes back with its four bookkeeping fields. *)
Lemma attempt_dict (env : Env) (self : Analyzer) (p : Path) (mime h : string)
    (w : World) (d : dict) :
  backend_reply env (backend self) (model_name self) w p mime = Ok (JObj d) →
  fst (AIAnalyzer.attempt env self p mime h w)
  = Ok (JObj (dict_set "model" (JStr (model_name self))
           (dict_set "analyzed_at" (JStr (isoformat_at env (clock w)))
              (dict_set "file_hash" (JStr h)
                 (dict_set "mime_type" (JStr mime) d))))).
Proof.
  intros Hb.
  unfold AIAnalyzer.attempt, bind, AIAnalyzer.call_backend, lift, now, ret.
  rewrite Hb. simpl. by destruct (has_cache self).
Qed.

(** C10. A degraded result is not cached.  When the backend raises, [analyze]
    leaves the cache database as it was; the next call for the same file
    misses the cache again and calls the backend again, and a reply of the
    backend is then returned in place of the placeholder. *)
Theorem degraded_not_cached (env : Env) (self : Analyzer) (p : Path) (w : World)
    (h : string) (e : PyExc) :
  SmartHash.calculate env (fs w) p 65536 = Ok h →
  fst (AIAnalyzer.lookup env self h w) = Ok None →
  backend_reply env (backend self) (model_name self) w p
    (AIAnalyzer.mime_type_of env p) = Raise e →
  let call := EvAnalyze (backend self) p (AIAnalyzer.mime_type_of env p) in
  let w1 := snd (AIAnalyzer.analyze env self p w) in
  db w1 = db w
  ∧ calls w1 = calls w ++ [call]
  ∧ calls (snd (AIAnalyzer.analyze env self p w1)) = calls w ++ [call; call]
  ∧ ∀ d : dict,
      backend_reply env (backend self) (model_name self) w1 p
        (AIAnalyzer.mime_type_of env p) = Ok (JObj d) →
      fst (AIAnalyzer.analyze env self p w1)
      = Ok (JObj (dict_set "model" (JStr (model_name self))
               (dict_set "analyzed_at" (JStr (isoformat_at env (clock w1)))
                  (dict_set "file_hash" (JStr h)
                     (dict_set "mime_type" (JStr (AIAnalyzer.mime_type_of env p)) d))))).
Proof.
  intros Hh Hl Hb call w1. subst call w1.
  rewrite (analyze_miss env self p w h Hh Hl).
  rewrite (attempt_backend_raises env self p _ h w e Hb). simpl.
  set (w1 := tick (record_call _ w)).
  assert (SmartHash.calculate env (fs w1) p 65536 = Ok h) as Hh1 by done.
  assert (fst (AIAnalyzer.lookup env self h w1) = Ok None) as Hl1.
  { by rewrite (lookup_db env self h w1 w). }
  repeat split.
  - rewrite (analyze_miss env self p w1 h Hh1 Hl1).
    pose proof (attempt_calls env self p (AIAnalyzer.mime_type_of env p) h w1) as Hc.
    destruct (AIAnalyzer.attempt env self p (AIAnalyzer.mime_type_of env p) h w1)
      as [[r|e'] w2]; simpl in *; rewrite Hc, <- app_assoc; done.
  - intros d Hd.
    rewrite (analyze_miss env self p w1 h Hh1 Hl1).
    pose proof (attempt_dict env self p (AIAnalyzer.mime_type_of env p) h w1 d Hd)
      as Ha.
    destruct (AIAnalyzer.attempt env self p (AIAnalyzer.mime_type_of env p) h w1)
      as [[r|e'] w2]; simpl in *; by simplify_eq.
Qed.

(** Two calls in a row for [/d/bad.txt]: no row is stored, the backend is
    called twice. *)
Lemma degraded_not_cached_witness :
  let call := EvAnalyze Gemini ["d"; "bad.txt"] "text/plain" in
  let w1 := snd (AIAnalyzer.analyze Example.env Example.gemini ["d"; "bad.txt"]
                   Example.world) in
  db w1 = ∅
  ∧ calls w1 = [call]
  ∧ calls (snd (AIAnalyzer.analyze Example.env Example.gemini ["d"; "bad.txt"] w1))
    = [call; call].
Proof.
  destruct (degraded_not_cached Example.env Example.gemini ["d"; "bad.txt"]
              Example.world "bad.txt|6|1700000000.0broken"
              (MkExc "RuntimeError" "quota exceeded"))
    as (H1 & H2 & H3 & _); [vm_compute; reflexivity..|].
  exact (conj H1 (conj H2 H3)).
Defined.

(** ** [AnalysisCache] *)

Lemma set_db_insert (env : Env) (fp id : string) (r : json) (w : World) :
  db (snd (AnalysisCache.set env fp id r w))
  = <[(fp, id) := (dumps r, time_at env (clock w))]> (db w).
Proof. reflexivity. Qed.

Lemma set_all_cons (env : Env) (fp id : string) (r : json)
    (ops : list (string * string * json)) (w : World) :
  set_all env ((fp, id, r) :: ops) w
  = set_all env ops (snd (AnalysisCache.set env fp id r w)).
Proof. reflexivity. Qed.

Lemma set_all_lookup_other (env : Env) (ops : list (string * string * json))
    (w : World) (key : string * string) :
  key ∉ List.map fst ops →
  db (set_all env ops w) !! key = db w !! key.
Proof.
  revert w. induction ops as [|[[fp id] r] ops IH]; intros w Hk; [done|].
  simpl in Hk. apply not_elem_of_cons in Hk as [Hne Hk].
  rewrite set_all_cons, IH by done. rewrite set_db_insert.
  by rewrite lookup_insert_ne.
Qed.

(** The round trip through the cache, for the values of the model (no float,
    no code point above 255): [set(fp, id, r)] followed by [get(fp, id)]
    returns [r]; and in a cache that starts empty, [get] on a key that no
    [set] was called on returns [None]. *)
Theorem cache_round_trip (env : Env) (fp id : string) (r : json) (w : World) :
  wf r →
  (let w1 := snd (AnalysisCache.set env fp id r w) in
   AnalysisCache.get env fp id w1 = (Ok (Some r), w1))
  ∧ (∀ (ops : list (string * string * json)) (w0 : World),
       db w0 = ∅ →
       (fp, id) ∉ List.map fst ops →
       AnalysisCache.get env fp id (set_all env ops w0)
       = (Ok None, set_all env ops w0)).
Proof.
  intros Hwf. split.
  - intros w1. unfold AnalysisCache.get. subst w1.
    rewrite set_db_insert, lookup_insert_eq.
    by rewrite (loads_dumps r Hwf).
  - intros ops w0 Hempty Hkey. unfold AnalysisCache.get.
    rewrite (set_all_lookup_other env ops w0 (fp, id) Hkey), Hempty.
    by rewrite lookup_empty.
Qed.

(** The reply for a report goes to the cache and comes back; a key that was
    not set is absent. *)
Lemma cache_round_trip_witness :
  let r := JObj [("title", JStr "Report"); ("tags", JArr [JStr "work"; JInt 3]);
                 ("pages", JInt (-12)); ("draft", JBool false); ("author", JNull)] in
  (let w1 := snd (AnalysisCache.set Example.env "h1" "gemini" r Example.world) in
   AnalysisCache.get Example.env "h1" "gemini" w1 = (Ok (Some r), w1))
  ∧ AnalysisCache.get Example.env "h1" "gemini"
      (set_all Example.env [("h1", "ollama", r); ("h2", "gemini", r)] Example.world)
    = (Ok None,
       set_all Example.env [("h1", "ollama", r); ("h2", "gemini", r)] Example.world).
Proof.
  intros r.
  assert (wf r) as Hwf.
  { cbn. repeat split. by apply (bool_decide_unpack _). }
  destruct (cache_round_trip Example.env "h1" "gemini" r Example.world Hwf)
    as [H1 H2].
  split; [exact H1|].
  apply H2; [reflexivity|]. by apply (bool_decide_unpack _).
Defined.




(** ** Paths and candidate names *)

Lemma mem_char_app (c : ascii) (a b : string) :
  PyStr.mem_char c (a +:+ b) = PyStr.mem_char c a || PyStr.mem_char c b.
Proof.
  induction a as [|x a IH]; [done|].
  change (String x a +:+ b) with (String x (a +:+ b)). simpl.
  by rewrite IH, orb_assoc.
Qed.

Lemma mem_char_substring (c : ascii) (s : string) (n m : nat) :
  PyStr.mem_char c (String.substring n m s) = true → PyStr.mem_char c s = true.
Proof.
  revert n m. induction s as [|x s IH]; intros n m.
  - by destruct n, m.
  - destruct n as [|n]; simpl.
    + destruct m as [|m]; [done|]. simpl.
      intros [H|H]%orb_true_iff; [by rewrite H|].
      rewrite (IH 0 m H). apply orb_true_r.
    + intros H. rewrite (IH n m H). apply orb_true_r.
Qed.

Lemma mem_char_lstrip (c : ascii) (s : string) :
  PyStr.mem_char c (PyStr.lstrip s) = true → PyStr.mem_char c s = true.
Proof.
  induction s as [|x s IH]; [done|]. simpl.
  destruct (PyStr.isspace x); [|done].
  intros H. rewrite (IH H). apply orb_true_r.
Qed.

Lemma mem_char_rstrip (c : ascii) (s : string) :
  PyStr.mem_char c (PyStr.rstrip s) = true → PyStr.mem_char c s = true.
Proof.
  induction s as [|x s IH]; [done|]. simpl.
  destruct (PyStr.rstrip s) as [|y r].
  - destruct (PyStr.isspace x); [done|]. simpl. rewrite !orb_false_r.
    intros H. rewrite H. done.
  - intros H. change (Ascii.eqb c x || PyStr.mem_char c (String y r) = true) in H.
    apply orb_true_iff in H as [H|H]; [by rewrite H|].
    rewrite (IH H). apply orb_true_r.
Qed.

Lemma sub_reserved_no_slash (s : string) :
  PyStr.mem_char "/"%char (PyStr.sub_reserved s) = false.
Proof.
  induction s as [|x s IH]; [done|].
  unfold PyStr.sub_reserved in *. cbn [PyStr.map_chars PyStr.mem_char].
  rewrite IH, orb_false_r.
  destruct (PyStr.is_reserved x) eqn:Hx; [done|].
  apply Ascii.eqb_neq. intros <-. discriminate Hx.
Qed.

Lemma sanitised_no_slash (s : string) :
  PyStr.mem_char "/"%char (PyStr.strip (PyStr.sub_reserved s)) = false.
Proof.
  apply not_true_is_false. intros H.
  apply mem_char_rstrip, mem_char_lstrip in H.
  by rewrite sub_reserved_no_slash in H.
Qed.

Lemma pretty_N_char_no_slash (d : N) : Ascii.eqb "/" (pretty_N_char d) = false.
Proof.
  destruct d as [|p]; [reflexivity|].
  do 4 (try destruct p as [p|p|]); reflexivity.
Qed.

Lemma pretty_N_go_no_slash (x : N) (s : string) :
  PyStr.mem_char "/"%char s = false →
  PyStr.mem_char "/"%char (pretty_N_go x s) = false.
Proof.
  revert s. induction (N.lt_wf_0 x) as [x _ IH]; intros s Hs.
  destruct (decide (x = 0)%N) as [->|Hx]; [by rewrite pretty_N_go_0|].
  rewrite pretty_N_go_step by lia. apply IH; [apply N.div_lt; lia|].
  cbn [PyStr.mem_char]. by rewrite Hs, orb_false_r, pretty_N_char_no_slash.
Qed.

Lemma pretty_N_no_slash (n : N) : PyStr.mem_char "/"%char (pretty n) = false.
Proof.
  unfold pretty, pretty_N. case_decide; [done|]. by apply pretty_N_go_no_slash.
Qed.

Lemma name_ok (p : Path) : wf_path p = true → PyStr.mem_char "/"%char (name p) = false.
Proof.
  unfold name, wf_path. induction p as [|c p IH]; [done|].
  simpl. intros [Hc Hp]%andb_true_iff. destruct p as [|c' p]; [|by apply IH].
  unfold component_ok in Hc. apply andb_true_iff in Hc as [_ Hc].
  by apply negb_true_iff in Hc.
Qed.

Lemma suffix_no_slash (p : Path) :
  wf_path p = true → PyStr.mem_char "/"%char (suffix p) = false.
Proof.
  intros Hp. apply not_true_is_false. unfold suffix.
  destruct (PyStr.rfind_dot (name p)) as [i|]; [|done].
  destruct (_ && _); [|done].
  intros H%mem_char_substring. by rewrite (name_ok p Hp) in H.
Qed.

Lemma split_slash_no_slash (s : string) :
  PyStr.mem_char "/"%char s = false → split_slash s = [s].
Proof.
  induction s as [|x s IH]; [done|]. cbn [PyStr.mem_char split_slash].
  intros [Hx Hs]%orb_false_iff. rewrite Ascii.eqb_sym in Hx.
  rewrite Hx, (IH Hs). done.
Qed.

(** Joining one proper component to a path appends it. *)
Lemma joinpath_component (p : Path) (s : string) :
  component_ok s = true → joinpath p s = p ++ [s].
Proof.
  unfold component_ok. intros [[He Hd]%andb_true_iff Hslash]%andb_true_iff.
  apply negb_true_iff in He, Hd, Hslash. unfold joinpath, parse_parts.
  rewrite (split_slash_no_slash s Hslash).
  assert (String.prefix "/" s = false) as Hpre.
  { destruct s as [|x s]; [done|]. cbn [PyStr.mem_char] in Hslash.
    apply orb_false_iff in Hslash as [Hx _]. apply Ascii.eqb_neq in Hx.
    change (String.prefix "/" (String x s))
      with (if ascii_dec "/" x then String.prefix "" s else false).
    destruct (ascii_dec "/" x); [congruence|done]. }
  rewrite Hpre. cbn [List.filter]. by rewrite He, Hd.
Qed.

(** The name with a counter is one component under the parent. *)
Lemma candidate_shape (file_path : Path) (raw : string) (k : N) :
  wf_path file_path = true →
  let s := PyStr.strip (PyStr.sub_reserved raw) in
  FileOrganizer.candidate file_path s k
  = parent file_path ++ [s +:+ "_" +:+ pretty k +:+ suffix file_path].
Proof.
  intros Hp s. subst s. unfold FileOrganizer.candidate. apply joinpath_component.
  set (str := _ +:+ _).
  assert (PyStr.mem_char "_" str = true) as Hus.
  { unfold str. rewrite !mem_char_app. simpl. by rewrite orb_true_r. }
  unfold component_ok. rewrite !andb_true_iff, !negb_true_iff. repeat split.
  - apply String.eqb_neq. intros Heq. by rewrite Heq in Hus.
  - apply String.eqb_neq. intros Heq. by rewrite Heq in Hus.
  - unfold str. rewrite !mem_char_app, (sanitised_no_slash raw), pretty_N_no_slash,
      (suffix_no_slash _ Hp). done.
Qed.

Lemma substring_split (s : string) (i : nat) :
  (i ≤ String.length s)%nat →
  String.substring 0 i s +:+ String.substring i (String.length s - i) s = s.
Proof.
  revert i. induction s as [|c s IH]; intros [|i] Hi; simpl in *; try lia.
  - done.
  - change (String c (String.substring 0 (String.length s) s) = String c s).
    f_equal. specialize (IH 0%nat ltac:(lia)).
    rewrite Nat.sub_0_r in IH. destruct s; [done|]. exact IH.
  - change (String c (String.substring 0 i s
                      +:+ String.substring i (String.length s - i) s)
            = String c s).
    f_equal. apply IH. lia.
Qed.

Lemma append_nil_r (s : string) : s +:+ "" = s.
Proof.
  induction s as [|c s IH]; [done|].
  change (String c (s +:+ "") = String c s). by rewrite IH.
Qed.

(** The stem and the suffix of a path make up its name. *)
Lemma stem_suffix (p : Path) : stem p +:+ suffix p = name p.
Proof.
  unfold stem, suffix. destruct (PyStr.rfind_dot (name p)) as [i|].
  - destruct (_ && _) eqn:Hc; [|apply append_nil_r].
    apply substring_split. apply andb_true_iff in Hc as [_ Hi%Nat.ltb_lt]. lia.
  - apply append_nil_r.
Qed.

Lemma name_component (p : Path) :
  wf_path p = true → p ≠ [] → component_ok (name p) = true.
Proof.
  unfold name, wf_path. induction p as [|c p IH]; [done|].
  simpl. intros [Hc Hp]%andb_true_iff _. destruct p as [|c' p]; [done|].
  by apply IH.
Qed.

(** The name that is already the file's leads back to the file. *)
Lemma same_stem_try (p : Path) :
  wf_path p = true → p ≠ [] → nth_try p (stem p) 0 = p.
Proof.
  intros Hp Hne. unfold nth_try. rewrite stem_suffix.
  rewrite joinpath_component by by apply name_component.
  unfold parent, name. symmetry. by apply app_removelast_last.
Qed.

Lemma stem_nonempty (p : Path) : wf_path p = true → p ≠ [] → stem p ≠ "".
Proof.
  intros Hp Hne Hs. pose proof (name_component p Hp Hne) as Hc.
  pose proof (stem_suffix p) as Hn. rewrite Hs in Hn.
  unfold component_ok in Hc. apply andb_true_iff in Hc as [[He _]%andb_true_iff _].
  apply negb_true_iff, String.eqb_neq in He.
  unfold stem, suffix in *. destruct (PyStr.rfind_dot (name p)) as [i|]; [|done].
  destruct (_ && _) eqn:Hc; [|done].
  apply andb_true_iff in Hc as [Hi%Nat.ltb_lt _].
  destruct i as [|i]; [lia|]. destruct (name p); [done|]. discriminate Hs.
Qed.

Lemma app_inj_r (a b c : string) : a +:+ c = b +:+ c → a = b.
Proof.
  revert b. induction a as [|x a IH]; intros [|y b] H.
  - done.
  - apply (f_equal String.length) in H.
    rewrite !string_length_app in H. simpl in H. lia.
  - apply (f_equal String.length) in H.
    rewrite !string_length_app in H. simpl in H. lia.
  - change (String x (a +:+ c) = String y (b +:+ c)) in H.
    injection H as -> H. by rewrite (IH b H).
Qed.

Lemma candidate_inj (file_path : Path) (raw : string) (k1 k2 : N) :
  wf_path file_path = true →
  let s := PyStr.strip (PyStr.sub_reserved raw) in
  FileOrganizer.candidate file_path s k1 = FileOrganizer.candidate file_path s k2 →
  k1 = k2.
Proof.
  intros Hp s. subst s. rewrite !(candidate_shape file_path raw) by done.
  intros H%app_inv_head. injection H as H.
  apply String.app_inj in H. apply (String.app_inj "_") in H.
  apply app_inj_r in H. by apply pretty_N_inj in H.
Qed.

(** ** [Path.exists] *)


(** Where a walk arrives does not depend on the path it is a walk of. *)
Lemma walk_ok (fs : FS) (p p' cur : Path) (rest : list string) (r : option Path) :
  walk fs p cur rest = Ok r → walk fs p' cur rest = Ok r.
Proof.
  revert cur. induction rest as [|c rest IH]; intros cur; simpl; [done|].
  destruct (is_dir fs cur); simpl; [|done].
  destruct (too_long c); [done|]. apply IH.
Qed.

Lemma walk_app (fs : FS) (p cur : Path) (a b : list string) :
  walk fs p cur (a ++ b)
  = match walk fs p cur a with
    | Ok (Some c) => walk fs p c b
    | Ok None => Ok None
    | Raise e => Raise e
    end.
Proof.
  revert cur. induction a as [|x a IH]; intros cur; simpl; [done|].
  destruct (is_dir fs cur); simpl; [|done].
  destruct (too_long x); [done|]. apply IH.
Qed.



(** A name other than [..] that exists below [d] is a key of the map, as it
    is spelled or below the directory the walk of [d] arrives at. *)
Lemma exists_child (fs : FS) (d : Path) (c : string) :
  c ≠ ".." →
  exists_ fs (d ++ [c]) = Ok true →
  is_Some (fs !! (d ++ [c]))
  ∨ ∃ P : Path, walk fs [] [] d = Ok (Some P) ∧ is_Some (fs !! (P ++ [c])).
Proof.
  intros Hc. unfold exists_.
  destruct (path_exists fs (d ++ [c])) eqn:He.
  - intros _. left. unfold path_exists in He.
    destruct (fs !! (d ++ [c])); [eauto|]. by destruct d.
  - rewrite walk_app.
    destruct (walk fs (d ++ [c]) [] d) as [[P|]|e] eqn:Hw; simpl; [|done..].
    destruct (is_dir fs P); simpl; [|done].
    destruct (too_long c); simpl; [done|].
    apply String.eqb_neq in Hc. rewrite Hc.
    intros [= Hp]. right. exists P. split; [by apply (walk_ok _ _ _ _ _ _ Hw)|].
    unfold path_exists in Hp. destruct (fs !! (P ++ [c])); [eauto|].
    by destruct P.
Qed.

(** ** [FileOrganizer.safe_rename] *)

Lemma taken_exists (fs : FS) (file_path q : Path) :
  taken fs file_path q = Ok true → exists_ fs q = Ok true ∧ q ≠ file_path.
Proof.
  unfold taken. destruct (exists_ fs q) as [[|]|e]; simpl; try done.
  case_bool_decide; [done|]. by intros _.
Qed.


(** One test of the loop. *)
Lemma collide_step (fuel : nat) (fs : FS) (file_path : Path) (s : string)
    (q : Path) (c : N) :
  FileOrganizer.collide fuel fs file_path s q c
  = match taken fs file_path q with
    | Raise e => Raise e
    | Ok false => Ok (Some q)
    | Ok true =>
        match fuel with
        | O => Ok None
        | S fuel' =>
            FileOrganizer.collide fuel' fs file_path s
              (FileOrganizer.candidate file_path s c) (c + 1)
        end
    end.
Proof.
  unfold taken.
  destruct fuel; simpl; destruct (exists_ fs q) as [[|]|e]; simpl; try done;
    by destruct (bool_decide (q = file_path)).
Qed.

(** The name with the counter [k]. *)
Lemma counter_name_inj (s sfx : string) (k1 k2 : N) :
  s +:+ "_" +:+ pretty k1 +:+ sfx = s +:+ "_" +:+ pretty k2 +:+ sfx → k1 = k2.
Proof.
  intros H. apply String.app_inj in H. apply (String.app_inj "_") in H.
  apply app_inj_r in H. by apply pretty_N_inj in H.
Qed.

Lemma counter_name_not_up (s sfx : string) (k : N) :
  s +:+ "_" +:+ pretty k +:+ sfx ≠ "..".
Proof.
  intros H. apply (f_equal (PyStr.mem_char "_")) in H.
  rewrite !mem_char_app in H. simpl in H. by rewrite orb_true_r in H.
Qed.

(** A list without repetition of keys of the map is no longer than the map. *)
Lemma keys_bound (fs : FS) (l : list Path) :
  NoDup l → (∀ q : Path, q ∈ l → is_Some (fs !! q)) → (length l ≤ size fs)%nat.
Proof.
  intros Hnd Hin.
  assert (list_to_set l ⊆ dom fs) as Hsub.
  { intros q Hq%elem_of_list_to_set. by apply elem_of_dom, Hin. }
  apply subseteq_size in Hsub.
  by rewrite size_list_to_set, size_dom in Hsub.
Qed.

(** The names with a counter that are taken are keys of the file system, as
    they are spelled or below the directory the walk arrives at: the loop
    cannot go on for more rounds than twice the number of files. *)
Lemma tries_bound (fs : FS) (file_path : Path) (raw : string) (n : nat) :
  wf_path file_path = true →
  let s := PyStr.strip (PyStr.sub_reserved raw) in
  (∀ i : nat, (1 ≤ i ≤ n)%nat →
     taken fs file_path (nth_try file_path s i) = Ok true) →
  (n ≤ 2 * size fs)%nat.
Proof.
  intros Hp s Htaken.
  set (d := parent file_path).
  set (nm := λ i : nat, s +:+ "_" +:+ pretty (N.of_nat i) +:+ suffix file_path).
  assert (∀ i : nat, (1 ≤ i)%nat → nth_try file_path s i = d ++ [nm i]) as Hshape.
  { intros [|i] Hi; [lia|]. unfold nth_try.
    by rewrite (candidate_shape file_path raw). }
  assert (∀ i j : nat, nm i = nm j → i = j) as Hinj.
  { intros i j H%counter_name_inj. lia. }
  set (here := λ i : nat, is_Some (fs !! (d ++ [nm i]))).
  set (l1 := filter here (seq 1 n)).
  set (l2 := filter (λ i, ¬ here i) (seq 1 n)).
  assert (length l1 + length l2 = n)%nat as Hlen.
  { rewrite <- length_app. unfold l1, l2.
    rewrite (Permutation_length (filter_app_complement here (seq 1 n))).
    apply length_seq. }
  assert (length l1 ≤ size fs)%nat as H1.
  { rewrite <- (length_fmap (λ i, d ++ [nm i])). apply keys_bound.
    - apply NoDup_fmap_2_strong; [|apply NoDup_filter, NoDup_seq].
      intros i j _ _ H%app_inv_head. injection H as H. by apply Hinj.
    - intros q [i [-> [Hi _]%list_elem_of_filter]]%list_elem_of_fmap. exact Hi. }
  destruct (walk fs [] [] d) as [[P|]|e] eqn:Hw.
  - assert (length l2 ≤ size fs)%nat as H2; [|lia].
    rewrite <- (length_fmap (λ i, P ++ [nm i])). apply keys_bound.
    + apply NoDup_fmap_2_strong; [|apply NoDup_filter, NoDup_seq].
      intros i j _ _ H%app_inv_head. injection H as H. by apply Hinj.
    + intros q [i [-> [Hi Hin%elem_of_seq]%list_elem_of_filter]]%list_elem_of_fmap.
      destruct (taken_exists _ _ _ (Htaken i ltac:(lia))) as [He _].
      rewrite Hshape in He by lia.
      apply exists_child in He as [He|(P' & HP' & He)];
        [done| |apply counter_name_not_up].
      rewrite Hw in HP'. by injection HP' as <-.
  - assert (l2 = []) as Hnil; [|rewrite Hnil in Hlen; simpl in Hlen; lia].
    apply elem_of_nil_inv. intros i [Hi Hin%elem_of_seq]%list_elem_of_filter.
    destruct (taken_exists _ _ _ (Htaken i ltac:(lia))) as [He _].
    rewrite Hshape in He by lia.
    apply exists_child in He as [He|(P' & HP' & He)];
      [done| |apply counter_name_not_up].
    by rewrite Hw in HP'.
  - assert (l2 = []) as Hnil; [|rewrite Hnil in Hlen; simpl in Hlen; lia].
    apply elem_of_nil_inv. intros i [Hi Hin%elem_of_seq]%list_elem_of_filter.
    destruct (taken_exists _ _ _ (Htaken i ltac:(lia))) as [He _].
    rewrite Hshape in He by lia.
    apply exists_child in He as [He|(P' & HP' & He)];
      [done| |apply counter_name_not_up].
    by rewrite Hw in HP'.
Qed.

(** The loop, run from the [j]-th try with enough fuel, goes on while the
    tries are taken and ends with what the first other test gives: its path,
    or its exception. *)
Lemma collide_run (fs : FS) (file_path : Path) (s : string) (d j fuel : nat) :
  (∀ i : nat, (j ≤ i < j + d)%nat →
     taken fs file_path (nth_try file_path s i) = Ok true) →
  taken fs file_path (nth_try file_path s (j + d)) ≠ Ok true →
  (d ≤ fuel)%nat →
  FileOrganizer.collide fuel fs file_path s (nth_try file_path s j) (N.of_nat (S j))
  = match taken fs file_path (nth_try file_path s (j + d)) with
    | Ok _ => Ok (Some (nth_try file_path s (j + d)))
    | Raise e => Raise e
    end.
Proof.
  revert j fuel. induction d as [|d IH]; intros j fuel Htaken Hfree Hfuel.
  - rewrite Nat.add_0_r in *. rewrite collide_step.
    by destruct (taken fs file_path (nth_try file_path s j)) as [[|]|e].
  - destruct fuel as [|fuel]; [lia|].
    rewrite collide_step, (Htaken j ltac:(lia)).
    replace (N.of_nat (S j) + 1)%N with (N.of_nat (S (S j))) by lia.
    change (FileOrganizer.candidate file_path s (N.of_nat (S j)))
      with (nth_try file_path s (S j)).
    replace (j + S d)%nat with (S j + d)%nat in * by lia.
    apply IH; [|done|lia].
    intros i Hi. apply Htaken. lia.
Qed.

(** The loop with the fuel of [safe_rename], from the first try. *)
Lemma collide_first (fs : FS) (file_path : Path) (raw : string) (n : nat) :
  wf_path file_path = true →
  let s := PyStr.strip (PyStr.sub_reserved raw) in
  (∀ i : nat, (i < n)%nat → taken fs file_path (nth_try file_path s i) = Ok true) →
  taken fs file_path (nth_try file_path s n) ≠ Ok true →
  FileOrganizer.collide (S (2 * size fs)) fs file_path s
    (joinpath (parent file_path) (s +:+ suffix file_path)) 1
  = match taken fs file_path (nth_try file_path s n) with
    | Ok _ => Ok (Some (nth_try file_path s n))
    | Raise e => Raise e
    end.
Proof.
  intros Hp s Htaken Hfree.
  change (joinpath (parent file_path) (s +:+ suffix file_path))
    with (nth_try file_path s 0).
  change 1%N with (N.of_nat 1).
  rewrite (collide_run fs file_path s n 0 (S (2 * size fs)));
    change (0 + n)%nat with n; [done| |done|].
  - intros i Hi. apply Htaken. lia.
  - destruct n as [|n]; [lia|].
    pose proof (tries_bound fs file_path raw n Hp) as Hb. simpl in Hb.
    specialize (Hb ltac:(intros i Hi; apply Htaken; lia)). lia.
Qed.


(** When the test of a try raises, after [n] tries that are taken,
    [safe_rename] raises the same and changes nothing. *)
Lemma safe_rename_raises (self : Organizer) (file_path : Path) (raw : string)
    (n : nat) (w : World) (e : PyExc) :
  wf_path file_path = true →
  raw ≠ "" →
  let s := PyStr.strip (PyStr.sub_reserved raw) in
  (∀ i : nat, (i < n)%nat →
     taken (fs w) file_path (nth_try file_path s i) = Ok true) →
  taken (fs w) file_path (nth_try file_path s n) = Raise e →
  FileOrganizer.safe_rename self file_path (JStr raw) w = (Raise e, w).
Proof.
  intros Hp Hraw s Htaken Hfree.
  unfold FileOrganizer.safe_rename.
  assert (truthy (JStr raw) = true) as ->.
  { simpl. apply negb_true_iff, String.eqb_neq. done. }
  fold s. unfold bind at 1, get_world.
  change (negb true) with false. cbv beta iota.
  unfold bind at 1, lift.
  pose proof (collide_first (fs w) file_path raw n Hp Htaken) as Hc.
  fold s in Hc. rewrite Hc by (by rewrite Hfree).
  by rewrite Hfree.
Qed.



(** C5: the code at a suggestion of one space.  The sanitised stem is empty,
    and yet the file [/d/b.txt] is renamed, to [/d/.txt], and that path is
    returned: the test for an empty name comes before the name is sanitised. *)
Theorem safe_rename_blank_suggestion :
  let org := Example.organizer Example.cfg in
  let out := FileOrganizer.safe_rename org ["d"; "b.txt"] (JStr " ") Example.world in
  PyStr.strip (PyStr.sub_reserved " ") = ""
  ∧ fst out = Ok (Some ["d"; ".txt"])
  ∧ fs (snd out) !! ["d"; "b.txt"] = None
  ∧ fs (snd out) !! ["d"; ".txt"] = Some (Example.file "second").
Proof. vm_compute. repeat split; reflexivity. Qed.

(** ** Dry runs *)

Lemma untouched_refl (w : World) : untouched w w.
Proof. by split. Qed.

Lemma untouched_trans (w1 w2 w3 : World) :
  untouched w1 w2 → untouched w2 w3 → untouched w1 w3.
Proof. intros [H1 H2] [H3 H4]. split; congruence. Qed.

Lemma frame_ret {A} (a : A) : frame (ret a).
Proof. intros w. apply untouched_refl. Qed.

Lemma frame_lift {A} (r : result A) : frame (lift r).
Proof. intros w. apply untouched_refl. Qed.

Lemma frame_bind {A B} (m : M A) (k : A → M B) :
  frame m → (∀ a, frame (k a)) → frame (bind m k).
Proof.
  intros Hm Hk w. unfold bind. specialize (Hm w).
  destruct (m w) as [[a|e] w1]; simpl in *; [|done].
  eapply untouched_trans; [done|apply Hk].
Qed.

Lemma frame_try_except {A} (m : M A) (h : PyExc → M A) :
  frame m → (∀ e, frame (h e)) → frame (try_except m h).
Proof.
  intros Hm Hh w. unfold try_except. specialize (Hm w).
  destruct (m w) as [[a|e] w1]; simpl in *; [done|].
  eapply untouched_trans; [done|apply Hh].
Qed.

Lemma frame_guard {A} (result : dict) (m : M A) (k : A → M dict) :
  frame m → (∀ a, frame (k a)) → frame (FileOrganizer.guard result m k).
Proof.
  intros Hm Hk w. unfold FileOrganizer.guard. specialize (Hm w).
  destruct (m w) as [[a|e] w1]; simpl in *; [|done].
  eapply untouched_trans; [done|apply Hk].
Qed.

Lemma frame_now : frame now.
Proof. intros w. by split. Qed.

Lemma frame_get (env : Env) (h m : string) : frame (AnalysisCache.get env h m).
Proof. intros w. rewrite get_frame. apply untouched_refl. Qed.

Lemma frame_set (env : Env) (h m : string) (r : json) :
  frame (AnalysisCache.set env h m r).
Proof. intros w. by split. Qed.

Lemma embedded_app (w : World) (e : Event) :
  embedded (record_call e w)
  = embedded w ++ match e with EvExiftool p => [p] | _ => [] end.
Proof. unfold embedded, record_call. simpl. rewrite omap_app. by destruct e. Qed.

Lemma frame_analyze (env : Env) (self : Analyzer) (p : Path) :
  frame (AIAnalyzer.analyze env self p).
Proof.
  unfold AIAnalyzer.analyze.
  apply frame_bind; [intros w; apply untouched_refl|]. intros w0.
  apply frame_bind; [apply frame_lift|]. intros h.
  apply frame_bind.
  { unfold AIAnalyzer.lookup. destruct (has_cache self); [|apply frame_ret].
    apply frame_bind; [apply frame_get|]. intros c. apply frame_ret. }
  intros [c|]; [apply frame_ret|].
  apply frame_try_except.
  - unfold AIAnalyzer.attempt.
    apply frame_bind.
    { intros w. unfold AIAnalyzer.call_backend. split; [done|]. simpl.
      rewrite embedded_app. apply app_nil_r. }
    intros r. repeat (apply frame_bind; [apply frame_lift || apply frame_now|]; intros ?).
    apply frame_bind; [|intros; apply frame_ret].
    destruct (has_cache self); [apply frame_set|apply frame_ret].
  - intros e. apply frame_bind; [apply frame_now|]. intros t. apply frame_ret.
Qed.

Lemma frame_review (env : Env) (self : Organizer) (p : Path) (md : json) :
  frame (FileOrganizer.review env self p md).
Proof.
  unfold FileOrganizer.review. destruct (interactive (config self)); [|apply frame_ret].
  apply frame_bind; [apply frame_lift|]. intros _.
  apply frame_bind; [|intros; apply frame_ret].
  intros w. unfold FileOrganizer.ask. split; [done|]. simpl.
  rewrite embedded_app. apply app_nil_r.
Qed.

(** In a dry run [safe_rename] changes nothing at all. *)
Lemma safe_rename_dry (self : Organizer) (p : Path) (v : json) (w : World) :
  dry_run (config self) = true →
  snd (FileOrganizer.safe_rename self p v w) = w.
Proof.
  intros Hdry. unfold FileOrganizer.safe_rename.
  destruct (negb (truthy v)); [done|].
  destruct v; try done.
  unfold bind, get_world, lift, raise, ret.
  destruct (FileOrganizer.collide _ _ _ _ _ _) as [[np|]|e]; [|done..].
  case_bool_decide; [done|]. by rewrite Hdry.
Qed.

Lemma frame_rename_step (self : Organizer) (p : Path) (md : json) :
  dry_run (config self) = true → frame (FileOrganizer.rename_step self p md).
Proof.
  intros Hdry. unfold FileOrganizer.rename_step.
  destruct (rename_files (config self)); [|apply frame_ret].
  apply frame_bind; [apply frame_lift|]. intros [|]; [|apply frame_ret].
  apply frame_bind; [apply frame_lift|]. intros v w.
  rewrite safe_rename_dry by done. apply untouched_refl.
Qed.

Lemma frame_process_file (env : Env) (self : Organizer) (p : Path) :
  dry_run (config self) = true → frame (FileOrganizer.process_file env self p).
Proof.
  intros Hdry. unfold FileOrganizer.process_file.
  apply frame_guard; [apply frame_analyze|]. intros md.
  apply frame_guard; [apply frame_review|]. intros [|]; [apply frame_ret|].
  apply frame_guard; [by apply frame_rename_step|]. intros np.
  apply frame_guard.
  { unfold FileOrganizer.embed_step. rewrite Hdry, andb_false_r. apply frame_ret. }
  intros _. apply frame_guard; [|intros; apply frame_ret].
  unfold FileOrganizer.sidecar_step. rewrite Hdry, andb_false_r. apply frame_ret.
Qed.

(** When the loop ends with a path, the path is not taken. *)
Lemma collide_exit (fuel : nat) (fs : FS) (file_path : Path) (s : string)
    (new_path : Path) (counter : N) (q : Path) :
  FileOrganizer.collide fuel fs file_path s new_path counter = Ok (Some q) →
  taken fs file_path q = Ok false.
Proof.
  revert new_path counter. induction fuel as [|fuel IH]; intros new_path counter;
    rewrite collide_step;
    destruct (taken fs file_path new_path) as [[|]|e] eqn:Ht; try done.
  - by intros [= <-].
  - apply IH.
  - by intros [= <-].
Qed.



(** ** [process_file] and [process_batch] *)

Lemma guard_ok {A} (result : dict) (m : M A) (k : A → M dict) (w : World) :
  (∀ a w1, ∃ o, fst (k a w1) = Ok o) →
  ∃ o, fst (FileOrganizer.guard result m k w) = Ok o.
Proof.
  intros Hk. unfold FileOrganizer.guard.
  destruct (m w) as [[a|e] w1]; [apply Hk|]. simpl. eauto.
Qed.

(** [process_file] never raises. *)
Lemma process_file_ok (env : Env) (self : Organizer) (p : Path) (w : World) :
  ∃ o, fst (FileOrganizer.process_file env self p w) = Ok o.
Proof.
  unfold FileOrganizer.process_file.
  apply guard_ok. intros md w1.
  apply guard_ok. intros [|] w2; [simpl; eauto|].
  apply guard_ok. intros np w3.
  apply guard_ok. intros _ w4.
  apply guard_ok. intros _ w5. simpl. eauto.
Qed.

(** The outcome of [process_file] against the status of the pipeline: the
    file it is about, the metadata once analysed, [success] exactly when every
    step returned and the user did not decline, and the message of the
    exception of the step that raised. *)
Lemma process_file_status (env : Env) (self : Organizer) (p : Path) (w : World) :
  ∃ o,
    fst (FileOrganizer.process_file env self p w) = Ok o
    ∧ reports o p
    ∧ (∀ md w1, AIAnalyzer.analyze env (analyzer self) p w = (Ok md, w1) →
         dict_get "metadata" o = Some md)
    ∧ match FileOrganizer.pipeline_status env self p w with
      | FileOrganizer.Completed => succeeded o ∧ dict_get "error" o = None
      | FileOrganizer.Declined =>
          dict_get "success" o = Some (JBool false) ∧ dict_get "error" o = None
      | FileOrganizer.Failed e => failed_with o e
      end.
Proof.
  unfold FileOrganizer.process_file, FileOrganizer.pipeline_status,
    FileOrganizer.guard, reports, succeeded, failed_with, ret.
  destruct (AIAnalyzer.analyze env (analyzer self) p w) as [[md|e] w1];
    [|eexists; repeat split; done].
  destruct (FileOrganizer.review env self p md w1) as [[[|]|e] w2];
    [eexists; repeat split; try done; by intros ? ? [= <- <-]
    | |eexists; repeat split; try done; by intros ? ? [= <- <-]].
  destruct (FileOrganizer.rename_step self p md w2) as [[np|e] w3];
    [|eexists; repeat split; try done; by intros ? ? [= <- <-]].
  destruct (FileOrganizer.embed_step env self (default p np) md w3) as [[b|e] w4];
    [|destruct np; eexists; repeat split; try done; by intros ? ? [= <- <-]].
  destruct (FileOrganizer.sidecar_step env self (default p np) md w4) as [[u|e] w5];
    destruct np; eexists; repeat split; try done; by intros ? ? [= <- <-].
Qed.

(** Every scheduled task yields its own outcome, whatever the other tasks
    did; the rate limiting, when it raises, adds a failed dict after it. *)
Lemma run_tasks_outcomes (task : Path → M dict) (pause : result unit)
    (paths : list Path) (sched : list nat) (w : World) :
  (∀ (p : Path) (w : World), ∃ o : dict, fst (task p w) = Ok o) →
  fst (FileOrganizer.run_tasks task pause paths sched w)
  = batch_results pause (scheduled paths sched)
      ((fun pw => outcome_of task pw.1 pw.2)
         <$> FileOrganizer.run_trace task paths sched w).
Proof.
  intros Hok. revert w. unfold scheduled.
  induction sched as [|i sched IH]; intros w; [by destruct pause|].
  simpl. destruct (paths !! i) as [p|]; [|apply IH].
  unfold outcome_of at 1. simpl.
  destruct (Hok p w) as [o Ho].
  destruct (task p w) as [r w1]. simpl in *. subst r.
  specialize (IH w1).
  destruct (FileOrganizer.run_tasks task pause paths sched w1) as [rs w2].
  simpl in *. rewrite IH. by destruct pause.
Qed.

Lemma run_trace_paths (task : Path → M dict) (paths : list Path)
    (sched : list nat) (w : World) :
  fst <$> FileOrganizer.run_trace task paths sched w = scheduled paths sched.
Proof.
  revert w. induction sched as [|i sched IH]; intros w; [done|].
  unfold scheduled in *. simpl.
  destruct (paths !! i) as [p|]; simpl; [by rewrite IH|apply IH].
Qed.

Lemma scheduled_from (prefix paths : list Path) :
  omap (fun i => (prefix ++ paths) !! i) (seq (length prefix) (length paths))
  = paths.
Proof.
  revert prefix. induction paths as [|p paths IH]; intros prefix; [done|].
  simpl. rewrite list_lookup_middle by done. simpl. f_equal.
  specialize (IH (prefix ++ [p])).
  rewrite <- app_assoc, length_app, Nat.add_1_r in IH. exact IH.
Qed.

Lemma scheduled_all (paths : list Path) :
  scheduled paths (seq 0 (length paths)) = paths.
Proof. apply (scheduled_from [] paths). Qed.

(** A schedule runs the paths of the batch, each once, in some order. *)
Lemma scheduled_permutation (paths : list Path) (sched : list nat) :
  FileOrganizer.schedule (length paths) sched →
  Permutation (scheduled paths sched) paths.
Proof.
  intros Hs. unfold scheduled. rewrite Hs. by rewrite <- (scheduled_all paths) at 2.
Qed.

(** With a worker to run them, the tasks all run, and their outcomes are
    returned in the order of the schedule. *)
Lemma process_batch_runs (env : Env) (self : Organizer) (paths : list Path)
    (sched : list nat) (w : World) :
  (0 < max_workers (config self))%Z →
  ∃ w',
    FileOrganizer.process_batch env self paths sched w
    = (Ok (batch_results (FileOrganizer.pause env self) (scheduled paths sched)
             ((fun pw => outcome_of (FileOrganizer.process_file env self) pw.1 pw.2)
                <$> FileOrganizer.run_trace (FileOrganizer.process_file env self)
                      paths sched w)), w').
Proof.
  intros Hw. unfold FileOrganizer.process_batch.
  destruct (Z.leb_spec (max_workers (config self)) 0); [lia|].
  pose proof (run_tasks_outcomes (FileOrganizer.process_file env self)
                (FileOrganizer.pause env self) paths sched w
                (process_file_ok env self)) as Hout.
  destruct (FileOrganizer.run_tasks _ _ paths sched w) as [results w'].
  simpl in Hout. rewrite Hout. eauto.
Qed.

Lemma doubled_length (e : PyExc) (paths : list Path) (own : list dict) :
  length paths = length own → length (doubled e paths own) = (2 * length own)%nat.
Proof.
  unfold doubled. revert own. induction paths as [|p paths IH]; intros [|o own] Hl;
    simpl in *; try done.
  rewrite IH by lia. lia.
Qed.

Lemma run_trace_length (task : Path → M dict) (paths : list Path)
    (sched : list nat) (w : World) :
  FileOrganizer.schedule (length paths) sched →
  length (FileOrganizer.run_trace task paths sched w) = length paths.
Proof.
  intros Hs. rewrite <- (length_fmap fst), run_trace_paths.
  by rewrite (scheduled_permutation paths sched Hs).
Qed.









(** ** The parser and the rename loop have fuel enough *)

Lemma consumes_mono {A} (n m : nat) (p : parse A) :
  (n ≤ m)%nat → consumes n p → consumes m p.
Proof. destruct p as [a r|[]]; simpl; lia || done. Qed.

Lemma consumes_pbind {A B} (n : nat) (p : parse A) (k : A → string → parse B) :
  consumes n p →
  (∀ a r, (String.length r < n)%nat → consumes n (k a r)) →
  consumes n (pbind p k).
Proof. destruct p as [a r|[]]; simpl; auto. Qed.

Lemma skip_ws_le (s : string) : (String.length (skip_ws s) ≤ String.length s)%nat.
Proof.
  induction s as [|c s IH]; simpl; [lia|]. destruct (is_ws c); simpl; lia.
Qed.

Lemma consumes_pcons (n : nat) (c : ascii) (p : parse string) :
  consumes n p → consumes n (pcons c p).
Proof. intros H. apply consumes_pbind; [done|]. intros a r Hr. exact Hr. Qed.

Lemma parse_str_consumes_le (n : nat) (s : string) :
  (String.length s ≤ n)%nat → consumes (S (String.length s)) (parse_str s).
Proof.
  revert s. induction n as [|n IH]; intros s Hn;
    (destruct s as [|c s]; [done|]); [simpl in Hn; lia|].
  cbn [parse_str]. simpl in Hn. simpl String.length.
  destruct (PyStr.code c =? 34)%N; [simpl; lia|].
  destruct (PyStr.code c =? 92)%N.
  - destruct s as [|e r1]; [done|].
    destruct (PyStr.code e =? 117)%N.
    + destruct r1 as [|h1 [|h2 [|h3 [|h4 r2]]]]; try done.
      destruct (hex4 h1 h2 h3 h4) as [u|]; [|done].
      destruct (u <? 256)%N; [|done].
      apply consumes_pcons. eapply consumes_mono; [|apply IH]; simpl in *; lia.
    + destruct (unescape e); [|done].
      apply consumes_pcons. eapply consumes_mono; [|apply IH]; simpl in *; lia.
  - destruct (PyStr.code c <? 32)%N; [done|].
    apply consumes_pcons. eapply consumes_mono; [|apply IH]; simpl in *; lia.
Qed.

Lemma parse_str_consumes (s : string) :
  consumes (S (String.length s)) (parse_str s).
Proof. by apply (parse_str_consumes_le (String.length s)). Qed.

Lemma strip_prefix_length (p s r : string) :
  strip_prefix p s = Some r →
  String.length s = (String.length p + String.length r)%nat.
Proof.
  revert s. induction p as [|a p IH]; intros s; simpl; [by intros [= ->]|].
  destruct s as [|b s]; [done|]. destruct (Ascii.eqb a b); [|done].
  intros H%IH. simpl. lia.
Qed.

Lemma read_digits_le (acc : N) (s : string) :
  (String.length (read_digits acc s).2 ≤ String.length s)%nat.
Proof.
  revert acc. induction s as [|c s IH]; intros acc; simpl; [lia|].
  destruct (digit_val c); simpl; [|lia]. specialize (IH (acc * 10 + n)%N). lia.
Qed.

Lemma finish_int_consumes (neg : bool) (n : N) (r : string) :
  consumes (S (String.length r)) (finish_int neg n r).
Proof. unfold finish_int. destruct (float_follows r); simpl; [done|lia]. Qed.

Lemma parse_nat_consumes (neg : bool) (s : string) :
  consumes (String.length s) (parse_nat neg s).
Proof.
  destruct s as [|c s]; [done|]. unfold parse_nat.
  destruct (digit_val c) as [[|d]|]; [| |done].
  - apply finish_int_consumes.
  - pose proof (read_digits_le (N.pos d) s) as Hle.
    destruct (read_digits (N.pos d) s) as [n r'].
    eapply consumes_mono; [|apply finish_int_consumes]. simpl in *; lia.
Qed.

Lemma parse_atom_consumes (s : string) :
  consumes (String.length s) (parse_atom s).
Proof.
  unfold parse_atom.
  destruct (strip_prefix "null" s) as [r0|] eqn:H0.
  { apply strip_prefix_length in H0. simpl in *. lia. }
  destruct (strip_prefix "true" s) as [r1|] eqn:H1.
  { apply strip_prefix_length in H1. simpl in *. lia. }
  destruct (strip_prefix "false" s) as [r2|] eqn:H2.
  { apply strip_prefix_length in H2. simpl in *. lia. }
  destruct (_ || _); [done|].
  unfold parse_number. destruct s as [|c s]; [done|].
  destruct (PyStr.code c =? 45)%N.
  - destruct (String.prefix "Infinity" s); [done|].
    eapply consumes_mono; [|apply parse_nat_consumes]. simpl; lia.
  - apply parse_nat_consumes.
Qed.

Lemma parse_value_S (f : nat) (c : ascii) (r : string) :
  parse_value (S f) (String c r)
  = if is_char 34 c then pbind (parse_str r) (λ x r', Parsed (JStr x) r')
    else if is_char 123 c then
      match skip_ws r with
      | String c1 r1 =>
          if is_char 125 c1 then Parsed (JObj []) r1
          else pbind (parse_members f (skip_ws r))
                 (λ m r', Parsed (JObj (dict_of_pairs m)) r')
      | "" => Fail Malformed
      end
    else if is_char 91 c then
      match skip_ws r with
      | String c1 r1 =>
          if is_char 93 c1 then Parsed (JArr []) r1
          else pbind (parse_elems f (skip_ws r)) (λ l r', Parsed (JArr l) r')
      | "" => Fail Malformed
      end
    else parse_atom (String c r).
Proof. reflexivity. Qed.

Lemma parse_members_S' (f : nat) (q : ascii) (r : string) :
  parse_members (S f) (String q r)
  = if negb (is_char 34 q) then Fail Malformed
    else pbind (parse_str r) (λ key r1,
      match skip_ws r1 with
      | String c r2 =>
          if negb (is_char 58 c) then Fail Malformed
          else
            pbind (parse_value f (skip_ws r2)) (λ v r3,
              match skip_ws r3 with
              | String c' r4 =>
                  if is_char 125 c' then Parsed [(key, v)] r4
                  else if is_char 44 c' then
                    pbind (parse_members f (skip_ws r4))
                      (λ m r', Parsed ((key, v) :: m) r')
                  else Fail Malformed
              | "" => Fail Malformed
              end)
      | "" => Fail Malformed
      end).
Proof. reflexivity. Qed.

(** With two units of fuel for each character, and one to spare, the parser
    never stops for want of fuel, and what it leaves is shorter than what it
    was given. *)
Lemma parser_total (fuel : nat) :
  (∀ s, (2 * String.length s < fuel)%nat →
        consumes (String.length s) (parse_value fuel s))
  ∧ (∀ s, (2 * String.length s + 1 < fuel)%nat →
          consumes (String.length s) (parse_elems fuel s))
  ∧ (∀ s, (2 * String.length s + 1 < fuel)%nat →
          consumes (String.length s) (parse_members fuel s)).
Proof.
  induction fuel as [|f (IHv & IHe & IHm)]; [repeat split; intros; lia|].
  repeat split; intros s Hf.
  - destruct s as [|c r]; [done|]. rewrite parse_value_S. simpl in Hf.
    pose proof (skip_ws_le r) as Hws.
    destruct (is_char 34 c).
    { apply consumes_pbind; [apply parse_str_consumes|]. simpl. auto. }
    destruct (is_char 123 c).
    { destruct (skip_ws r) as [|c1 r1] eqn:Hr; [done|].
      destruct (is_char 125 c1); [simpl in *; lia|]. rewrite <- Hr in *.
      apply consumes_pbind.
      - eapply consumes_mono; [|apply IHm]; simpl; lia.
      - simpl. auto. }
    destruct (is_char 91 c).
    { destruct (skip_ws r) as [|c1 r1] eqn:Hr; [done|].
      destruct (is_char 93 c1); [simpl in *; lia|]. rewrite <- Hr in *.
      apply consumes_pbind.
      - eapply consumes_mono; [|apply IHe]; simpl; lia.
      - simpl. auto. }
    apply parse_atom_consumes.
  - rewrite parse_elems_S.
    apply consumes_pbind; [apply IHv; lia|]. intros v r Hr.
    pose proof (skip_ws_le r) as Hws.
    destruct (skip_ws r) as [|c r1]; [done|]. simpl in Hws.
    destruct (is_char 93 c); [simpl; lia|].
    destruct (is_char 44 c); [|done].
    pose proof (skip_ws_le r1) as Hws1.
    apply consumes_pbind.
    + eapply consumes_mono; [|apply IHe]; lia.
    + simpl. auto.
  - destruct s as [|q r]; [done|]. rewrite parse_members_S'. simpl in Hf.
    destruct (negb (is_char 34 q)); [done|].
    apply consumes_pbind.
    { eapply consumes_mono; [|apply parse_str_consumes]. simpl; lia. }
    intros key r1 Hr1. simpl in Hr1.
    pose proof (skip_ws_le r1) as Hws1.
    destruct (skip_ws r1) as [|c r2]; [done|]. simpl in Hws1.
    destruct (negb (is_char 58 c)); [done|].
    pose proof (skip_ws_le r2) as Hws2.
    apply consumes_pbind.
    { eapply consumes_mono; [|apply IHv]; simpl; lia. }
    intros v r3 Hr3. simpl in Hr3.
    pose proof (skip_ws_le r3) as Hws3.
    destruct (skip_ws r3) as [|c' r4]; [done|]. simpl in Hws3.
    destruct (is_char 125 c'); [simpl; lia|].
    destruct (is_char 44 c'); [|done].
    pose proof (skip_ws_le r4) as Hws4.
    apply consumes_pbind.
    + eapply consumes_mono; [|apply IHm]; simpl; lia.
    + simpl. auto.
Qed.

(** [loads] never runs out of fuel. *)
Theorem loads_fuel (s : string) : loads s ≠ inl NoFuel.
Proof.
  unfold loads.
  pose proof (proj1 (parser_total (S (2 * String.length (skip_ws s)))) (skip_ws s)
                ltac:(lia)) as H.
  destruct (parse_value _ (skip_ws s)) as [v r|[]]; try done.
  by destruct (skip_ws r).
Qed.



(** * More facts *)

(** ** The cache as a store *)




(** ** The cache in [analyze] *)

Lemma calculate_ext (env : Env) (fs1 fs2 : FS) (p : Path) (chunk_size : N) :
  fs1 !! p = fs2 !! p →
  SmartHash.calculate env fs1 p chunk_size = SmartHash.calculate env fs2 p chunk_size.
Proof.
  intros H. unfold SmartHash.calculate, stat, open_rb. by rewrite H.
Qed.

Lemma dict_set_keys (k : string) (v : json) (d : dict) :
  NoDup (List.map fst d) → NoDup (List.map fst (dict_set k v d)).
Proof.
  intros Hd. destruct (decide (k ∈ List.map fst d)) as [Hin|Hin].
  - assert (List.map fst (dict_set k v d) = List.map fst d) as ->; [|done].
    clear Hd. induction d as [|[k' v'] d IH]; [by apply elem_of_nil in Hin|].
    cbn [dict_set]. destruct (String.eqb_spec k k') as [->|Hne]; [done|].
    cbn [List.map fst]. f_equal. apply IH.
    cbn [List.map fst] in Hin. apply elem_of_cons in Hin as [?|?]; done.
  - rewrite dict_set_fresh by done. rewrite List.map_app.
    apply NoDup_app. split_and!; [done| |apply NoDup_singleton].
    intros x Hx Hx'. cbn in Hx'. apply list_elem_of_singleton in Hx'. by subst.
Qed.

Lemma dict_set_values (P : json → Prop) (k : string) (v : json) (d : dict) :
  P v → Forall (λ kv, P (snd kv)) d → Forall (λ kv, P (snd kv)) (dict_set k v d).
Proof.
  intros Hv. induction 1 as [|[k' v'] d Hx Hd IH]; cbn [dict_set].
  - by repeat constructor.
  - destruct (String.eqb k k'); constructor; done.
Qed.

Lemma wf_dict_set (k : string) (v : json) (d : dict) :
  wf v → wf (JObj d) → wf (JObj (dict_set k v d)).
Proof.
  rewrite !wf_obj. intros Hv [Hk Hd]. split.
  - by apply dict_set_keys.
  - by apply dict_set_values.
Qed.

Lemma truthy_dict_set (k : string) (v : json) (d : dict) :
  truthy (JObj (dict_set k v d)) = true.
Proof. destruct d as [|[k' v'] d]; cbn; [done|]. by destruct (String.eqb k k'). Qed.

(** The world a cached analysis leaves: one backend call, two readings of
    the clock, one row. *)
Lemma attempt_cached (env : Env) (self : Analyzer) (p : Path) (mime h : string)
    (w : World) (d : dict) :
  has_cache self = true →
  backend_reply env (backend self) (model_name self) w p mime = Ok (JObj d) →
  let r := JObj (dict_set "model" (JStr (model_name self))
             (dict_set "analyzed_at" (JStr (isoformat_at env (clock w)))
                (dict_set "file_hash" (JStr h)
                   (dict_set "mime_type" (JStr mime) d)))) in
  AIAnalyzer.attempt env self p mime h w
  = (Ok r,
     MkWorld (fs w)
       (<[(h, model_name self) := (dumps r, time_at env (clock w + 1))]> (db w))
       (clock w + 2) (calls w ++ [EvAnalyze (backend self) p mime])).
Proof.
  intros Hc Hb r.
  unfold AIAnalyzer.attempt, bind, AIAnalyzer.call_backend, lift, now, ret,
    AnalysisCache.set, modify.
  rewrite Hb, Hc. cbn. unfold set_db. cbn [fs db clock calls]. subst r.
  f_equal. f_equal. cbn. lia.
Qed.

(** The cache check on a row that holds a value. *)
Lemma lookup_row (env : Env) (self : Analyzer) (h : string) (w : World)
    (text : string) (ts : float) (v : json) :
  has_cache self = true →
  db w !! (h, model_name self) = Some (text, ts) →
  loads text = inr v →
  AIAnalyzer.lookup env self h w = (Ok (if truthy v then Some v else None), w).
Proof.
  intros Hc Hrow Hv. unfold AIAnalyzer.lookup, bind, AnalysisCache.get, ret.
  by rewrite Hc, Hrow, Hv.
Qed.

(** X2. Memoisation.  With the cache on, an analysis that the backend
    answers with a dict is stored, and every later [analyze] of the same
    file, as long as the file and the row are what they were, returns the same
    result without calling the backend and without changing anything. *)
Theorem analyze_memoised (env : Env) (self : Analyzer) (p : Path) (w : World)
    (h : string) (d : dict) :
  has_cache self = true →
  SmartHash.calculate env (fs w) p 65536 = Ok h →
  fst (AIAnalyzer.lookup env self h w) = Ok None →
  backend_reply env (backend self) (model_name self) w p
    (AIAnalyzer.mime_type_of env p) = Ok (JObj d) →
  wf (JObj d) →
  ∃ (r : json) (w1 : World),
    AIAnalyzer.analyze env self p w = (Ok r, w1)
    ∧ calls w1
      = calls w ++ [EvAnalyze (backend self) p (AIAnalyzer.mime_type_of env p)]
    ∧ ∀ w2 : World,
        fs w2 !! p = fs w !! p →
        db w2 !! (h, model_name self) = db w1 !! (h, model_name self) →
        AIAnalyzer.analyze env self p w2 = (Ok r, w2).
Proof.
  intros Hc Hh Hmiss Hb Hwf.
  rewrite (analyze_miss env self p w h Hh Hmiss).
  rewrite (attempt_cached env self p _ h w d Hc Hb).
  eexists _, _. split; [reflexivity|]. split; [reflexivity|].
  intros w2 Hfs Hdb. cbn [db] in Hdb. rewrite lookup_insert_eq in Hdb.
  unfold AIAnalyzer.analyze, bind, get_world, lift.
  rewrite (calculate_ext env (fs w2) (fs w) p 65536 Hfs), Hh.
  erewrite lookup_row; [|done..|apply loads_dumps].
  - by rewrite truthy_dict_set.
  - repeat apply wf_dict_set; done.
Qed.

Lemma analyze_memoised_witness :
  let p := ["d"; "b.txt"] in
  ∃ (r : json) (w1 : World),
    AIAnalyzer.analyze Example.env Example.gemini p Example.world = (Ok r, w1)
    ∧ calls w1 = [EvAnalyze Gemini p "text/plain"]
    ∧ AIAnalyzer.analyze Example.env Example.gemini p w1 = (Ok r, w1).
Proof.
  intros p.
  destruct (analyze_memoised Example.env Example.gemini p Example.world
              "b.txt|6|1700000000.0second"
              [("title", JStr "Report"); ("suggested_filename", JStr "report")])
    as (r & w1 & Hfirst & Hcalls & Hnext).
  - reflexivity.
  - vm_compute. reflexivity.
  - reflexivity.
  - reflexivity.
  - cbn. repeat split. by apply (bool_decide_unpack _).
  - exists r, w1. split; [exact Hfirst|]. split; [exact Hcalls|].
    apply Hnext; [|reflexivity].
    pose proof (attempt_fs Example.env Example.gemini p "text/plain"
                  "b.txt|6|1700000000.0second" Example.world) as Hfs.
    assert (fs w1 = fs Example.world) as ->; [|reflexivity].
    assert (w1 = snd (AIAnalyzer.analyze Example.env Example.gemini p Example.world))
      as -> by (by rewrite Hfirst).
    vm_compute. reflexivity.
Defined.

(** X3. A row that holds a value is served as it is when the value is true
    in Python's sense, whether or not it is a dict: nothing is called and
    nothing changes.  A row that holds a false value (an empty dict, [null],
    [0]) is passed over: the backend is called as on a miss. *)
Theorem analyze_cached_row (env : Env) (self : Analyzer) (p : Path) (w : World)
    (h text : string) (ts : float) (v : json) :
  has_cache self = true →
  SmartHash.calculate env (fs w) p 65536 = Ok h →
  db w !! (h, model_name self) = Some (text, ts) →
  loads text = inr v →
  if truthy v
  then AIAnalyzer.analyze env self p w = (Ok v, w)
  else calls (snd (AIAnalyzer.analyze env self p w))
       = calls w ++ [EvAnalyze (backend self) p (AIAnalyzer.mime_type_of env p)].
Proof.
  intros Hc Hh Hrow Hv.
  pose proof (lookup_row env self h w text ts v Hc Hrow Hv) as Hl.
  destruct (truthy v).
  - unfold AIAnalyzer.analyze, bind, get_world, lift. by rewrite Hh, Hl.
  - rewrite (analyze_miss env self p w h Hh) by (by rewrite Hl).
    pose proof (attempt_calls env self p (AIAnalyzer.mime_type_of env p) h w) as Ha.
    by destruct (AIAnalyzer.attempt env self p (AIAnalyzer.mime_type_of env p) h w)
      as [[r|e] w1].
Qed.

Lemma analyze_cached_row_witness :
  let p := ["d"; "b.txt"] in
  let key := ("b.txt|6|1700000000.0second", "gemini-2.0-flash-exp") in
  let listed := MkWorld Example.files {[ key := ("[1, 2]", 0%float) ]} 0 [] in
  let empty := MkWorld Example.files {[ key := ("{}", 0%float) ]} 0 [] in
  AIAnalyzer.analyze Example.env Example.gemini p listed
    = (Ok (JArr [JInt 1; JInt 2]), listed)
  ∧ calls (snd (AIAnalyzer.analyze Example.env Example.gemini p empty))
    = [EvAnalyze Gemini p "text/plain"].
Proof.
  intros p key listed empty. split.
  - apply (analyze_cached_row Example.env Example.gemini p listed
             "b.txt|6|1700000000.0second" "[1, 2]" 0%float (JArr [JInt 1; JInt 2]));
      vm_compute; reflexivity.
  - apply (analyze_cached_row Example.env Example.gemini p empty
             "b.txt|6|1700000000.0second" "{}" 0%float (JObj []));
      vm_compute; reflexivity.
Defined.

(** X4. A row whose text is not JSON fails the file for good.  With the
    cache on, [process_file] of a file whose row is corrupt reports a failure
    with the message of the [JSONDecodeError] that [json.loads] raises on the
    text of the row, and without metadata, and leaves the world exactly as it
    was: the backend is not called and the row is not replaced, so the next
    run fails in the same way. *)
Theorem corrupt_row_fails_file (env : Env) (self : Organizer) (p : Path) (w : World)
    (h text : string) (ts : float) :
  has_cache (analyzer self) = true →
  SmartHash.calculate env (fs w) p 65536 = Ok h →
  db w !! (h, model_name (analyzer self)) = Some (text, ts) →
  loads text = inl Malformed →
  ∃ o : dict,
    FileOrganizer.process_file env self p w = (Ok o, w)
    ∧ dict_get "success" o = Some (JBool false)
    ∧ dict_get "error" o = Some (JStr (decode_message env text))
    ∧ dict_get "metadata" o = Some JNull
    ∧ reports o p.
Proof.
  intros Hc Hh Hrow Hbad.
  assert (AIAnalyzer.analyze env (analyzer self) p w
          = (Raise (AnalysisCache.decode_error env text), w)) as Ha.
  { unfold AIAnalyzer.analyze, bind, get_world, lift. rewrite Hh.
    unfold AIAnalyzer.lookup. rewrite Hc. unfold bind, AnalysisCache.get.
    by rewrite Hrow, Hbad. }
  unfold FileOrganizer.process_file, FileOrganizer.guard. rewrite Ha.
  eexists. split; [reflexivity|]. by repeat split.
Qed.

(** The row of [/d/b.txt] holds a text that starts with no value. *)
Lemma corrupt_row_fails_file_witness :
  let p := ["d"; "b.txt"] in
  let w := MkWorld Example.files
             {[ ("b.txt|6|1700000000.0second", "gemini-2.0-flash-exp")
                  := ("not json", 0%float) ]} 0 [] in
  ∃ o : dict,
    FileOrganizer.process_file Example.env (Example.organizer Example.cfg) p w
      = (Ok o, w)
    ∧ dict_get "success" o = Some (JBool false)
    ∧ dict_get "error" o = Some (JStr "Expecting value: line 1 column 1 (char 0)")
    ∧ dict_get "metadata" o = Some JNull
    ∧ reports o p.
Proof.
  intros p w.
  apply (corrupt_row_fails_file Example.env (Example.organizer Example.cfg) p w
           "b.txt|6|1700000000.0second" "not json" 0%float);
    vm_compute; reflexivity.
Defined.

(** ** Results of [process_file] *)



Lemma process_file_shape (env : Env) (self : Organizer) (p : Path) (w : World) :
  ∃ o : dict,
    fst (FileOrganizer.process_file env self p w) = Ok o ∧ result_shape o.
Proof.
  unfold FileOrganizer.process_file, FileOrganizer.guard, result_shape, ret.
  destruct (AIAnalyzer.analyze env (analyzer self) p w) as [[md|e] w1];
    [|eexists; split; [reflexivity|]; cbn; eauto 10].
  destruct (FileOrganizer.review env self p md w1) as [[[|]|e] w2];
    [eexists; split; [reflexivity|]; cbn; eauto 10| 
    |eexists; split; [reflexivity|]; cbn; eauto 10].
  destruct (FileOrganizer.rename_step self p md w2) as [[np|e] w3];
    [|eexists; split; [reflexivity|]; cbn; eauto 10].
  destruct (FileOrganizer.embed_step env self (default p np) md w3) as [[b|e] w4];
    [|destruct np; eexists; (split; [reflexivity|]); cbn; eauto 10].
  destruct (FileOrganizer.sidecar_step env self (default p np) md w4) as [[u|e] w5];
    destruct np; eexists; (split; [reflexivity|]); cbn; eauto 10.
Qed.

(** The dicts of a batch: results of [process_file], and dicts of the
    [except] branch only when the rate limiting raises. *)
Lemma run_tasks_shaped (env : Env) (self : Organizer) (paths : list Path)
    (sched : list nat) (w : World) :
  Forall (fun o =>
            result_shape o
            ∨ ∃ (q : Path) (e : PyExc),
                FileOrganizer.pause env self = Raise e
                ∧ o = FileOrganizer.failed_outcome q e)
    (fst (FileOrganizer.run_tasks (FileOrganizer.process_file env self)
            (FileOrganizer.pause env self) paths sched w)).
Proof.
  rewrite run_tasks_outcomes by apply process_file_ok.
  set (own := _ <$> _).
  assert (Forall result_shape own) as Hown.
  { apply Forall_fmap, Forall_forall.
    intros [q wq] _. cbn. unfold outcome_of.
    destruct (process_file_shape env self q wq) as (o & Ho & Hs). by rewrite Ho. }
  clearbody own. unfold batch_results.
  destruct (FileOrganizer.pause env self) as [u|e].
  - eapply Forall_impl; [exact Hown|]. intros o Ho. by left.
  - unfold doubled. generalize (scheduled paths sched) as l.
    induction Hown as [|o own Ho Hown IH]; intros [|q l]; cbn; try done.
    constructor; [by left|]. constructor; [right; by eexists _, _|]. apply IH.
Qed.

(** X6. The shape of a result.  [process_file] never raises, and its result
    always has the keys [file], [success], [metadata] and [renamed_to], in
    this order, with [error] after them exactly when a step raised, and then
    [success] is [False] and [error] the message of the exception; [success]
    is a bool and [renamed_to] is [None] or a string.  In a batch every
    outcome has this shape, but for the dicts of the [except] branch of
    [process_batch], with three keys only, which are there only when the
    rate limiting after a result raises. *)
Theorem result_always_shaped (env : Env) (self : Organizer) (p : Path)
    (paths : list Path) (sched : list nat) (w : World) :
  (∃ (o : dict) (w' : World),
     FileOrganizer.process_file env self p w = (Ok o, w')
     ∧ result_shape o
     ∧ match FileOrganizer.pipeline_status env self p w with
       | FileOrganizer.Failed e => dict_get "error" o = Some (JStr (exc_msg e))
       | _ => dict_get "error" o = None
       end)
  ∧ Forall (fun o =>
              result_shape o
              ∨ ∃ (q : Path) (e : PyExc),
                  FileOrganizer.pause env self = Raise e
                  ∧ o = [("file", JStr (to_str q)); ("success", JBool false);
                         ("error", JStr (exc_msg e))])
      (fst (FileOrganizer.run_tasks (FileOrganizer.process_file env self)
              (FileOrganizer.pause env self) paths sched w)).
Proof.
  split.
  - destruct (process_file_shape env self p w) as (o & Ho & Hs).
    destruct (process_file_status env self p w) as (o' & Ho' & _ & _ & Hst).
    rewrite Ho in Ho'. injection Ho' as <-.
    exists o, (snd (FileOrganizer.process_file env self p w)).
    split; [|split; [done|]].
    + by destruct (FileOrganizer.process_file env self p w) as [r w'];
        simplify_eq/=.
    + destruct (FileOrganizer.pipeline_status env self p w);
        [by destruct Hst..|]. by destruct Hst.
  - apply run_tasks_shaped.
Qed.

(** A batch of two files whose rate limiting is asked for an endless sleep:
    four dicts, the second and the fourth from the [except] branch. *)
Lemma result_always_shaped_witness :
  let cfg :=
    MkConfig "gemini-2.0-flash-exp" "llama3.2-vision" (Some "key") false 4
      infinity true true true true false false in
  let org := Example.organizer cfg in
  let e := MkExc "OverflowError" "timestamp too large to convert to C _PyTime_t" in
  ∃ o1 o2 : dict,
    fst (FileOrganizer.run_tasks (FileOrganizer.process_file Example.env org)
           (FileOrganizer.pause Example.env org)
           [["d"; "b.txt"]; ["d"; "c.txt"]] [0; 1]%nat Example.world)
    = [o1; FileOrganizer.failed_outcome ["d"; "b.txt"] e;
       o2; FileOrganizer.failed_outcome ["d"; "c.txt"] e]
    ∧ Forall (fun o =>
                result_shape o
                ∨ ∃ (q : Path) (e : PyExc),
                    FileOrganizer.pause Example.env org = Raise e
                    ∧ o = [("file", JStr (to_str q)); ("success", JBool false);
                           ("error", JStr (exc_msg e))])
        [o1; FileOrganizer.failed_outcome ["d"; "b.txt"] e;
         o2; FileOrganizer.failed_outcome ["d"; "c.txt"] e].
Proof.
  intros cfg org e.
  pose proof (proj2 (result_always_shaped Example.env org [] 
                       [["d"; "b.txt"]; ["d"; "c.txt"]] [0; 1]%nat Example.world))
    as H.
  eexists _, _. split; [vm_compute; reflexivity|]. exact H.
Defined.

(** ** Runs that leave the files alone *)

Lemma frame_run_tasks (task : Path → M dict) (pause : result unit)
    (paths : list Path) (sched : list nat) (w : World) :
  (∀ p, frame (task p)) →
  untouched w (snd (FileOrganizer.run_tasks task pause paths sched w)).
Proof.
  intros Hf. revert w. induction sched as [|i sched IH]; intros w; cbn.
  - apply untouched_refl.
  - destruct (paths !! i) as [path|]; [|apply IH].
    pose proof (Hf path w) as H1. destruct (task path w) as [r w1].
    pose proof (IH w1) as H2.
    destruct (FileOrganizer.run_tasks task pause paths sched w1) as [rs w2].
    by eapply untouched_trans.
Qed.

Lemma frame_process_batch (env : Env) (self : Organizer) (paths : list Path)
    (sched : list nat) :
  dry_run (config self) = true →
  frame (FileOrganizer.process_batch env self paths sched).
Proof.
  intros Hd w. unfold FileOrganizer.process_batch.
  destruct (max_workers (config self) <=? 0)%Z; [apply untouched_refl|].
  pose proof (frame_run_tasks (FileOrganizer.process_file env self)
                (FileOrganizer.pause env self) paths sched w
                (λ p, frame_process_file env self p Hd)) as H.
  by destruct (FileOrganizer.run_tasks _ _ paths sched w).
Qed.

Lemma frame_process_loop (env : Env) (self : Organizer) (paths : list Path) :
  dry_run (config self) = true →
  frame (WebServer.process_loop env self paths).
Proof.
  intros Hd. induction paths as [|p paths IH]; [apply frame_ret|].
  cbn [WebServer.process_loop]. intros w. unfold bind at 1, get_world.
  apply frame_bind; [apply frame_lift|]. intros [|]; [|apply IH].
  apply frame_bind; [by apply frame_process_file|].
  intros r. apply frame_bind; [done|]. intros rs. apply frame_ret.
Qed.

(** X7. A dry run of many files.  With [dry_run] set, a batch, the
    processing of [main] and the loop of the web server leave every file as
    it was and never run exiftool, for every list of paths, every schedule
    and every worker count. *)
Theorem dry_run_batch_untouched (env : Env) (self : Organizer) (paths : list Path)
    (sched : list nat) (w : World) :
  dry_run (config self) = true →
  untouched w (snd (FileOrganizer.process_batch env self paths sched w))
  ∧ untouched w (snd (Cli.process env self paths sched w))
  ∧ untouched w (snd (WebServer.process_loop env self paths w)).
Proof.
  intros Hd. split; [by apply frame_process_batch|]. split.
  - unfold Cli.process. destruct paths as [|p [|p' paths]];
      [by apply frame_process_batch| |by apply frame_process_batch].
    apply frame_bind; [by apply frame_process_file|]. intros r. apply frame_ret.
  - by apply frame_process_loop.
Qed.

Lemma dry_run_batch_untouched_witness :
  let dry := Example.organizer (set_dry_run true Example.cfg) in
  let paths := [["d"; "bad.txt"]; ["d"; "b.txt"]; ["d"; "c.txt"]] in
  untouched Example.world
    (snd (FileOrganizer.process_batch Example.env dry paths [2; 0; 1]%nat
            Example.world))
  ∧ untouched Example.world
      (snd (Cli.process Example.env dry paths [2; 0; 1]%nat Example.world))
  ∧ untouched Example.world
      (snd (WebServer.process_loop Example.env dry paths Example.world)).
Proof.
  intros dry paths.
  apply (dry_run_batch_untouched Example.env dry paths [2; 0; 1]%nat Example.world).
  reflexivity.
Defined.

(** X8. A declined file.  When the user of the interactive mode declines a
    file, [process_file] returns the result with the metadata of the
    analysis, [success] false, no [error] and no new name, and the files are
    as they were: nothing is renamed, embedded or written. *)
Theorem declined_leaves_files (env : Env) (self : Organizer) (p : Path) (w : World) :
  FileOrganizer.pipeline_status env self p w = FileOrganizer.Declined →
  ∃ (o : dict) (w' : World) (md : json),
    FileOrganizer.process_file env self p w = (Ok o, w')
    ∧ untouched w w'
    ∧ fst (AIAnalyzer.analyze env (analyzer self) p w) = Ok md
    ∧ o = [("file", JStr (to_str p)); ("success", JBool false);
           ("metadata", md); ("renamed_to", JNull)].
Proof.
  unfold FileOrganizer.pipeline_status, FileOrganizer.process_file,
    FileOrganizer.guard, ret.
  pose proof (frame_analyze env (analyzer self) p w) as Ha.
  destruct (AIAnalyzer.analyze env (analyzer self) p w) as [[md|e] w1]; [|done].
  pose proof (frame_review env self p md w1) as Hr.
  destruct (FileOrganizer.review env self p md w1) as [[[|]|e] w2]; [| |done].
  - intros _. eexists _, w2, md. split; [reflexivity|].
    split; [by eapply untouched_trans|]. split; reflexivity.
  - destruct (FileOrganizer.rename_step self p md w2) as [[np|e] w3]; [|done].
    destruct (FileOrganizer.embed_step env self (default p np) md w3)
      as [[b|e] w4]; [|done].
    by destruct (FileOrganizer.sidecar_step env self (default p np) md w4)
      as [[u|e] w5].
Qed.

Lemma declined_leaves_files_witness :
  let org := Example.organizer (Example.with_interactive true Example.cfg) in
  let p := ["d"; "bad.txt"] in
  ∃ (o : dict) (w' : World) (md : json),
    FileOrganizer.process_file Example.env org p Example.world = (Ok o, w')
    ∧ untouched Example.world w'
    ∧ fst (AIAnalyzer.analyze Example.env (analyzer org) p Example.world) = Ok md
    ∧ o = [("file", JStr "/d/bad.txt"); ("success", JBool false);
           ("metadata", md); ("renamed_to", JNull)].
Proof.
  intros org p.
  apply (declined_leaves_files Example.env org p Example.world).
  vm_compute. reflexivity.
Defined.

(** ** Names with a dot *)

Lemma string_app_assoc (a b c : string) : (a +:+ b) +:+ c = a +:+ (b +:+ c).
Proof.
  induction a as [|x a IH]; [done|].
  change (String x a +:+ b) with (String x (a +:+ b)).
  change (String x (a +:+ b) +:+ c) with (String x ((a +:+ b) +:+ c)).
  change (String x a +:+ (b +:+ c)) with (String x (a +:+ (b +:+ c))).
  by rewrite IH.
Qed.

Lemma rfind_dot_none (s : string) :
  PyStr.rfind_dot s = None ↔ PyStr.mem_char "."%char s = false.
Proof.
  induction s as [|c s IH]; [done|].
  cbn [PyStr.rfind_dot PyStr.mem_char]. rewrite (Ascii.eqb_sym "."%char c).
  destruct (PyStr.rfind_dot s) as [i|].
  - split; [done|]. intros H. apply orb_false_iff in H as [_ H].
    apply IH in H. done.
  - destruct (Ascii.eqb c "."); [done|]. cbn. split; [intros _|done].
    by apply IH.
Qed.

Lemma rfind_dot_app (a e : string) :
  PyStr.mem_char "."%char e = false →
  PyStr.rfind_dot (a +:+ String "." e) = Some (String.length a).
Proof.
  intros He. apply rfind_dot_none in He.
  induction a as [|c a IH].
  - change ("" +:+ String "." e) with (String "." e).
    cbn [PyStr.rfind_dot]. by rewrite He.
  - change (String c a +:+ String "." e) with (String c (a +:+ String "." e)).
    cbn [PyStr.rfind_dot String.length]. by rewrite IH.
Qed.

Lemma rfind_dot_split (s : string) (i : nat) :
  PyStr.rfind_dot s = Some i →
  ∃ a e : string,
    s = a +:+ String "." e ∧ String.length a = i
    ∧ PyStr.mem_char "."%char e = false.
Proof.
  revert i. induction s as [|c s IH]; intros i; [done|].
  cbn [PyStr.rfind_dot]. destruct (PyStr.rfind_dot s) as [j|] eqn:Hs.
  - intros [= <-]. destruct (IH j eq_refl) as (a & e & -> & <- & He).
    by exists (String c a), e.
  - destruct (Ascii.eqb_spec c ".") as [->|]; [|done]. intros [= <-].
    exists "", s. split; [done|]. split; [done|]. by apply rfind_dot_none.
Qed.

Lemma substring_app_l (a b : string) :
  String.substring 0 (String.length a) (a +:+ b) = a.
Proof.
  induction a as [|c a IH]; [by destruct b|].
  change (String c a +:+ b) with (String c (a +:+ b)). cbn. by rewrite IH.
Qed.

Lemma substring_app_r (a b : string) :
  String.substring (String.length a) (String.length b) (a +:+ b) = b.
Proof.
  induction a as [|c a IH].
  - change ("" +:+ b) with b. cbn [String.length].
    induction b as [|c b IH]; [done|]. cbn. by rewrite IH.
  - change (String c a +:+ b) with (String c (a +:+ b)). cbn. by rewrite IH.
Qed.

(** A suffix is empty, or a dot followed by at least one character, none of
    them a dot. *)
Lemma suffix_shape (p : Path) :
  suffix p = ""
  ∨ ∃ e : string, suffix p = String "." e ∧ e ≠ ""
                  ∧ PyStr.mem_char "."%char e = false.
Proof.
  unfold suffix. destruct (PyStr.rfind_dot (name p)) as [i|] eqn:Hr; [|by left].
  destruct (rfind_dot_split _ _ Hr) as (a & e & Hn & Ha & He).
  destruct ((0 <? i)%nat && (i <? String.length (name p) - 1)%nat) eqn:Hi;
    [|by left].
  right. exists e. apply andb_true_iff in Hi as [_ Hi%Nat.ltb_lt].
  rewrite Hn in Hi |- *. rewrite string_length_app in Hi |- *. cbn in Hi.
  replace (String.length a + String.length (String "." e) - i)%nat
    with (String.length (String "." e)) by lia.
  rewrite <- Ha, substring_app_r. split; [done|]. split; [|done].
  intros ->. cbn in Hi. lia.
Qed.

(** The suffix of a name built from a stem and a suffix. *)
Lemma suffix_of_name (dir : Path) (t : string) (p : Path) :
  t ≠ "" → suffix p ≠ "" → suffix (dir ++ [t +:+ suffix p]) = suffix p.
Proof.
  intros Ht Hs. destruct (suffix_shape p) as [?|(e & He & Hne & Hdot)]; [done|].
  rewrite He. unfold suffix, name. rewrite last_last.
  rewrite (rfind_dot_app t e Hdot), string_length_app.
  assert (0 < String.length t)%nat as Hlt by (destruct t; [done|cbn; lia]).
  assert (0 < String.length e)%nat as Hle by (destruct e; [done|cbn; lia]).
  cbn [String.length].
  destruct (Nat.ltb_spec 0 (String.length t)); [|lia].
  destruct (Nat.ltb_spec (String.length t)
              (String.length t + S (String.length e) - 1)); [|lia].
  cbn [andb].
  replace (String.length t + S (String.length e) - String.length t)%nat
    with (String.length (String "." e)) by (cbn; lia).
  apply substring_app_r.
Qed.

(** ** Where [safe_rename] puts the file *)

(** The path the loop ends with is one of the tries. *)
Lemma collide_is_try (fuel : nat) (fs : FS) (file_path : Path) (s : string)
    (j : nat) (q : Path) :
  FileOrganizer.collide fuel fs file_path s (nth_try file_path s j) (N.of_nat (S j))
    = Ok (Some q) →
  ∃ n : nat, q = nth_try file_path s n ∧ (j ≤ n)%nat.
Proof.
  revert j. induction fuel as [|fuel IH]; intros j; rewrite collide_step;
    destruct (taken fs file_path (nth_try file_path s j)) as [[|]|e]; try done.
  - intros [= <-]. by exists j.
  - replace (N.of_nat (S j) + 1)%N with (N.of_nat (S (S j))) by lia.
    change (FileOrganizer.candidate file_path s (N.of_nat (S j)))
      with (nth_try file_path s (S j)).
    intros H. destruct (IH _ H) as (n & -> & Hn). exists n. split; [done|lia].
  - intros [= <-]. by exists j.
Qed.




Lemma candidate_component (file_path : Path) (raw : string) (k : N) :
  wf_path file_path = true →
  component_ok (PyStr.strip (PyStr.sub_reserved raw) +:+ "_" +:+ pretty k
                  +:+ suffix file_path) = true.
Proof.
  intros Hp. set (str := _ +:+ _).
  assert (PyStr.mem_char "_" str = true) as Hus.
  { unfold str. rewrite !mem_char_app. simpl. by rewrite orb_true_r. }
  unfold component_ok. rewrite !andb_true_iff, !negb_true_iff. repeat split.
  - apply String.eqb_neq. intros Heq. by rewrite Heq in Hus.
  - apply String.eqb_neq. intros Heq. by rewrite Heq in Hus.
  - unfold str. rewrite !mem_char_app, (sanitised_no_slash raw), pretty_N_no_slash,
      (suffix_no_slash _ Hp). done.
Qed.

Lemma parent_neq (p : Path) : p ≠ [] → parent p ≠ p.
Proof.
  intros Hp Heq. destruct (exists_last Hp) as (l & a & ->).
  unfold parent in Heq. rewrite removelast_last in Heq.
  apply (f_equal length) in Heq. rewrite length_app in Heq. cbn in Heq. lia.
Qed.

(** X10. Where the file goes.  When [safe_rename] returns a path for a file
    whose directory exists, the path lies in the same directory, and its name
    is the sanitised suggestion, or the sanitised suggestion followed by
    [_k] for a number [k], and then the suffix of the file.  When the file
    has a suffix and the sanitised suggestion is not empty, the new path has
    the same suffix. *)
Theorem safe_rename_destination (self : Organizer) (file_path : Path) (raw : string)
    (w : World) (q : Path) :
  wf_path file_path = true →
  file_path ≠ [] →
  path_exists (fs w) (parent file_path) = true →
  fst (FileOrganizer.safe_rename self file_path (JStr raw) w) = Ok (Some q) →
  let s := PyStr.strip (PyStr.sub_reserved raw) in
  ∃ t : string,
    (t = s ∨ ∃ k : N, t = s +:+ "_" +:+ pretty k)
    ∧ q = parent file_path ++ [t +:+ suffix file_path]
    ∧ parent q = parent file_path
    ∧ wf_path q = true
    ∧ (suffix file_path ≠ "" → t ≠ "" → suffix q = suffix file_path).
Proof.
  intros Hwf Hne Hdir Hres s.
  assert (∃ n : nat, q = nth_try file_path s n
                     ∧ taken (fs w) file_path q = Ok false) as (n & Hq & Hfree).
  { unfold FileOrganizer.safe_rename in Hres.
    destruct (negb (truthy (JStr raw))); [done|].
    unfold bind, get_world, lift in Hres. fold s in Hres.
    destruct (FileOrganizer.collide _ _ _ _ _ _) as [[q'|]|e] eqn:Hc; [|done..].
    pose proof (collide_exit _ _ _ _ _ _ _ Hc) as Hex.
    apply (collide_is_try _ _ _ _ 0) in Hc as (n & Hn & _).
    destruct (bool_decide (q' = file_path)); [done|].
    assert (q' = q) as <-; [|by exists n].
    destruct (negb (dry_run (config self))); [|by simplify_eq/=].
    destruct (FileOrganizer.rename file_path q' w) as [[u|e] w']; by simplify_eq/=. }
  assert (∃ t : string,
            (t = s ∨ ∃ k : N, t = s +:+ "_" +:+ pretty k)
            ∧ q = parent file_path ++ [t +:+ suffix file_path]
            ∧ component_ok (t +:+ suffix file_path) = true) as (t & Ht & Hqt & Hok).
  { assert (PyStr.mem_char "/"%char (s +:+ suffix file_path) = false) as Hslash.
    { rewrite mem_char_app. unfold s.
      by rewrite sanitised_no_slash, suffix_no_slash. }
    destruct n as [|n].
    - cbn [nth_try] in Hq.
      destruct (component_ok (s +:+ suffix file_path)) eqn:Hc.
      + exists s. split; [by left|]. split; [|done]. subst q.
        by apply joinpath_component.
      + exfalso. unfold component_ok in Hc. rewrite Hslash in Hc.
        assert (q = parent file_path) as Hqp.
        { subst q. unfold joinpath.
          destruct (String.eqb_spec (s +:+ suffix file_path) "") as [->|H1];
            [apply app_nil_r|].
          destruct (String.eqb_spec (s +:+ suffix file_path) ".") as [->|H2];
            [apply app_nil_r|]. done. }
        unfold taken, exists_ in Hfree. rewrite Hqp, Hdir in Hfree. cbn in Hfree.
        destruct (bool_decide_reflect (parent file_path = file_path)) as [H|H];
          [by apply parent_neq in H|done].
    - exists (s +:+ "_" +:+ pretty (N.of_nat (S n))).
      split; [right; by eexists|].
      cbn [nth_try] in Hq. unfold s in Hq |- *.
      rewrite (candidate_shape file_path raw (N.of_nat (S n)) Hwf) in Hq.
      rewrite !string_app_assoc. split; [done|].
      by apply candidate_component. }
  clear Hq Hres Hfree. subst q.
  exists t. split; [done|]. split; [done|].
  split; [unfold parent; apply removelast_last|].
  split.
  - unfold wf_path. rewrite forallb_app. cbn. rewrite Hok.
    rewrite andb_true_r. unfold wf_path in Hwf. unfold parent.
    destruct (exists_last Hne) as (l & a & ->). rewrite removelast_last.
    rewrite forallb_app in Hwf. by apply andb_true_iff in Hwf as [? _].
  - intros Hs Htne. by apply suffix_of_name.
Qed.

Lemma safe_rename_destination_witness :
  let org := Example.organizer Example.cfg in
  ∃ t : string,
    (t = "report" ∨ ∃ k : N, t = "report" +:+ "_" +:+ pretty k)
    ∧ ["d"; "report_1.txt"] = ["d"] ++ [t +:+ ".txt"]
    ∧ parent ["d"; "report_1.txt"] = ["d"]
    ∧ wf_path ["d"; "report_1.txt"] = true
    ∧ (".txt" ≠ "" → t ≠ "" → suffix ["d"; "report_1.txt"] = ".txt").
Proof.
  intros org.
  apply (safe_rename_destination org ["d"; "b.txt"] "report" Example.world
           ["d"; "report_1.txt"]).
  - reflexivity.
  - discriminate.
  - reflexivity.
  - vm_compute. reflexivity.
Defined.

(** ** The sidecar *)

Lemma with_suffix_json (p : Path) :
  wf_path p = true → p ≠ [] →
  MetadataManager.with_suffix p (suffix p +:+ ".json")
  = Ok (parent p ++ [name p +:+ ".json"]).
Proof.
  intros Hwf Hne. unfold MetadataManager.with_suffix.
  assert (PyStr.mem_char "/"%char (suffix p +:+ ".json") = false) as ->.
  { by rewrite mem_char_app, suffix_no_slash. }
  assert (String.prefix "." (suffix p +:+ ".json") = true
          ∧ String.eqb (suffix p +:+ ".json") "" = false
          ∧ String.eqb (suffix p +:+ ".json") "." = false) as (-> & -> & ->).
  { destruct (suffix_shape p) as [->|(e & -> & He & _)]; [done|].
    change (String "." e +:+ ".json") with (String "." (e +:+ ".json")).
    split; [by destruct (e +:+ ".json")|]. split; [done|].
    apply String.eqb_neq. intros [= H]. destruct e; done. }
  cbn [negb andb orb].
  pose proof (name_component p Hwf Hne) as Hn. unfold component_ok in Hn.
  apply andb_true_iff in Hn as [[Hn _]%andb_true_iff _].
  apply negb_true_iff in Hn. rewrite Hn.
  do 3 f_equal. rewrite <- (stem_suffix p) at 1 2.
  rewrite string_length_app.
  replace (String.length (stem p) + String.length (suffix p)
           - String.length (suffix p))%nat with (String.length (stem p)) by lia.
  rewrite substring_app_l. rewrite <- string_app_assoc. by rewrite stem_suffix.
Qed.

(** What [create_json_sidecar] does, by the state of the directory and of the
    path of the sidecar. *)
Lemma create_json_sidecar_writes (env : Env) (p : Path) (md : json) (w : World) :
  wf_path p = true →
  p ≠ [] →
  let q := parent p ++ [name p +:+ ".json"] in
  MetadataManager.create_json_sidecar env p md w
  = if negb (path_exists (fs w) (parent p)) then (Raise (errno2 q), w)
    else if negb (is_dir (fs w) (parent p)) then (Raise (errno20 q), w)
    else if too_long (name p +:+ ".json") then (Raise (errno36 q), w)
    else
      match fs w !! q with
      | Some NDir => (Raise (errno21 q), w)
      | _ =>
          (Ok tt,
           MkWorld (<[q := NFile (dump_indent env md) (time_at env (clock w))]> (fs w))
             (db w) (clock w + 1) (calls w))
      end.
Proof.
  intros Hwf Hne q.
  unfold MetadataManager.create_json_sidecar, bind, lift.
  rewrite (with_suffix_json p Hwf Hne). fold q.
  unfold MetadataManager.write_file.
  assert (parent q = parent p) as ->
    by (unfold q, parent at 1; apply removelast_last).
  assert (name q = name p +:+ ".json") as ->
    by (unfold q, name at 1; apply last_last).
  assert (q ≠ []) as Hq by (unfold q; by destruct (parent p)).
  destruct q; [done|]. done.
Qed.



(** ** The steps after the rename *)

Lemma safe_rename_calls (self : Organizer) (p : Path) (v : json) (w : World) :
  calls (snd (FileOrganizer.safe_rename self p v w)) = calls w.
Proof.
  unfold FileOrganizer.safe_rename.
  destruct (negb (truthy v)); [done|]. destruct v; try done.
  unfold bind, get_world, lift.
  destruct (FileOrganizer.collide _ _ _ _ _ _) as [[q|]|e]; [|done..].
  destruct (bool_decide (q = p)); [done|].
  destruct (negb (dry_run (config self))); [|done].
  unfold FileOrganizer.rename, ret.
  destruct (fs w !! p); [|done].
  by destruct (fs w !! q) as [[c t|]|], q.
Qed.

Lemma rename_step_calls (self : Organizer) (p : Path) (md : json) (w : World) :
  calls (snd (FileOrganizer.rename_step self p md w)) = calls w.
Proof.
  unfold FileOrganizer.rename_step.
  destruct (rename_files (config self)); [|done].
  unfold bind, lift.
  destruct (FileOrganizer.py_in "suggested_filename" md) as [[|]|e]; [|done..].
  destruct (FileOrganizer.py_getitem md "suggested_filename") as [v|e]; [|done].
  apply safe_rename_calls.
Qed.

Lemma embed_step_embedded (env : Env) (self : Organizer) (p : Path) (md : json)
    (w : World) :
  embedded (snd (FileOrganizer.embed_step env self p md w))
  = embedded w
    ++ (if embed_metadata (config self) && negb (dry_run (config self))
        then [p] else []).
Proof.
  unfold FileOrganizer.embed_step.
  destruct (embed_metadata (config self) && negb (dry_run (config self)));
    [|by rewrite app_nil_r].
  unfold MetadataManager.embed_metadata.
  destruct (exiftool env w p md) as [[b fs']|e]; cbn [snd];
    unfold embedded, set_fs, record_call; cbn [calls]; by rewrite omap_app.
Qed.

Lemma sidecar_step_embedded (env : Env) (self : Organizer) (p : Path) (md : json)
    (w : World) :
  embedded (snd (FileOrganizer.sidecar_step env self p md w)) = embedded w.
Proof.
  unfold FileOrganizer.sidecar_step.
  destruct (create_json_sidecar (config self) && negb (dry_run (config self)));
    [|done].
  unfold MetadataManager.create_json_sidecar, bind, lift.
  destruct (MetadataManager.with_suffix _ _) as [q|e]; [|done].
  unfold MetadataManager.write_file.
  destruct q as [|c q]; [done|].
  destruct (negb (path_exists _ _)); [done|].
  destruct (negb (is_dir _ _)); [done|].
  destruct (too_long _); [done|].
  by destruct (fs w !! (c :: q)) as [[c' t|]|].
Qed.

(** X12. The steps after the rename work on the new path.  When the rename
    step of [process_file] returns the path [q], the result reports [q] as
    [renamed_to] whatever the later steps do; exiftool, when it is run, is run
    once and on [q]; and when the sidecar is written and the result is a
    success, the sidecar is the file [q] with [.json] appended to its name and
    holds the dumped metadata. *)
Theorem later_steps_follow_rename (env : Env) (self : Organizer) (p q : Path)
    (md : json) (w w1 w2 w3 : World) :
  AIAnalyzer.analyze env (analyzer self) p w = (Ok md, w1) →
  FileOrganizer.review env self p md w1 = (Ok false, w2) →
  FileOrganizer.rename_step self p md w2 = (Ok (Some q), w3) →
  wf_path q = true →
  q ≠ [] →
  ∃ (o : dict) (w' : World),
    FileOrganizer.process_file env self p w = (Ok o, w')
    ∧ dict_get "renamed_to" o = Some (JStr (to_str q))
    ∧ embedded w'
      = embedded w
        ++ (if embed_metadata (config self) && negb (dry_run (config self))
            then [q] else [])
    ∧ (create_json_sidecar (config self) && negb (dry_run (config self)) = true →
       succeeded o →
       ∃ t : float,
         fs w' !! (parent q ++ [name q +:+ ".json"])
         = Some (NFile (dump_indent env md) t)).
Proof.
  intros Ha Hr Hn Hwf Hne.
  assert (embedded w3 = embedded w) as Hemb.
  { pose proof (frame_analyze env (analyzer self) p w) as [_ H1].
    pose proof (frame_review env self p md w1) as [_ H2].
    pose proof (rename_step_calls self p md w2) as H3.
    rewrite Ha in H1. rewrite Hr in H2. rewrite Hn in H3. cbn [snd] in *.
    unfold embedded in *. by rewrite H3, H2, H1. }
  unfold FileOrganizer.process_file, FileOrganizer.guard.
  rewrite Ha, Hr, Hn. cbn [default from_option id].
  pose proof (embed_step_embedded env self q md w3) as He.
  destruct (FileOrganizer.embed_step env self q md w3) as [[b|e] w4]; cbn [snd] in He.
  2:{ eexists _, _. split; [reflexivity|]. split; [done|].
      split; [by rewrite He, Hemb|]. intros _ Hs. done. }
  pose proof (sidecar_step_embedded env self q md w4) as Hs.
  unfold FileOrganizer.sidecar_step in *.
  destruct (create_json_sidecar (config self) && negb (dry_run (config self))).
  - pose proof (create_json_sidecar_writes env q md w4 Hwf Hne) as Hside.
    cbv zeta in Hside.
    rewrite Hside in Hs |- *.
    destruct (negb (path_exists (fs w4) (parent q)));
      [|destruct (negb (is_dir (fs w4) (parent q)));
        [|destruct (too_long (name q +:+ ".json"));
          [|destruct (fs w4 !! (parent q ++ [name q +:+ ".json"]))
              as [[c t|]|] eqn:Hq]]];
      cbn [snd] in Hs; eexists _, _; (split; [reflexivity|]);
      (split; [done|]); (split; [by rewrite <- Hemb, <- He|]); intros _ Hsucc;
      try done; cbn [fs]; rewrite lookup_insert_eq; by eexists.
  - eexists _, _. split; [reflexivity|]. split; [done|].
    split; [by rewrite <- Hemb, <- He|]. done.
Qed.

Lemma later_steps_follow_rename_witness :
  let org := Example.organizer Example.cfg in
  let p := ["d"; "b.txt"] in
  let q := ["d"; "report_1.txt"] in
  ∃ (o : dict) (w' : World),
    FileOrganizer.process_file Example.env org p Example.world = (Ok o, w')
    ∧ dict_get "renamed_to" o = Some (JStr "/d/report_1.txt")
    ∧ embedded w' = [q]
    ∧ ∃ (md : json) (t : float),
        fs w' !! ["d"; "report_1.txt.json"]
        = Some (NFile (PyStr.encode (dumps md)) t).
Proof.
  intros org p q.
  set (a := AIAnalyzer.analyze Example.env (analyzer org) p Example.world).
  set (md := match fst a with Ok m => m | Raise _ => JNull end).
  set (r := FileOrganizer.review Example.env org p md (snd a)).
  set (n := FileOrganizer.rename_step org p md (snd r)).
  destruct (later_steps_follow_rename Example.env org p q md Example.world
              (snd a) (snd r) (snd n))
    as (o & w' & Hp & Hren & Hemb & Hside).
  - vm_compute. reflexivity.
  - vm_compute. reflexivity.
  - vm_compute. reflexivity.
  - reflexivity.
  - discriminate.
  - exists o, w'. split; [exact Hp|]. split; [exact Hren|]. split; [exact Hemb|].
    exists md. apply Hside; [reflexivity|].
    assert (fst (FileOrganizer.process_file Example.env org p Example.world) = Ok o)
      as Ho by (by rewrite Hp).
    vm_compute in Ho. injection Ho as <-. vm_compute. reflexivity.
Defined.

(** ** The fingerprint and the name *)

Lemma utf8_first_char (c : ascii) (r : list byte) :
  utf8_first (PyStr.utf8_char c ++ r) = Some (c, r).
Proof. destruct c as [[] [] [] [] [] [] [] []]; reflexivity. Qed.

Lemma encode_inj (s1 s2 : string) : PyStr.encode s1 = PyStr.encode s2 → s1 = s2.
Proof.
  revert s2. induction s1 as [|c1 s1 IH]; intros [|c2 s2] H; [done| | |].
  - apply (f_equal utf8_first) in H. cbn [PyStr.encode] in H.
    by rewrite utf8_first_char in H.
  - apply (f_equal utf8_first) in H. cbn [PyStr.encode] in H.
    by rewrite utf8_first_char in H.
  - apply (f_equal utf8_first) in H. cbn [PyStr.encode] in H.
    rewrite !utf8_first_char in H. injection H as -> H. by rewrite (IH _ H).
Qed.

(** X13. The name is part of the fingerprint.  Two files with the same
    bytes and the same modification time and different names are hashed on
    different bytes: after a rename the fingerprint of the file is the digest
    of another input than before. *)
Theorem rename_changes_fingerprint (env : Env) (fs1 fs2 : FS) (p q : Path)
    (c : list byte) (t : float) (chunk_size : N) :
  fs1 !! p = Some (NFile c t) →
  fs2 !! q = Some (NFile c t) →
  name p ≠ name q →
  SmartHash.calculate env fs1 p chunk_size
    = Ok (sha256_hex env (fingerprint_input env (name p) c t chunk_size))
  ∧ SmartHash.calculate env fs2 q chunk_size
    = Ok (sha256_hex env (fingerprint_input env (name q) c t chunk_size))
  ∧ fingerprint_input env (name p) c t chunk_size
    ≠ fingerprint_input env (name q) c t chunk_size.
Proof.
  intros Hp Hq Hne. split; [by apply calculate_file|].
  split; [by apply calculate_file|].
  unfold fingerprint_input. intros H%app_inv_tail%encode_inj.
  by apply app_inj_r in H.
Qed.

Lemma rename_changes_fingerprint_witness :
  let w1 := snd (FileOrganizer.safe_rename (Example.organizer Example.cfg)
                   ["d"; "b.txt"] (JStr "report") Example.world) in
  SmartHash.calculate Example.env Example.files ["d"; "b.txt"] 65536
    = Ok "b.txt|6|1700000000.0second"
  ∧ SmartHash.calculate Example.env (fs w1) ["d"; "report_1.txt"] 65536
    = Ok "report_1.txt|6|1700000000.0second".
Proof.
  intros w1.
  destruct (rename_changes_fingerprint Example.env Example.files (fs w1)
              ["d"; "b.txt"] ["d"; "report_1.txt"] (PyStr.encode "second")
              0%float 65536) as (H1 & H2 & _).
  - reflexivity.
  - vm_compute. reflexivity.
  - vm_compute. discriminate.
  - rewrite H1, H2. split; vm_compute; reflexivity.
Defined.

(** ** The answer of the interactive mode *)

Lemma lower_char_y (c : ascii) :
  PyStr.lower_char c = "y"%char → c = "y"%char ∨ c = "Y"%char.
Proof.
  destruct c as [[] [] [] [] [] [] [] []]; vm_compute; intros H;
    try discriminate H; tauto.
Qed.

Lemma lower_accepts (s : string) :
  String.eqb (PyStr.lower s) "" || String.eqb (PyStr.lower s) "y"
  = bool_decide (s ∈ [""; "y"; "Y"]).
Proof.
  apply eq_true_iff_eq.
  rewrite orb_true_iff, !String.eqb_eq, bool_decide_eq_true, !elem_of_cons,
    elem_of_nil.
  split.
  - intros [H|H].
    + left. by destruct s.
    + destruct s as [|c [|d s]]; [done| |done]. cbn in H. injection H as H.
      apply lower_char_y in H as [->| ->]; tauto.
  - intros [->|[->|[->|[]]]]; [by left|by right|by right].
Qed.

(** X14. What the user may answer.  In the interactive mode, when the
    preview prints and the user answers, the file is declined unless the
    answer, stripped, is empty or one of [y] and [Y]: every other answer,
    [yes] too, skips the file. *)
Theorem review_accepts (env : Env) (self : Organizer) (p : Path) (md : json)
    (w : World) (answer : string) :
  interactive (config self) = true →
  FileOrganizer.preview md = Ok tt →
  input_line env w p = Ok answer →
  FileOrganizer.review env self p md w
  = (Ok (negb (bool_decide (PyStr.strip answer ∈ [""; "y"; "Y"]))),
     record_call (EvInput p) w).
Proof.
  intros Hi Hp Ha. unfold FileOrganizer.review, bind, lift, FileOrganizer.ask, ret.
  rewrite Hi, Hp, Ha. by rewrite <- lower_accepts, negb_orb.
Qed.

Lemma review_accepts_witness :
  let org := Example.organizer (Example.with_interactive true Example.cfg) in
  let env := {| sha256_hex := sha256_hex Example.env;
                str_float := str_float Example.env;
                guess_type := guess_type Example.env;
                time_at := time_at Example.env;
                isoformat_at := isoformat_at Example.env;
                backend_reply := backend_reply Example.env;
                exiftool := exiftool Example.env;
                input_line := fun _ _ => Ok " yes ";
                dump_indent := dump_indent Example.env;
                sleep := sleep Example.env;
                decode_message := decode_message Example.env |} in
  fst (FileOrganizer.review env org ["d"; "b.txt"] (JObj []) Example.world)
  = Ok true.
Proof.
  intros org env.
  rewrite (review_accepts env org ["d"; "b.txt"] (JObj []) Example.world " yes ");
    reflexivity.
Defined.

(** ** [collect_files] *)

Lemma elem_of_List_filter {A} (f : A → bool) (l : list A) (x : A) :
  x ∈ List.filter f l ↔ f x = true ∧ x ∈ l.
Proof.
  rewrite !list_elem_of_In, filter_In. tauto.
Qed.

Lemma NoDup_List_filter {A} (f : A → bool) (l : list A) :
  NoDup l → NoDup (List.filter f l).
Proof.
  induction 1 as [|x l Hx Hl IH]; cbn; [constructor|].
  destruct (f x); [|done]. constructor; [|done].
  rewrite elem_of_List_filter. tauto.
Qed.

Lemma elem_of_glob (fs : FS) (d q : Path) (recursive : bool) :
  q ∈ glob fs d recursive
  ↔ is_Some (fs !! q) ∧ below fs d q = true
    ∧ (recursive = true ∨ length q = S (length d)).
Proof.
  unfold glob. rewrite elem_of_List_filter, andb_true_iff, orb_true_iff.
  rewrite Nat.eqb_eq.
  assert (q ∈ (map_to_list fs).*1 ↔ is_Some (fs !! q)) as ->; [|tauto].
  rewrite list_elem_of_fmap. split.
  - intros ([q' nd] & -> & H%elem_of_map_to_list). by eexists.
  - intros [nd H]. exists (q, nd). split; [done|]. by apply elem_of_map_to_list.
Qed.

Lemma NoDup_glob (fs : FS) (d : Path) (recursive : bool) :
  NoDup (glob fs d recursive).
Proof. apply NoDup_List_filter, NoDup_fst_map_to_list. Qed.

Lemma below_prefix (fs : FS) (d q : Path) :
  below fs d q = true →
  ∃ rest : list string, q = d ++ rest ∧ rest ≠ [] ∧ is_dir fs d = true.
Proof.
  unfold below. intros [[Hp Hl]%andb_true_iff Hd]%andb_true_iff.
  apply bool_decide_eq_true in Hp as [rest ->]. apply Nat.ltb_lt in Hl.
  rewrite length_app in Hl, Hd. exists rest. split; [done|].
  split; [destruct rest; [cbn in Hl; lia|done]|].
  replace (length d + length rest - length d)%nat with (length rest) in Hd by lia.
  destruct rest as [|x rest]; [cbn in Hl; lia|]. cbn [length seq forallb] in Hd.
  apply andb_true_iff in Hd as [Hd _]. by rewrite take_app_length in Hd.
Qed.



(** X15. What [collect_files] returns.  For a regular file it is the file
    itself, hidden or not.  Otherwise every path returned is a regular file
    under [path] whose own name does not start with a dot, a direct child of
    [path] unless the call is recursive; and no path is returned twice. *)
Theorem collect_files_sound (fs : FS) (path : Path) (recursive : bool) :
  (is_file fs path = true → Cli.collect_files fs path recursive = [path])
  ∧ Forall (fun q =>
              is_file fs q = true
              ∧ (q = path
                 ∨ (∃ rest : list string, q = path ++ rest ∧ rest ≠ []
                      ∧ (recursive = false → length rest = 1%nat))
                   ∧ String.prefix "." (name q) = false))
      (Cli.collect_files fs path recursive)
  ∧ NoDup (Cli.collect_files fs path recursive).
Proof.
  unfold Cli.collect_files. split; [by intros ->|].
  destruct (is_file fs path) eqn:Hf.
  - split; [|apply NoDup_singleton]. apply Forall_singleton. split; [done|by left].
  - split; [|apply NoDup_List_filter, NoDup_glob].
    apply Forall_forall. intros q [Hq Hg]%elem_of_List_filter.
    apply andb_true_iff in Hq as [Hfile Hdot]. apply negb_true_iff in Hdot.
    apply elem_of_glob in Hg as (_ & Hb & Hr).
    split; [done|]. right. split; [|done].
    destruct (below_prefix _ _ _ Hb) as (rest & -> & Hne & _).
    exists rest. split; [done|]. split; [done|].
    intros ->. destruct Hr as [?|Hr]; [done|]. rewrite length_app in Hr. lia.
Qed.

(** X16. What [collect_files] finds.  Under a directory [path], a regular
    file whose own name does not start with a dot is collected by the
    recursive call when every path between [path] and the file is a
    directory, whatever the names of these directories: hidden directories
    are entered.  The call that is not recursive collects it when it is a
    direct child of [path]. *)
Theorem collect_files_complete (fs : FS) (path : Path) (mid : list string)
    (nm : string) :
  (∀ k : nat, (k ≤ length mid)%nat → is_dir fs (path ++ take k mid) = true) →
  is_file fs (path ++ mid ++ [nm]) = true →
  String.prefix "." nm = false →
  path ++ mid ++ [nm] ∈ Cli.collect_files fs path true
  ∧ (mid = [] → path ++ [nm] ∈ Cli.collect_files fs path false).
Proof.
  intros Hdirs Hfile Hdot.
  assert (is_file fs path = false) as Hpath.
  { specialize (Hdirs 0%nat ltac:(lia)). rewrite take_0, app_nil_r in Hdirs.
    unfold is_dir in Hdirs. unfold is_file.
    by destruct (fs !! path) as [[c t|]|]. }
  assert (below fs path (path ++ mid ++ [nm]) = true) as Hb.
  { unfold below. rewrite !andb_true_iff. split; [split|].
    - apply bool_decide_eq_true. by eexists.
    - apply Nat.ltb_lt. rewrite !length_app. cbn. lia.
    - apply forallb_forall. intros k [Hk1 Hk2]%in_seq.
      rewrite !length_app in Hk2. cbn in Hk2.
      replace k with (length path + (k - length path))%nat by lia.
      rewrite take_app_add', take_app_le by lia. apply Hdirs. lia. }
  assert (∀ r : bool, (r = true ∨ mid = []) →
            path ++ mid ++ [nm] ∈ Cli.collect_files fs path r) as H.
  { intros r Hr. unfold Cli.collect_files. rewrite Hpath.
    apply elem_of_List_filter. split.
    - rewrite Hfile. unfold name. rewrite !app_assoc, last_last. by rewrite Hdot.
    - apply elem_of_glob. split; [|split; [done|]].
      + unfold is_file in Hfile. destruct (fs !! (path ++ mid ++ [nm])); [done|].
        done.
      + destruct Hr as [->| ->]; [by left|right]. rewrite length_app. cbn. lia. }
  split; [apply H; by left|]. intros ->. apply (H false). by right.
Qed.

Lemma collect_files_complete_witness :
  let fs : FS :=
    {[ ["d"] := NDir; ["d"; ".git"] := NDir;
       ["d"; ".git"; "config"] := Example.file "[core]";
       ["d"; ".hidden"] := Example.file "x";
       ["d"; "a.txt"] := Example.file "a" ]} in
  ["d"; ".git"; "config"] ∈ Cli.collect_files fs ["d"] true
  ∧ ["d"; "a.txt"] ∈ Cli.collect_files fs ["d"] false.
Proof.
  intros fs. split.
  - apply (collect_files_complete fs ["d"] [".git"] "config").
    + intros [|[|k]] Hk; [reflexivity|reflexivity|cbn in Hk; lia].
    + reflexivity.
    + reflexivity.
  - apply (collect_files_complete fs ["d"] [] "a.txt"); [|reflexivity..].
    intros [|k] Hk; [reflexivity|cbn in Hk; lia].
Defined.

(** ** The command line *)

Lemma parse_args_snoc (path : string) (opts : list Cli.Opt) (o : Cli.Opt) :
  Cli.parse_args path (opts ++ [o]) = Cli.store (Cli.parse_args path opts) o.
Proof. unfold Cli.parse_args. by rewrite fold_left_app. Qed.

Lemma given_snoc (o' : Cli.Opt) (opts : list Cli.Opt) (o : Cli.Opt) :
  given o' (opts ++ [o]) = given o' opts || bool_decide (o' = o).
Proof.
  unfold given. apply eq_true_iff_eq.
  rewrite orb_true_iff, !bool_decide_eq_true, elem_of_app, list_elem_of_singleton.
  done.
Qed.

(** The namespace of a command line, field by field. *)
Lemma parse_args_fields (path : string) (opts : list Cli.Opt) :
  let a := Cli.parse_args path opts in
  Cli.arg_embed_metadata a = true
  ∧ Cli.arg_local a = given Cli.OLocal opts
  ∧ Cli.arg_rename a = given Cli.ORename opts
  ∧ Cli.arg_dry_run a = given Cli.ODryRun opts
  ∧ Cli.arg_interactive a = given Cli.OInteractive opts
  ∧ Cli.arg_no_sidecar a = given Cli.ONoSidecar opts
  ∧ Cli.arg_no_cache a = given Cli.ONoCache opts
  ∧ Cli.arg_workers a = default 4%Z (workers_given opts)
  ∧ Cli.arg_model a = model_given opts.
Proof.
  induction opts as [|o opts IH] using rev_ind; [by repeat split|].
  cbn zeta in *. rewrite parse_args_snoc, !given_snoc.
  unfold workers_given, model_given in *. rewrite !fold_left_app. cbn [fold_left].
  destruct (Cli.parse_args path opts) as [p b rc rn x ns l n i wk m nc].
  cbn [Cli.arg_embed_metadata Cli.arg_local Cli.arg_rename Cli.arg_dry_run
       Cli.arg_interactive Cli.arg_no_sidecar Cli.arg_no_cache Cli.arg_workers
       Cli.arg_model] in IH.
  destruct IH as (-> & -> & -> & -> & -> & -> & -> & -> & ->).
  destruct o; cbn; rewrite ?orb_false_r, ?orb_true_r; repeat split; done.
Qed.

(** The configuration after the overrides, field by field. *)
Lemma override_fields (a : Cli.Args) (c : Config) :
  let c' := Cli.override a c in
  embed_metadata c' = Cli.arg_embed_metadata a || embed_metadata c
  ∧ use_local c' = Cli.arg_local a || use_local c
  ∧ rename_files c' = Cli.arg_rename a || rename_files c
  ∧ dry_run c' = Cli.arg_dry_run a || dry_run c
  ∧ interactive c' = Cli.arg_interactive a || interactive c
  ∧ create_json_sidecar c' = negb (Cli.arg_no_sidecar a) && create_json_sidecar c
  ∧ cache_enabled c' = negb (Cli.arg_no_cache a) && cache_enabled c
  ∧ max_workers c'
    = (if (Cli.arg_workers a =? 0)%Z then max_workers c else Cli.arg_workers a)
  ∧ (model c', ollama_model c')
    = match Cli.arg_model a with
      | Some m =>
          if String.eqb m "" then (model c, ollama_model c)
          else if Cli.arg_local a || use_local c then (model c, m)
          else (m, ollama_model c)
      | None => (model c, ollama_model c)
      end.
Proof.
  destruct a as [p b rc rn x ns l n i wk m nc]. unfold Cli.override.
  cbn [Cli.arg_embed_metadata Cli.arg_local Cli.arg_rename Cli.arg_dry_run
       Cli.arg_interactive Cli.arg_no_sidecar Cli.arg_no_cache Cli.arg_workers
       Cli.arg_model].
  destruct c as [cm co ck cl cw cr cc crn ce cs cd ci].
  destruct l, rn, x, ns, n, i, nc, (wk =? 0)%Z, m as [mm|];
    try destruct (String.eqb mm ""); try destruct cl; cbn; repeat split; done.
Qed.

(** X17. The flags of the command line work one way.  [--local],
    [--rename], [--dry-run] and [--interactive] switch their setting on and
    never off: without the flag the loaded value stays.  [--no-sidecar] and
    [--no-cache] switch their setting off and never on.  And [embed_metadata]
    is on whatever the loaded configuration and the command line say: the
    flag of the parser has the default [True], so its override always
    fires. *)
Theorem cli_flags_one_way (path : string) (opts : list Cli.Opt) (loaded : Config) :
  let c := effective path opts loaded in
  use_local c = given Cli.OLocal opts || use_local loaded
  ∧ rename_files c = given Cli.ORename opts || rename_files loaded
  ∧ dry_run c = given Cli.ODryRun opts || dry_run loaded
  ∧ interactive c = given Cli.OInteractive opts || interactive loaded
  ∧ create_json_sidecar c
    = negb (given Cli.ONoSidecar opts) && create_json_sidecar loaded
  ∧ cache_enabled c = negb (given Cli.ONoCache opts) && cache_enabled loaded
  ∧ embed_metadata c = true.
Proof.
  unfold effective.
  destruct (override_fields (Cli.parse_args path opts) loaded)
    as (-> & -> & -> & -> & -> & -> & -> & _).
  by destruct (parse_args_fields path opts)
    as (-> & -> & -> & -> & -> & -> & -> & _).
Qed.

(** X18. The worker count and the model name.  The worker count in force
    is that of the last [--workers], or 4 without one; the loaded
    [max_workers] is in force only when that number is 0.  The name of the
    last [--model], unless it is empty, replaces [ollama_model] when the
    local backend is in force and [model] otherwise; the other name stays. *)
Theorem cli_workers_and_model (path : string) (opts : list Cli.Opt) (loaded : Config) :
  let c := effective path opts loaded in
  let n := default 4%Z (workers_given opts) in
  max_workers c = (if (n =? 0)%Z then max_workers loaded else n)
  ∧ (model c, ollama_model c)
    = match model_given opts with
      | Some m =>
          if String.eqb m "" then (model loaded, ollama_model loaded)
          else if use_local c then (model loaded, m)
          else (m, ollama_model loaded)
      | None => (model loaded, ollama_model loaded)
      end.
Proof.
  unfold effective.
  destruct (override_fields (Cli.parse_args path opts) loaded)
    as (_ & -> & _ & _ & _ & _ & _ & -> & ->).
  by destruct (parse_args_fields path opts)
    as (_ & -> & _ & _ & _ & _ & _ & -> & ->).
Qed.

(** ** The backend in force *)

(** X19. [--local] means Ollama or nothing.  With [--local] on the command
    line the organizer is built on the Ollama backend when the [ollama]
    module is there, with the model of the last [--model], or the loaded
    [ollama_model] without one; when the module is missing the construction
    raises [RuntimeError] and does not fall back on Gemini, even with the
    Gemini module and an API key at hand. *)
Theorem cli_local_backend (path : string) (opts : list Cli.Opt) (loaded : Config)
    (genai ollama : bool) :
  given Cli.OLocal opts = true →
  let c := effective path opts loaded in
  FileOrganizer.init c genai ollama
  = if ollama
    then Ok (MkOrganizer c
               (MkAnalyzer Ollama
                  (match model_given opts with
                   | Some m => if String.eqb m "" then ollama_model loaded else m
                   | None => ollama_model loaded
                   end)
                  (negb (given Cli.ONoCache opts) && cache_enabled loaded)))
    else Raise (MkExc "RuntimeError"
           "No AI backend available. Install google-generativeai or ollama.").
Proof.
  intros Hl c.
  destruct (override_fields (Cli.parse_args path opts) loaded)
    as (_ & Hloc & _ & _ & _ & _ & Hcache & _ & Hmodel).
  destruct (parse_args_fields path opts)
    as (_ & Hal & _ & _ & _ & _ & Hanc & _ & Ham).
  cbv zeta in Hloc, Hcache, Hmodel, Hal, Hanc, Ham.
  rewrite Hal, Hl in Hloc, Hmodel. rewrite Hanc in Hcache. rewrite Ham in Hmodel.
  cbn [orb] in Hloc, Hmodel. fold (effective path opts loaded) in Hloc, Hcache, Hmodel.
  fold c in Hloc, Hcache, Hmodel.
  unfold FileOrganizer.init, AIAnalyzer.init. rewrite Hloc, Hcache.
  cbn [negb andb]. destruct ollama; [|done]. cbn [rbind]. do 3 f_equal.
  destruct (model_given opts) as [m|]; [destruct (String.eqb m "")|];
    by injection Hmodel.
Qed.

Lemma cli_local_backend_witness :
  let c := effective "/d" [Cli.OLocal; Cli.OModel "llava"] Example.cfg in
  FileOrganizer.init c true true
    = Ok (MkOrganizer c (MkAnalyzer Ollama "llava" true))
  ∧ FileOrganizer.init c true false
    = Raise (MkExc "RuntimeError"
        "No AI backend available. Install google-generativeai or ollama.").
Proof.
  intros c. split.
  - apply (cli_local_backend "/d" [Cli.OLocal; Cli.OModel "llava"] Example.cfg
             true true).
    vm_compute. reflexivity.
  - apply (cli_local_backend "/d" [Cli.OLocal; Cli.OModel "llava"] Example.cfg
             true false).
    vm_compute. reflexivity.
Defined.


(** ** The files of [main], their processing and the summary *)



(** X21. The pool is for two files or more.  One file goes to
    [process_file] directly and its processing never raises, whatever the
    worker count.  Any other number of files goes to the pool: with a worker
    count of zero or less the processing raises [ValueError] before any file
    is touched, and with a positive count it returns one result for each
    file when the rate limiting after a result returns, and two dicts for
    each file (the result, and the dict of the [except] branch) when
    [time.sleep] raises. *)
Theorem pool_only_for_many (env : Env) (self : Organizer) (files : list Path)
    (sched : list nat) (w : World) :
  (∀ file : Path,
     files = [file] →
     ∃ (o : dict) (w' : World),
       FileOrganizer.process_file env self file w = (Ok o, w')
       ∧ Cli.process env self files sched w = (Ok [o], w'))
  ∧ (length files ≠ 1%nat →
     (max_workers (config self) ≤ 0)%Z →
     Cli.process env self files sched w
     = (Raise (MkExc "ValueError" "max_workers must be greater than 0"), w))
  ∧ (length files ≠ 1%nat →
     (0 < max_workers (config self))%Z →
     FileOrganizer.schedule (length files) sched →
     ∃ (results : list dict) (w' : World),
       Cli.process env self files sched w = (Ok results, w')
       ∧ length results
         = match FileOrganizer.pause env self with
           | Ok _ => length files
           | Raise _ => (2 * length files)%nat
           end).
Proof.
  split; [|split].
  - intros file ->. unfold Cli.process, bind, ret.
    destruct (process_file_ok env self file w) as [o Ho].
    destruct (FileOrganizer.process_file env self file w) as [r w'].
    cbn in Ho. subst r. by exists o, w'.
  - intros Hlen Hw.
    assert (Cli.process env self files sched w
            = FileOrganizer.process_batch env self files sched w) as ->.
    { by destruct files as [|p [|p' l]]. }
    unfold FileOrganizer.process_batch.
    by destruct (Z.leb_spec (max_workers (config self)) 0); [|lia].
  - intros Hlen Hw Hs.
    assert (Cli.process env self files sched w
            = FileOrganizer.process_batch env self files sched w) as ->.
    { by destruct files as [|p [|p' l]]. }
    destruct (process_batch_runs env self files sched w Hw) as [w' ->].
    eexists _, w'. split; [done|].
    set (own := _ <$> _).
    assert (length own = length files) as Hown
      by (unfold own; by rewrite length_fmap, run_trace_length).
    unfold batch_results. destruct (FileOrganizer.pause env self) as [u|e]; [done|].
    rewrite doubled_length, Hown; [done|].
    by rewrite Hown, (Permutation_length (scheduled_permutation files sched Hs)).
Qed.

Lemma pool_only_for_many_witness :
  let org := Example.organizer (Example.with_max_workers 0 Example.cfg) in
  (∃ (o : dict) (w' : World),
     FileOrganizer.process_file Example.env org ["d"; "b.txt"] Example.world
       = (Ok o, w')
     ∧ Cli.process Example.env org [["d"; "b.txt"]] [0%nat] Example.world
       = (Ok [o], w'))
  ∧ Cli.process Example.env org [["d"; "b.txt"]; ["d"; "c.txt"]] [0; 1]%nat
      Example.world
    = (Raise (MkExc "ValueError" "max_workers must be greater than 0"),
       Example.world).
Proof.
  intros org. split.
  - by apply (pool_only_for_many Example.env org [["d"; "b.txt"]] [0%nat]
                Example.world).
  - apply (pool_only_for_many Example.env org [["d"; "b.txt"]; ["d"; "c.txt"]]
             [0; 1]%nat Example.world); [discriminate|reflexivity].
Defined.

Lemma successful_flagged (results : list dict) :
  Forall flagged results →
  Cli.successful results
  = Ok (Z.of_nat (length (List.filter is_success results))).
Proof.
  induction 1 as [|o results [b Hb] _ IH]; [done|].
  assert (is_success o = b) as Hs by (unfold is_success; by rewrite Hb).
  cbn [Cli.successful List.filter]. unfold FileOrganizer.py_getitem.
  rewrite Hb, IH, Hs. cbn [rbind truthy]. destruct b; [|done].
  cbn [length]. f_equal. lia.
Qed.

(** Every dict of the processing of [main] has a [success] flag: the results
    of [process_file], and the dicts of the [except] branch of the batch. *)
Lemma process_flagged (env : Env) (self : Organizer) (files : list Path)
    (sched : list nat) (w : World) (results : list dict) (w' : World) :
  Cli.process env self files sched w = (Ok results, w') →
  Forall flagged results.
Proof.
  intros H.
  pose proof (run_tasks_shaped env self files sched w) as Hb.
  assert (∀ file, files = [file] → Forall flagged results) as Hone.
  { intros file ->. unfold Cli.process, bind, ret in H.
    destruct (process_file_shape env self file w) as (o & Ho & _ & Hs & _).
    destruct (FileOrganizer.process_file env self file w) as [r w1].
    cbn in Ho. subst r. injection H as <- _. by apply Forall_singleton. }
  assert (Cli.process env self files sched w
          = FileOrganizer.process_batch env self files sched w →
          Forall flagged results) as Hmany.
  { intros Heq. rewrite Heq in H. unfold FileOrganizer.process_batch in H.
    destruct (max_workers (config self) <=? 0)%Z; [done|].
    destruct (FileOrganizer.run_tasks _ _ files sched w) as [rs w1].
    injection H as <- _. eapply Forall_impl; [exact Hb|].
    intros o [(_ & Hs & _)|(q & e & _ & ->)]; [done|by exists false]. }
  destruct files as [|p [|p' l]]; [by apply Hmany|by eapply Hone|by apply Hmany].
Qed.

(** X22. The summary adds up.  On the results of the processing of [main]
    the count of the summary never raises: every result has a [success] flag.
    The successes are the results whose flag is true, and successes and
    failures together are the results. *)
Theorem summary_adds_up (env : Env) (self : Organizer) (files : list Path)
    (sched : list nat) (w w' : World) (results : list dict) :
  Cli.process env self files sched w = (Ok results, w') →
  ∃ successful failed : Z,
    Cli.summary results = Ok (successful, failed)
    ∧ successful = Z.of_nat (length (List.filter is_success results))
    ∧ (successful + failed = Z.of_nat (length results))%Z
    ∧ (0 ≤ failed)%Z.
Proof.
  intros H%process_flagged. unfold Cli.summary.
  rewrite (successful_flagged results H). cbn [rbind].
  eexists _, _. split; [reflexivity|]. split; [reflexivity|].
  pose proof (filter_length_le is_success results). lia.
Qed.

Lemma summary_adds_up_witness :
  let org := Example.organizer (Example.with_interactive true Example.cfg) in
  let paths := [["d"; "bad.txt"]; ["d"; "b.txt"]; ["d"; "gone.txt"]] in
  ∃ (results : list dict) (w' : World),
    Cli.process Example.env org paths [0; 1; 2]%nat Example.world = (Ok results, w')
    ∧ Cli.summary results = Ok (1, 2)%Z.
Proof.
  intros org paths.
  set (run := Cli.process Example.env org paths [0; 1; 2]%nat Example.world).
  assert (∃ results, fst run = Ok results) as [results Hr].
  { vm_compute. by eexists. }
  exists results, (snd run).
  assert (run = (Ok results, snd run)) as Hrun.
  { destruct run as [r w']. cbn in Hr. by subst r. }
  split; [exact Hrun|].
  destruct (summary_adds_up Example.env org paths [0; 1; 2]%nat Example.world
              (snd run) results Hrun) as (s & f & -> & Hs & Hsum & _).
  assert (s = 1%Z) as ->.
  { rewrite Hs. vm_compute in Hr. injection Hr as <-. vm_compute. reflexivity. }
  assert (length results = 3%nat) as Hlen.
  { vm_compute in Hr. injection Hr as <-. reflexivity. }
  rewrite Hlen in Hsum. f_equal. f_equal. lia.
Defined.

(** ** The web server *)

Lemma extension_of (a e : string) :
  String.substring (S (String.length a))
    (String.length (a +:+ String "." e) - S (String.length a))
    (a +:+ String "." e)
  = e.
Proof.
  rewrite string_length_app. cbn [String.length].
  replace (String.length a + S (String.length e) - S (String.length a))%nat
    with (String.length e) by lia.
  replace (a +:+ String "." e) with ((a +:+ ".") +:+ e)
    by (by rewrite string_app_assoc).
  replace (S (String.length a)) with (String.length (a +:+ "."))
    by (rewrite string_length_app; cbn; lia).
  apply substring_app_r.
Qed.

(** X23. The uploads the server accepts.  [allowed_file] accepts a name
    exactly when it has a dot and what follows its last dot is, in lower
    case, one of the listed extensions: the test does not depend on the case
    of the extension, looks at the last extension only, and accepts a name
    that starts with its only dot. *)
Theorem allowed_file_iff (filename : string) :
  WebServer.allowed_file filename = true
  ↔ ∃ stem ext : string,
      filename = stem +:+ String "." ext
      ∧ PyStr.mem_char "."%char ext = false
      ∧ In (PyStr.lower ext) WebServer.ALLOWED_EXTENSIONS.
Proof.
  unfold WebServer.allowed_file. split.
  - intros [_ H]%andb_true_iff.
    destruct (PyStr.rfind_dot filename) as [i|] eqn:Hr; [|done].
    destruct (rfind_dot_split _ _ Hr) as (a & e & -> & <- & He).
    rewrite extension_of in H. apply existsb_exists in H as (x & Hx & Heq).
    apply String.eqb_eq in Heq as <-. by exists a, e.
  - intros (a & e & -> & He & Hin).
    rewrite mem_char_app. cbn [PyStr.mem_char].
    change (Ascii.eqb "." ".") with true. rewrite orb_true_r. cbn [orb andb].
    rewrite (rfind_dot_app a e He), extension_of.
    apply existsb_exists. exists (PyStr.lower e). split; [done|].
    apply String.eqb_refl.
Qed.

Lemma allowed_file_iff_witness :
  WebServer.allowed_file "Holiday.Photos.JPG" = true
  ∧ WebServer.allowed_file ".txt" = true.
Proof.
  split.
  - apply (proj2 (allowed_file_iff "Holiday.Photos.JPG")).
    exists "Holiday.Photos", "JPG". split; [reflexivity|]. split; [reflexivity|].
    vm_compute. tauto.
  - apply (proj2 (allowed_file_iff ".txt")).
    exists "", "txt". split; [reflexivity|]. split; [reflexivity|].
    vm_compute. tauto.
Defined.





(** ** The configuration of a web request *)

(** X25. The request decides, not the loaded configuration.  For a request
    whose body is a dict, [dry_run], [rename_files], [embed_metadata] and
    [create_json_sidecar] are what the body says, by the truth value of what
    it holds under [dry_run], [rename], [embed_metadata] and
    [create_sidecar], and [False], [False], [True] and [True] without the key;
    the loaded values of the four play no part.  When [dry_run] comes out
    true, the loop that follows leaves every file as it was. *)
Theorem request_decides_flags (env : Env) (loaded : Config) (d : dict)
    (a : Analyzer) (paths : list Path) (w : World) :
  ∃ c : Config,
    WebServer.request_config loaded (JObj d) = Ok c
    ∧ dry_run c = truthy (default (JBool false) (dict_get "dry_run" d))
    ∧ rename_files c = truthy (default (JBool false) (dict_get "rename" d))
    ∧ embed_metadata c = truthy (default (JBool true) (dict_get "embed_metadata" d))
    ∧ create_json_sidecar c
      = truthy (default (JBool true) (dict_get "create_sidecar" d))
    ∧ (dry_run c = true →
       untouched w (snd (WebServer.process_loop env (MkOrganizer c a) paths w))).
Proof.
  eexists. split; [reflexivity|]. split; [done|]. split; [done|].
  split; [done|]. split; [done|].
  intros Hd. by apply frame_process_loop.
Qed.

Lemma request_decides_flags_witness :
  let loaded := set_dry_run true Example.cfg in
  let body := [("model", JStr "gemini"); ("rename", JStr "false")] in
  ∃ c : Config,
    WebServer.request_config loaded (JObj body) = Ok c
    ∧ dry_run c = false
    ∧ rename_files c = true.
Proof.
  intros loaded body.
  destruct (request_decides_flags Example.env loaded body Example.gemini []
              Example.world) as (c & Hc & Hd & Hr & _).
  exists c. split; [exact Hc|]. split; [exact Hd|exact Hr].
Defined.

(** ** [cleanup_uploads] *)

Lemma unlink_files_spec (entries : list Path) (w : World) :
  ∃ w' : World,
    WebServer.unlink_files entries w = (Ok tt, w')
    ∧ db w' = db w ∧ calls w' = calls w
    ∧ ∀ q : Path,
        fs w' !! q
        = if bool_decide (q ∈ entries) && is_file (fs w) q then None
          else fs w !! q.
Proof.
  revert w. induction entries as [|a entries IH]; intros w.
  - exists w. by repeat split.
  - cbn [WebServer.unlink_files]. unfold bind at 1, get_world.
    set (w1 := if is_file (fs w) a then set_fs (delete a (fs w)) w else w).
    assert ((let! _ := if is_file (fs w) a then WebServer.unlink a else ret tt in
             WebServer.unlink_files entries) w
            = WebServer.unlink_files entries w1) as ->.
    { unfold bind, w1, is_file.
      destruct (fs w !! a) as [[c t|]|] eqn:Ha; [|done..].
      unfold WebServer.unlink. by rewrite Ha. }
    destruct (IH w1) as (w' & -> & Hdb & Hcalls & Hfs).
    exists w'. split; [done|].
    assert (db w1 = db w ∧ calls w1 = calls w) as [<- <-].
    { unfold w1. by destruct (is_file (fs w) a). }
    split; [done|]. split; [done|]. intros q. rewrite Hfs.
    destruct (decide (q = a)) as [->|Hne].
    + rewrite (bool_decide_eq_true_2 (a ∈ a :: entries)) by apply list_elem_of_here.
      cbn [andb]. unfold w1.
      destruct (is_file (fs w) a) eqn:Hf; cbn [fs set_fs].
      * unfold is_file. rewrite lookup_delete_eq. by destruct (bool_decide _).
      * rewrite Hf. by destruct (bool_decide _).
    + assert (bool_decide (q ∈ a :: entries) = bool_decide (q ∈ entries)) as ->.
      { apply bool_decide_ext. rewrite elem_of_cons. tauto. }
      assert (fs w1 !! q = fs w !! q) as Hq.
      { unfold w1. destruct (is_file (fs w) a); cbn [fs set_fs]; [|done].
        by rewrite lookup_delete_ne. }
      unfold is_file. by rewrite Hq.
Qed.

(** X26. What [cleanup_uploads] removes.  The call never fails.  It removes
    every regular file that lies directly in the upload folder, hidden ones
    too, and nothing else: directories in the folder, the files inside them
    and every path outside the folder stay, and so does the cache. *)
Theorem cleanup_uploads_removes (upload_folder : Path) (w : World) :
  ∃ w' : World,
    WebServer.cleanup_uploads upload_folder w = (Ok true, w')
    ∧ db w' = db w
    ∧ (is_dir (fs w) upload_folder = true →
       ∀ c : string, is_file (fs w') (upload_folder ++ [c]) = false)
    ∧ ∀ q : Path,
        fs w' !! q = fs w !! q
        ∨ (fs w' !! q = None ∧ is_file (fs w) q = true
           ∧ ∃ c : string, q = upload_folder ++ [c]).
Proof.
  unfold WebServer.cleanup_uploads, bind at 1, get_world, try_except, bind, ret.
  destruct (unlink_files_spec (glob (fs w) upload_folder false) w)
    as (w' & -> & Hdb & _ & Hfs).
  exists w'. split; [done|]. split; [done|]. split.
  - intros Hd c. unfold is_file at 1. rewrite Hfs.
    destruct (is_file (fs w) (upload_folder ++ [c])) eqn:Hf;
      [|rewrite andb_false_r; exact Hf].
    rewrite bool_decide_eq_true_2; [done|].
    apply elem_of_glob. split; [|split].
    + unfold is_file in Hf. by destruct (fs w !! (upload_folder ++ [c])).
    + unfold below. rewrite !andb_true_iff. split; [split|].
      * apply bool_decide_eq_true. by eexists.
      * apply Nat.ltb_lt. rewrite length_app. cbn. lia.
      * rewrite length_app. cbn [length].
        replace (length upload_folder + 1 - length upload_folder)%nat
          with 1%nat by lia.
        cbn [seq forallb]. by rewrite take_app_length, Hd.
    + right. rewrite length_app. cbn. lia.
  - intros q. rewrite Hfs.
    destruct (bool_decide_reflect (q ∈ glob (fs w) upload_folder false))
      as [Hin|]; [|by left].
    destruct (is_file (fs w) q) eqn:Hf; [|by left]. right.
    split; [done|]. split; [done|].
    apply elem_of_glob in Hin as (_ & Hb & [?|Hlen]); [done|].
    destruct (below_prefix _ _ _ Hb) as (rest & -> & Hne & _).
    rewrite length_app in Hlen.
    destruct rest as [|c [|c' rest]]; [done|by exists c|cbn in Hlen; lia].
Qed.

(** ** The reply of Gemini *)

Lemma prefix_cons (a b : ascii) (s t : string) :
  String.prefix (String a s) (String b t)
  = if Ascii.eqb a b then String.prefix s t else false.
Proof.
  change (String.prefix (String a s) (String b t))
    with (if ascii_dec a b then String.prefix s t else false).
  destruct (ascii_dec a b) as [->|Hne].
  - by rewrite Ascii.eqb_refl.
  - apply Ascii.eqb_neq in Hne. by rewrite Hne.
Qed.

Lemma prefix_app (s t : string) : String.prefix s (s +:+ t) = true.
Proof.
  induction s as [|c s IH]; [by destruct t|].
  change (String c s +:+ t) with (String c (s +:+ t)).
  by rewrite prefix_cons, Ascii.eqb_refl.
Qed.

Lemma prefix_no_head (c : ascii) (sep s : string) :
  PyStr.mem_char c s = false → String.prefix (String c sep) s = false.
Proof.
  destruct s as [|d s]; [done|]. cbn [PyStr.mem_char].
  intros [Hc _]%orb_false_iff. by rewrite prefix_cons, Hc.
Qed.

Lemma contains_app_mid (sep pre rest : string) :
  PyStr.contains sep (pre +:+ sep +:+ rest) = true.
Proof.
  induction pre as [|c pre IH].
  - change ("" +:+ sep +:+ rest) with (sep +:+ rest).
    destruct (sep +:+ rest) eqn:E; cbn [PyStr.contains];
      rewrite <- E, prefix_app; done.
  - change (String c pre +:+ sep +:+ rest) with (String c (pre +:+ sep +:+ rest)).
    cbn [PyStr.contains]. by rewrite IH, orb_true_r.
Qed.

Lemma contains_no_head (c : ascii) (sep s : string) :
  PyStr.mem_char c s = false → PyStr.contains (String c sep) s = false.
Proof.
  induction s as [|d s IH]; [done|]. intros H.
  cbn [PyStr.contains]. rewrite (prefix_no_head c sep _ H).
  cbn [PyStr.mem_char] in H. apply orb_false_iff in H as [_ H]. by apply IH.
Qed.

Lemma split_go_skip (sep skipped rest : string) :
  PyStr.split_go sep (String.length skipped) (skipped +:+ rest)
  = PyStr.split_go sep 0 rest.
Proof.
  induction skipped as [|c skipped IH]; [done|].
  change (String c skipped +:+ rest) with (String c (skipped +:+ rest)).
  exact IH.
Qed.

(** The pieces of a text without the first character of the separator. *)
Lemma split_go_none (c : ascii) (sep s : string) :
  PyStr.mem_char c s = false → PyStr.split_go (String c sep) 0 s = [s].
Proof.
  induction s as [|d s IH]; [done|]. intros H.
  cbn [PyStr.split_go]. rewrite (prefix_no_head c sep _ H).
  cbn [PyStr.mem_char] in H. apply orb_false_iff in H as [_ H].
  by rewrite (IH H).
Qed.

(** The pieces of a text up to the first occurrence of the separator. *)
Lemma split_go_first (c : ascii) (sep pre rest : string) :
  PyStr.mem_char c pre = false →
  PyStr.split_go (String c sep) 0 (pre +:+ String c sep +:+ rest)
  = pre :: PyStr.split_go (String c sep) 0 rest.
Proof.
  induction pre as [|d pre IH]; intros H.
  - change ("" +:+ String c sep +:+ rest) with (String c (sep +:+ rest)).
    cbn [PyStr.split_go].
    change (String c (sep +:+ rest)) with (String c sep +:+ rest) at 1.
    rewrite prefix_app.
    replace (String.length (String c sep) - 1)%nat with (String.length sep)
      by (cbn; lia).
    by rewrite split_go_skip.
  - change (String d pre +:+ String c sep +:+ rest)
      with (String d (pre +:+ String c sep +:+ rest)).
    cbn [PyStr.split_go PyStr.mem_char] in *.
    apply orb_false_iff in H as [Hd H].
    rewrite prefix_cons, Hd. by rewrite (IH H).
Qed.

Lemma split_go_nonempty (sep : string) (skip : nat) (s : string) :
  ∃ (x : string) (l : list string), PyStr.split_go sep skip s = x :: l.
Proof.
  revert skip. induction s as [|c s IH]; intros skip; [by eexists _, _|].
  cbn [PyStr.split_go]. destruct skip as [|n]; [|apply IH].
  destruct (String.prefix sep (String c s)); [by eexists _, _|].
  destruct (IH 0%nat) as (x & l & ->). by eexists _, _.
Qed.

Lemma split_go_two (c : ascii) (sep s : string) :
  PyStr.contains (String c sep) s = true →
  ∃ (x y : string) (l : list string),
    PyStr.split_go (String c sep) 0 s = x :: y :: l.
Proof.
  induction s as [|d s IH]; [done|].
  cbn [PyStr.contains PyStr.split_go].
  destruct (String.prefix (String c sep) (String d s)).
  - intros _.
    destruct (split_go_nonempty (String c sep)
                (String.length (String c sep) - 1) s) as (y & l & ->).
    by eexists _, _, _.
  - cbn [orb]. intros (x & y & l & ->)%IH. by eexists _, _, _.
Qed.

Lemma split_go_pre (c : ascii) (sep pre z x : string) (l : list string) :
  PyStr.mem_char c pre = false →
  PyStr.split_go (String c sep) 0 z = x :: l →
  PyStr.split_go (String c sep) 0 (pre +:+ z) = (pre +:+ x) :: l.
Proof.
  intros H Hz. induction pre as [|d pre IH]; [done|].
  change (String d pre +:+ z) with (String d (pre +:+ z)).
  cbn [PyStr.split_go PyStr.mem_char] in *.
  apply orb_false_iff in H as [Hd H]. rewrite prefix_cons, Hd.
  by rewrite (IH H).
Qed.

Lemma no_backtick_strip (s : string) :
  PyStr.mem_char "`"%char s = false →
  PyStr.mem_char "`"%char (PyStr.strip s) = false.
Proof.
  intros H. destruct (PyStr.mem_char "`" (PyStr.strip s)) eqn:E; [|done].
  unfold PyStr.strip in E. apply mem_char_rstrip, mem_char_lstrip in E. congruence.
Qed.

(** The first piece of what follows a json fence: the body, with the rest of
    the text when the closing fence is not itself followed by [json]. *)
Lemma split_json_after (body post : string) :
  PyStr.mem_char "`"%char body = false →
  PyStr.mem_char "`"%char post = false →
  ∃ (y : string) (l : list string),
    PyStr.split "```json" (body +:+ "```" +:+ post) = (body +:+ y) :: l
    ∧ (y = "" ∨ y = "```" +:+ post).
Proof.
  intros Hb Hp.
  assert (∃ (y : string) (l : list string),
            PyStr.split_go "```json" 0 ("```" +:+ post) = y :: l
            ∧ (y = "" ∨ y = "```" +:+ post)) as (y & l & Hy & Hcase).
  { change ("```" +:+ post) with (String "`" (String "`" (String "`" post))).
    cbn [PyStr.split_go].
    destruct (String.prefix "```json" (String "`" (String "`" (String "`" post))));
      [eexists _, _; split; [reflexivity|by left]|].
    rewrite (prefix_cons "`" "`" "``json" (String "`" post)).
    rewrite (prefix_cons "`" "`" "`json" post).
    rewrite (prefix_no_head "`" "json" post Hp).
    change (Ascii.eqb "`" "`") with true. cbn iota.
    rewrite (prefix_cons "`" "`" "``json" post).
    change (Ascii.eqb "`" "`") with true. cbn iota.
    rewrite (prefix_no_head "`" "`json" post Hp).
    rewrite (split_go_none "`" "``json" post Hp).
    eexists _, _. split; [reflexivity|by right]. }
  exists y, l. split; [|done]. unfold PyStr.split. by apply split_go_pre.
Qed.

(** A reply with a json fence: what is handed to [json.loads]. *)
Lemma extract_json_json_fence (text pre body post : string) :
  PyStr.strip text = pre +:+ "```json" +:+ body +:+ "```" +:+ post →
  PyStr.mem_char "`"%char pre = false →
  PyStr.mem_char "`"%char body = false →
  PyStr.mem_char "`"%char post = false →
  AIAnalyzer.extract_json text = Ok (PyStr.strip body).
Proof.
  intros Ht Hpre Hbody Hpost. unfold AIAnalyzer.extract_json. rewrite Ht.
  rewrite (contains_app_mid "```json" pre (body +:+ "```" +:+ post)).
  unfold PyStr.split at 1.
  rewrite (split_go_first "`" "``json" pre (body +:+ "```" +:+ post) Hpre).
  destruct (split_json_after body post Hbody Hpost) as (y & l & Hs & Hy).
  unfold PyStr.split in Hs. rewrite Hs.
  cbn [AIAnalyzer.getitem_list lookup list_lookup rbind].
  assert (∃ l', PyStr.split "```" (body +:+ y) = body :: l') as [l' ->].
  { unfold PyStr.split. destruct Hy as [->| ->].
    - rewrite append_nil_r, (split_go_none "`" "``" body Hbody). by eexists.
    - rewrite (split_go_first "`" "``" body post Hbody). by eexists. }
  done.
Qed.

(** A reply without a backtick is handed over as it is, stripped. *)
Lemma extract_json_unfenced (text : string) :
  PyStr.mem_char "`"%char text = false →
  AIAnalyzer.extract_json text = Ok (PyStr.strip text).
Proof.
  intros H%no_backtick_strip. unfold AIAnalyzer.extract_json.
  by rewrite (contains_no_head "`" "``json" _ H), (contains_no_head "`" "``" _ H).
Qed.

(** X27. The fences never fail.  [extract_json] returns a text for every
    reply: neither index of its two lists is ever out of range.  For a reply
    without a backtick the text is the reply, stripped. *)
Theorem extract_json_total (text : string) :
  (∃ s : string, AIAnalyzer.extract_json text = Ok s)
  ∧ (PyStr.mem_char "`"%char text = false →
     AIAnalyzer.extract_json text = Ok (PyStr.strip text)).
Proof.
  split; [unfold AIAnalyzer.extract_json|].
  - assert (∀ sep1 after, ∃ x l, PyStr.split sep1 after = x :: l) as Hne.
    { intros. apply split_go_nonempty. }
    destruct (PyStr.contains "```json" (PyStr.strip text)) eqn:H1.
    + destruct (split_go_two "`" "``json" _ H1) as (x & y & l & Hs).
      unfold PyStr.split at 1. rewrite Hs.
      destruct (Hne "```" y) as (x' & l' & Hs').
      cbn [AIAnalyzer.getitem_list lookup list_lookup rbind]. rewrite Hs'.
      by eexists.
    + destruct (PyStr.contains "```" (PyStr.strip text)) eqn:H2; [|by eexists].
      destruct (split_go_two "`" "``" _ H2) as (x & y & l & Hs).
      unfold PyStr.split at 1. rewrite Hs.
      destruct (Hne "```" y) as (x' & l' & Hs').
      cbn [AIAnalyzer.getitem_list lookup list_lookup rbind]. rewrite Hs'.
      by eexists.
  - apply extract_json_unfenced.
Qed.

(** *** Serialised values have no space at either end *)



















Lemma contains_step (c d : ascii) (sep s : string) :
  PyStr.contains (String c sep) (String d s)
  = (if Ascii.eqb c d then String.prefix sep s else false)
    || PyStr.contains (String c sep) s.
Proof. cbn [PyStr.contains]. by rewrite prefix_cons. Qed.

Lemma contains_pre (c : ascii) (sep pre z : string) :
  PyStr.mem_char c pre = false →
  PyStr.contains (String c sep) (pre +:+ z) = PyStr.contains (String c sep) z.
Proof.
  induction pre as [|d pre IH]; [done|]. intros H.
  cbn [PyStr.mem_char] in H. apply orb_false_iff in H as [Hd H].
  change (String d pre +:+ z) with (String d (pre +:+ z)).
  by rewrite contains_step, Hd, (IH H).
Qed.

(** A word without a backtick that does not begin a text does not begin the
    text followed by a backtick either. *)
Lemma prefix_before_backtick (p s t : string) :
  PyStr.mem_char "`"%char p = false →
  String.prefix p s = false →
  String.prefix p (s +:+ String "`" t) = false.
Proof.
  revert s. induction p as [|x p IH]; intros s Hp Hs; [by destruct s|].
  cbn [PyStr.mem_char] in Hp. apply orb_false_iff in Hp as [Hx Hp].
  destruct s as [|a s].
  - change ("" +:+ String "`" t) with (String "`" t).
    by rewrite prefix_cons, (Ascii.eqb_sym x "`"), Hx.
  - change (String a s +:+ String "`" t) with (String a (s +:+ String "`" t)).
    rewrite prefix_cons in Hs |- *. destruct (Ascii.eqb x a); [|done].
    by apply IH.
Qed.

(** After a fence: where the next json fence can begin. *)
Lemma contains_json_after_fence (z : string) :
  PyStr.contains "```json" ("```" +:+ z)
  = String.prefix "json" z || String.prefix "`json" z
    || String.prefix "``json" z || PyStr.contains "```json" z.
Proof.
  change ("```" +:+ z) with (String "`" (String "`" (String "`" z))).
  rewrite !contains_step. change (Ascii.eqb "`" "`") with true. cbn iota.
  rewrite !prefix_cons. change (Ascii.eqb "`" "`") with true. cbn iota.
  by rewrite !orb_assoc.
Qed.

Lemma no_json_fence (pre body post : string) :
  PyStr.mem_char "`"%char pre = false →
  PyStr.mem_char "`"%char body = false →
  PyStr.mem_char "`"%char post = false →
  String.prefix "json" body = false →
  String.prefix "json" post = false →
  PyStr.contains "```json" (pre +:+ "```" +:+ body +:+ "```" +:+ post) = false.
Proof.
  intros Hpre Hbody Hpost Hjb Hjp.
  assert (String.prefix "json" (body +:+ "```" +:+ post) = false) as H1.
  { change (body +:+ "```" +:+ post) with (body +:+ String "`" ("``" +:+ post)).
    by apply prefix_before_backtick. }
  assert (String.prefix "`json" (body +:+ "```" +:+ post) = false
          ∧ String.prefix "``json" (body +:+ "```" +:+ post) = false) as [H2 H3].
  { destruct body as [|d body].
    - change ("" +:+ "```" +:+ post) with (String "`" (String "`" (String "`" post))).
      rewrite !prefix_cons. by change (Ascii.eqb "j" "`") with false.
    - cbn [PyStr.mem_char] in Hbody. apply orb_false_iff in Hbody as [Hd _].
      change (String d body +:+ "```" +:+ post)
        with (String d (body +:+ "```" +:+ post)).
      by rewrite !prefix_cons, Hd. }
  rewrite (contains_pre "`" "``json" pre _ Hpre), contains_json_after_fence.
  rewrite H1, H2, H3. cbn [orb].
  rewrite (contains_pre "`" "``json" body _ Hbody), contains_json_after_fence.
  by rewrite Hjp, (prefix_no_head "`" "json" post Hpost),
    (prefix_no_head "`" "`json" post Hpost),
    (contains_no_head "`" "``json" post Hpost).
Qed.

(** A reply with a plain fence: what is handed to [json.loads]. *)
Lemma extract_json_plain_fence (text pre body post : string) :
  PyStr.strip text = pre +:+ "```" +:+ body +:+ "```" +:+ post →
  PyStr.mem_char "`"%char pre = false →
  PyStr.mem_char "`"%char body = false →
  PyStr.mem_char "`"%char post = false →
  String.prefix "json" body = false →
  String.prefix "json" post = false →
  AIAnalyzer.extract_json text = Ok (PyStr.strip body).
Proof.
  intros Ht Hpre Hbody Hpost Hjb Hjp. unfold AIAnalyzer.extract_json. rewrite Ht.
  rewrite (no_json_fence pre body post) by done.
  rewrite (contains_app_mid "```" pre (body +:+ "```" +:+ post)).
  unfold PyStr.split.
  rewrite (split_go_first "`" "``" pre (body +:+ "```" +:+ post) Hpre).
  rewrite (split_go_first "`" "``" body post Hbody).
  cbn [AIAnalyzer.getitem_list lookup list_lookup rbind].
  by rewrite (split_go_none "`" "``" body Hbody).
Qed.

(** X29. A reply in a code fence.  When the stripped reply is some prose, a
    fence, a body, a closing fence and more prose, and neither the prose nor
    the body has a backtick, the text handed to [json.loads] is the body,
    stripped: always for a json fence, and for a plain fence when neither the
    body nor the prose after it begins with [json]. *)
Theorem extract_json_fenced (text pre body post : string) :
  PyStr.mem_char "`"%char pre = false →
  PyStr.mem_char "`"%char body = false →
  PyStr.mem_char "`"%char post = false →
  (PyStr.strip text = pre +:+ "```json" +:+ body +:+ "```" +:+ post →
   AIAnalyzer.extract_json text = Ok (PyStr.strip body))
  ∧ (PyStr.strip text = pre +:+ "```" +:+ body +:+ "```" +:+ post →
     String.prefix "json" body = false →
     String.prefix "json" post = false →
     AIAnalyzer.extract_json text = Ok (PyStr.strip body)).
Proof.
  intros Hpre Hbody Hpost. split.
  - intros Ht. by apply (extract_json_json_fence text pre body post).
  - intros Ht Hjb Hjp. by apply (extract_json_plain_fence text pre body post).
Qed.

Lemma extract_json_fenced_witness :
  AIAnalyzer.extract_json "Here it is: ```json {'a': 1} ``` and good luck."
    = Ok "{'a': 1}"
  ∧ AIAnalyzer.extract_json "Sure. ``` [1, 2] ``` Anything else?" = Ok "[1, 2]".
Proof.
  split.
  - apply (proj1 (extract_json_fenced
                    "Here it is: ```json {'a': 1} ``` and good luck."
                    "Here it is: " " {'a': 1} " " and good luck."
                    eq_refl eq_refl eq_refl)).
    vm_compute. reflexivity.
  - apply (proj2 (extract_json_fenced "Sure. ``` [1, 2] ``` Anything else?"
                    "Sure. " " [1, 2] " " Anything else?"
                    eq_refl eq_refl eq_refl)); vm_compute; reflexivity.
Defined.


(** ** The sweep of the cache *)

(** X30. What the sweep removes.  [cleanup] reads the clock once and
    deletes exactly the rows whose timestamp compares below the time read
    minus [ttl_days] days.  The rows that stay are unchanged, so [get]
    answers for them as before, and no file is touched.  When the days do not fit a float the call raises
    [OverflowError] and deletes nothing; and an organizer without a cache has
    nothing to sweep. *)
Theorem cleanup_sweeps (env : Env) (self : Organizer) (ttl_days : Z) (w : World) :
  match AnalysisCache.float_of_int (ttl_days * 86400) with
  | Ok seconds =>
      let cutoff := (time_at env (clock w) - seconds)%float in
      ∃ w' : World,
        AnalysisCache.cleanup env ttl_days w = (Ok tt, w')
        ∧ fs w' = fs w ∧ calls w' = calls w
        ∧ (∀ (key : string * string) (row : string * float),
             db w' !! key = Some row
             ↔ db w !! key = Some row ∧ (row.2 <? cutoff)%float = false)
        ∧ (∀ fp id : string,
             is_Some (db w' !! (fp, id)) →
             AnalysisCache.get env fp id w' = (fst (AnalysisCache.get env fp id w), w'))
  | Raise e =>
      AnalysisCache.cleanup env ttl_days w = (Raise e, tick w)
  end
  ∧ (has_cache (analyzer self) = false →
     FileOrganizer.cleanup env self ttl_days w = (Ok tt, w)).
Proof.
  split; [|intros H; unfold FileOrganizer.cleanup; by rewrite H].
  unfold AnalysisCache.cleanup, bind, now, lift, modify.
  destruct (AnalysisCache.float_of_int (ttl_days * 86400)) as [seconds|e];
    [|done].
  cbv beta iota zeta.
  set (cutoff := (time_at env (clock w) - seconds)%float).
  eexists. split; [reflexivity|]. split; [done|]. split; [done|].
  assert (∀ (key : string * string) (row : string * float),
            db (set_db (filter (λ r : string * string * (string * float),
                                  (r.2.2 <? cutoff)%float = false) (db w))
                  (tick w)) !! key = Some row
            ↔ db w !! key = Some row ∧ (row.2 <? cutoff)%float = false) as Hrows.
  { intros key row. cbn [db set_db tick]. by rewrite map_lookup_filter_Some. }
  split; [exact Hrows|].
  intros fp id [row Hrow]. pose proof Hrow as [Hold _]%Hrows.
  unfold AnalysisCache.get. rewrite Hrow, Hold. destruct row as [text ts].
  by destruct (loads text) as [[]|v].
Qed.

Lemma cleanup_sweeps_witness :
  let w := MkWorld ∅ {[ ("h1", "gemini") := ("{}", (-1)%float);
                        ("h2", "gemini") := ("{}", 0%float) ]} 0 [] in
  ∃ w' : World,
    AnalysisCache.cleanup Example.env 0 w = (Ok tt, w')
    ∧ db w' !! ("h1", "gemini") = None
    ∧ db w' !! ("h2", "gemini") = Some ("{}", 0%float).
Proof.
  intros w.
  destruct (cleanup_sweeps Example.env (Example.organizer Example.cfg) 0 w)
    as [H _].
  change (AnalysisCache.float_of_int (0 * 86400)) with (@Ok float 0%float) in H.
  destruct H as (w' & Hc & _ & _ & Hrows & _).
  exists w'. split; [exact Hc|]. split.
  - destruct (db w' !! ("h1", "gemini")) as [row|] eqn:E; [|done].
    apply Hrows in E as [E Hts]. vm_compute in E. injection E as <-.
    vm_compute in Hts. discriminate Hts.
  - apply Hrows. split; vm_compute; reflexivity.
Defined.

